(** * Financial markets pipeline: extractors, transformers, loader

    A shallow embedding of the pipeline's Python code.

    - JSON payloads are values of [pyval]; a Python [dict] is an association
      list in insertion order (the order [items()] yields).
    - A Python exception is a value of [exn]; code that may raise returns a
      [pyres]; code that also reads the clock, talks to the provider or writes
      to the store runs in the state-and-exception monad [M].
    - A Python [float] is modelled by the real number it was read from
      ([FNum], an irreducible fraction), with NaN and the infinities apart:
      rounding to binary64 is not modelled.  The range of binary64 is: a
      numeral too large reads as an infinity, and [float(int)] raises
      [OverflowError] on an int too large.
    - Strings are ASCII: [str.upper], [str.lower] and [str.capitalize] act
      on the ASCII letters, [float(s)] and [int(s)] read the ASCII digits
      and skip the ASCII blanks.
    - A frame keeps the cells of its records as Python made them.  The
      storage pandas chooses for a column is modelled where the code casts
      it, for the integers of [volume]; elsewhere it is not: a missing cell
      is [None] whatever its column ([isna] holds of it as it does of NaN).
    - Logging is left out. *)

From Stdlib Require Import ZArith QArith Qcanon Qpower List String Ascii Bool Lia.
From Stdlib Require Import DecimalString.
Import ListNotations.

#[local] Open Scope string_scope.
#[local] Open Scope list_scope.
#[local] Open Scope Z_scope.

(** ** Exceptions and results *)

Inductive exn : Type :=
| TypeError
| KeyError
| ValueError
| AttributeError
| OverflowError
| OtherException (name : string).

Definition exn_eqb (a b : exn) : bool :=
  match a, b with
  | TypeError, TypeError => true
  | KeyError, KeyError => true
  | ValueError, ValueError => true
  | AttributeError, AttributeError => true
  | OverflowError, OverflowError => true
  | OtherException n, OtherException m => String.eqb n m
  | _, _ => false
  end.

Inductive pyres (A : Type) : Type :=
| Ret (a : A)
| Raise (e : exn).

Arguments Ret {A} a.
Arguments Raise {A} e.

Definition pbind {A B} (m : pyres A) (k : A -> pyres B) : pyres B :=
  match m with
  | Ret a => k a
  | Raise e => Raise e
  end.

Declare Scope pyres_scope.
Delimit Scope pyres_scope with pyres.
Notation "x <-- m ;; k" := (pbind m (fun x => k))
  (at level 61, m at next level, right associativity) : pyres_scope.

(** [except (E1, E2, ...)]: the named exceptions are those of [handled]. *)
Definition handles (handled : list exn) (e : exn) : bool :=
  existsb (exn_eqb e) handled.

(** The state-and-exception monad: the state survives a raise. *)
Definition M (S A : Type) : Type := S -> pyres A * S.

Definition ret {S A} (a : A) : M S A := fun s => (Ret a, s).

Definition raise {S A} (e : exn) : M S A := fun s => (Raise e, s).

Definition bind {S A B} (m : M S A) (k : A -> M S B) : M S B :=
  fun s =>
    match m s with
    | (Ret a, s') => k a s'
    | (Raise e, s') => (Raise e, s')
    end.

Definition lift {S A} (r : pyres A) : M S A := fun s => (r, s).

Declare Scope monad_scope.
Delimit Scope monad_scope with monad.
Notation "x <- m ;; k" := (bind m (fun x => k))
  (at level 61, m at next level, right associativity) : monad_scope.
Notation "m ;;; k" := (bind m (fun _ => k))
  (at level 61, right associativity) : monad_scope.

(** [try: m  except handled: continue]: [None] when a handled exception was
    caught, the exception itself when it is not handled. *)
Definition try_except {S A} (handled : list exn) (m : M S A) : M S (option A) :=
  fun s =>
    match m s with
    | (Ret a, s') => (Ret (Some a), s')
    | (Raise e, s') =>
        if handles handled e then (Ret None, s') else (Raise e, s')
    end.

(** [try: m  except Exception as e: h e]. *)
Definition try_catch {S A} (m : M S A) (h : exn -> M S A) : M S A :=
  fun s =>
    match m s with
    | (Ret a, s') => (Ret a, s')
    | (Raise e, s') => h e s'
    end.

(** [try: m  finally: f]: [f] runs in both cases; an exception of [f]
    replaces the outcome of [m]. *)
Definition try_finally {S A} (m : M S A) (f : M S unit) : M S A :=
  fun s =>
    let (r, s') := m s in
    match f s' with
    | (Ret _, s'') => (r, s'')
    | (Raise e, s'') => (Raise e, s'')
    end.

(** [for x in items: acc = body acc x]. *)
Fixpoint for_in {S A B} (body : B -> A -> M S B) (items : list A) (acc : B)
  : M S B :=
  match items with
  | [] => ret acc
  | x :: rest => bind (body acc x) (fun acc' => for_in body rest acc')
  end.

(** ** Floats *)

Inductive pyfloat : Type :=
| FNaN
| FInf (negative : bool)
| FNum (q : Q).

Definition float_of_Z (z : Z) : pyfloat := FNum (inject_Z z).

(** The least magnitude that rounds to infinity in binary64. *)
Definition float_overflow : Z := 2 ^ 1024 - 2 ^ 970.

(** [|m * 10^e|] is that large. *)
Definition overflows (m e : Z) : bool :=
  if 0 <=? e then float_overflow <=? Z.abs m * 10 ^ e
  else float_overflow * 10 ^ (- e) <=? Z.abs m.

(** [m * 10^e] as a float: an irreducible fraction, or an infinity. *)
Definition decimal (m e : Z) : pyfloat :=
  if overflows m e then FInf (m <? 0)
  else if 0 <=? e then FNum (inject_Z (m * 10 ^ e))
  else FNum (Qred (Qmake m (Z.to_pos (10 ^ (- e))))).

Definition is_nan (f : pyfloat) : bool :=
  match f with FNaN => true | _ => false end.

(** ** Characters and strings *)

Definition is_digit (c : ascii) : bool :=
  let n := nat_of_ascii c in (48 <=? n)%nat && (n <=? 57)%nat.

Definition digit_val (c : ascii) : Z := Z.of_nat (nat_of_ascii c - 48).

(** The blanks of C's [isspace]: those pandas skips, and those [float] and
    [int] skip around an ASCII string. *)
Definition is_space (c : ascii) : bool :=
  let n := nat_of_ascii c in
  (n =? 32)%nat || ((9 <=? n)%nat && (n <=? 13)%nat).

Definition upper_char (c : ascii) : ascii :=
  let n := nat_of_ascii c in
  if (97 <=? n)%nat && (n <=? 122)%nat then ascii_of_nat (n - 32) else c.

Definition lower_char (c : ascii) : ascii :=
  let n := nat_of_ascii c in
  if (65 <=? n)%nat && (n <=? 90)%nat then ascii_of_nat (n + 32) else c.

Fixpoint map_string (f : ascii -> ascii) (s : string) : string :=
  match s with
  | EmptyString => EmptyString
  | String c r => String (f c) (map_string f r)
  end.

(** [s.upper()], [s.lower()], [s.capitalize()]. *)
Definition upper (s : string) : string := map_string upper_char s.
Definition lower (s : string) : string := map_string lower_char s.
Definition capitalize (s : string) : string :=
  match s with
  | EmptyString => EmptyString
  | String c r => String (upper_char c) (lower r)
  end.

(** [s.replace(c, '')] for a one-character [c]. *)
Fixpoint remove_char (c : ascii) (s : string) : string :=
  match s with
  | EmptyString => EmptyString
  | String a r =>
      if Ascii.eqb a c then remove_char c r else String a (remove_char c r)
  end.

Fixpoint lstrip (blank : ascii -> bool) (s : string) : string :=
  match s with
  | EmptyString => EmptyString
  | String c r => if blank c then lstrip blank r else s
  end.

Fixpoint rstrip (blank : ascii -> bool) (s : string) : string :=
  match s with
  | EmptyString => EmptyString
  | String c r =>
      match rstrip blank r with
      | EmptyString => if blank c then EmptyString else String c EmptyString
      | r' => String c r'
      end
  end.

Definition strip (blank : ascii -> bool) (s : string) : string :=
  rstrip blank (lstrip blank s).

(** [k in s] for strings: [k] occurs in [s]. *)
Definition occurs (k s : string) : bool :=
  match index 0 k s with Some _ => true | None => false end.

Fixpoint chars (s : string) : list string :=
  match s with
  | EmptyString => []
  | String c r => String c EmptyString :: chars r
  end.

(** *** Numeric literals *)

(** The longest prefix of digits, and what follows it. *)
Fixpoint span_digits (s : string) : string * string :=
  match s with
  | EmptyString => (EmptyString, EmptyString)
  | String c r =>
      if is_digit c then
        let (d, rest) := span_digits r in (String c d, rest)
      else (EmptyString, s)
  end.

Fixpoint digits_value_from (acc : Z) (s : string) : Z :=
  match s with
  | EmptyString => acc
  | String c r => digits_value_from (10 * acc + digit_val c) r
  end.

Definition digits_value (s : string) : Z := digits_value_from 0 s.

Definition is_empty (s : string) : bool :=
  match s with EmptyString => true | _ => false end.

(** An optional sign: [true] for a minus. *)
Definition read_sign (s : string) : bool * string :=
  match s with
  | String c r =>
      if Ascii.eqb c "-" then (true, r)
      else if Ascii.eqb c "+" then (false, r)
      else (false, s)
  | EmptyString => (false, s)
  end.

(** [e[+-]digits] to the end of the string, or nothing. *)
Definition read_exponent (s : string) : option Z :=
  match s with
  | EmptyString => Some 0
  | String c r =>
      if Ascii.eqb c "e" || Ascii.eqb c "E" then
        let (neg, r1) := read_sign r in
        let (d, r2) := span_digits r1 in
        if is_empty d || negb (is_empty r2) then None
        else Some (if neg then - digits_value d else digits_value d)
      else None
  end.

(** After the digits before the dot: a dot and the digits after it, or
    nothing. *)
Definition read_fraction (s : string) : string * string :=
  match s with
  | String c r => if Ascii.eqb c "." then span_digits r else (EmptyString, s)
  | EmptyString => (EmptyString, s)
  end.

(** [digits], [digits.], [digits.digits] or [.digits], then an exponent:
    the digits read as an integer, and the power of ten it is to be
    multiplied by. *)
Definition read_number (s : string) : option (Z * Z) :=
  let (ip, r1) := span_digits s in
  let (fp, r2) := read_fraction r1 in
  if is_empty ip && is_empty fp then None
  else
    match read_exponent r2 with
    | Some e =>
        Some (digits_value (ip ++ fp)%string, e - Z.of_nat (String.length fp))
    | None => None
    end.

(** A signed decimal literal with no surrounding blanks. *)
Definition read_decimal (s : string) : option pyfloat :=
  let (neg, r) := read_sign s in
  match read_number r with
  | Some (m, e) => Some (decimal (if neg then - m else m) e)
  | None => None
  end.

(** [nan], [inf] and [infinity], in either case, for Python. *)
Definition read_special (s : string) : option (bool -> pyfloat) :=
  let l := lower s in
  if String.eqb l "nan" then Some (fun _ => FNaN)
  else if String.eqb l "inf" || String.eqb l "infinity" then Some FInf
  else None.

(** A signed literal of Python, with no surrounding blanks. *)
Definition read_float (s : string) : option pyfloat :=
  match read_special (snd (read_sign s)) with
  | Some f => Some (f (fst (read_sign s)))
  | None => read_decimal s
  end.

(** The spellings of an infinity that pandas compares a text with, in
    either case, when the text is no decimal literal. *)
Definition read_infinity (s : string) : option pyfloat :=
  let l := lower s in
  if String.eqb l "inf" || String.eqb l "+inf" ||
     String.eqb l "infinity" || String.eqb l "+infinity"
  then Some (FInf false)
  else if String.eqb l "-inf" || String.eqb l "-infinity"
  then Some (FInf true)
  else None.

(** Python admits one underscore between two digits; they are dropped. *)
Fixpoint drop_underscores (after_digit : bool) (s : string) : option string :=
  match s with
  | EmptyString => Some EmptyString
  | String c r =>
      if Ascii.eqb c "_" then
        match r with
        | String d _ =>
            if after_digit && is_digit d then drop_underscores false r
            else None
        | EmptyString => None
        end
      else option_map (String c) (drop_underscores (is_digit c) r)
  end.

(** [float(s)] for a string: [None] stands for [ValueError]. *)
Definition float_of_string (s : string) : option pyfloat :=
  match drop_underscores false (strip is_space s) with
  | Some t => read_float t
  | None => None
  end.

(** What [pandas.to_numeric] reads in a string without a NUL character: a
    decimal literal, which may have blanks around it, or else one of the
    spellings of an infinity, which may not. *)
Definition numeric_of_string (s : string) : option pyfloat :=
  match read_decimal (strip is_space s) with
  | Some f => Some f
  | None => read_infinity s
  end.

(** [int(s)] for a string, base 10. *)
Definition int_of_string (s : string) : option Z :=
  match drop_underscores false (strip is_space s) with
  | Some t =>
      let (neg, r) := read_sign t in
      let (d, rest) := span_digits r in
      if is_empty d || negb (is_empty rest) then None
      else Some (if neg then - digits_value d else digits_value d)
  | None => None
  end.

(** ** JSON values as Python sees them *)

#[warnings="-register-all"] Inductive pyval : Type :=
| VNone
| VBool (b : bool)
| VInt (z : Z)
| VFloat (f : pyfloat)
| VStr (s : string)
| VList (l : list pyval)
| VDict (d : list (string * pyval)).

Definition pydict : Type := list (string * pyval).

Definition datetime : Type := Z.

(** *** Dictionaries *)

Fixpoint dict_get (d : pydict) (k : string) : option pyval :=
  match d with
  | [] => None
  | (k', v) :: r => if String.eqb k' k then Some v else dict_get r k
  end.

Definition dict_mem (d : pydict) (k : string) : bool :=
  match dict_get d k with Some _ => true | None => false end.

(** [d[k] = v]: a present key keeps its place, a new one goes last. *)
Fixpoint dict_set (d : pydict) (k : string) (v : pyval) : pydict :=
  match d with
  | [] => [(k, v)]
  | (k', v') :: r =>
      if String.eqb k' k then (k', v) :: r else (k', v') :: dict_set r k v
  end.

Definition dict_keys (d : pydict) : list string := map fst d.

(** *** Truth value, membership, subscripts and methods *)

Definition float_is_zero (f : pyfloat) : bool :=
  match f with
  | FNum q => Qeq_bool q 0
  | _ => false
  end.

(** [bool(v)]. *)
Definition truthy (v : pyval) : bool :=
  match v with
  | VNone => false
  | VBool b => b
  | VInt z => negb (z =? 0)
  | VFloat f => negb (float_is_zero f)
  | VStr s => negb (is_empty s)
  | VList l => match l with [] => false | _ => true end
  | VDict d => match d with [] => false | _ => true end
  end.

Definition is_str (k : string) (v : pyval) : bool :=
  match v with VStr s => String.eqb s k | _ => false end.

(** [k in v] for a string [k]. *)
Definition py_in (k : string) (v : pyval) : pyres bool :=
  match v with
  | VDict d => Ret (dict_mem d k)
  | VList l => Ret (existsb (is_str k) l)
  | VStr s => Ret (occurs k s)
  | _ => Raise TypeError
  end.

(** [v.get(k, default)]: only a [dict] has the method. *)
Definition py_get (v : pyval) (k : string) (default : pyval) : pyres pyval :=
  match v with
  | VDict d => Ret (match dict_get d k with Some x => x | None => default end)
  | _ => Raise AttributeError
  end.

(** [v[k]] for a string [k]. *)
Definition py_getitem (v : pyval) (k : string) : pyres pyval :=
  match v with
  | VDict d =>
      match dict_get d k with Some x => Ret x | None => Raise KeyError end
  | _ => Raise TypeError
  end.

(** [for x in v]: the elements of a list, the keys of a dict, the characters
    of a string. *)
Definition py_iter (v : pyval) : pyres (list pyval) :=
  match v with
  | VList l => Ret l
  | VDict d => Ret (map VStr (dict_keys d))
  | VStr s => Ret (map VStr (chars s))
  | _ => Raise TypeError
  end.

(** [v.items()]. *)
Definition py_items (v : pyval) : pyres pydict :=
  match v with
  | VDict d => Ret d
  | _ => Raise AttributeError
  end.

(** [v.upper()], [v.capitalize()], [v.replace('%', '')]: string methods. *)
Definition py_upper (v : pyval) : pyres string :=
  match v with VStr s => Ret (upper s) | _ => Raise AttributeError end.

Definition py_capitalize (v : pyval) : pyres string :=
  match v with VStr s => Ret (capitalize s) | _ => Raise AttributeError end.

(** A list and a dict have no [replace] either. *)
Definition py_replace_percent (v : pyval) : pyres string :=
  match v with
  | VStr s => Ret (remove_char "%" s)
  | _ => Raise AttributeError
  end.

(** [float(v)]. *)
Definition py_float (v : pyval) : pyres pyfloat :=
  match v with
  | VFloat f => Ret f
  | VInt z =>
      if float_overflow <=? Z.abs z then Raise OverflowError
      else Ret (float_of_Z z)
  | VBool b => Ret (float_of_Z (if b then 1 else 0))
  | VStr s =>
      match float_of_string s with
      | Some f => Ret f
      | None => Raise ValueError
      end
  | _ => Raise TypeError
  end.

(** [int(v)]: a float is truncated towards zero. *)
Definition py_int (v : pyval) : pyres Z :=
  match v with
  | VInt z => Ret z
  | VBool b => Ret (if b then 1 else 0)
  | VFloat FNaN => Raise ValueError
  | VFloat (FInf _) => Raise OverflowError
  | VFloat (FNum q) => Ret (Z.quot (Qnum q) (Zpos (Qden q)))
  | VStr s =>
      match int_of_string s with
      | Some z => Ret z
      | None => Raise ValueError
      end
  | _ => Raise TypeError
  end.

(** [len(v)]. *)
Definition py_len (v : pyval) : pyres Z :=
  match v with
  | VStr s => Ret (Z.of_nat (String.length s))
  | VList l => Ret (Z.of_nat (List.length l))
  | VDict d => Ret (Z.of_nat (List.length d))
  | _ => Raise TypeError
  end.

(** [isinstance(v, list)]. *)
Definition is_list (v : pyval) : bool :=
  match v with VList _ => true | _ => false end.

(** [sep.join(l)]. *)
Fixpoint join (sep : string) (l : list string) : string :=
  match l with
  | [] => EmptyString
  | x :: rest =>
      match rest with
      | [] => x
      | _ => (x ++ sep ++ join sep rest)%string
      end
  end.

(** [str(n)] for a length. *)
Definition str_of_nat (n : nat) : string :=
  NilEmpty.string_of_uint (Nat.to_uint n).

(** ** Frames *)

(** A frame: its column labels and its rows, in order. *)
Record DataFrame (R : Type) : Type := mkFrame {
  columns : list string;
  rows : list R
}.

Arguments mkFrame {R} columns rows.
Arguments columns {R} d.
Arguments rows {R} d.

(** [pd.DataFrame()]. *)
Definition empty_frame {R} : DataFrame R := mkFrame [] [].

(** [pd.DataFrame(records)] for records that all have the keys [cols]: no
    record, no column.  The cells are those of the records: the storage
    pandas infers for a column shows where the code casts the column, and
    is modelled there ([infer_int_dtype]). *)
Definition frame_of_records {R} (cols : list string) (records : list R)
  : DataFrame R :=
  match records with
  | [] => empty_frame
  | _ => mkFrame cols records
  end.

(** [df.empty]: an axis of length 0. *)
Definition empty {R} (df : DataFrame R) : bool :=
  match columns df, rows df with
  | [], _ => true
  | _, [] => true
  | _, _ => false
  end.

(** [len(df)]. *)
Definition len {R} (df : DataFrame R) : Z := Z.of_nat (List.length (rows df)).

(** [pandas.isna] on a cell. *)
Definition isna (v : pyval) : bool :=
  match v with
  | VNone => true
  | VFloat FNaN => true
  | _ => false
  end.

(** [fillna(0)] on a float cell. *)
Definition fillna0 (f : pyfloat) : pyfloat :=
  match f with FNaN => float_of_Z 0 | _ => f end.

(** [pd.to_numeric(errors='coerce')] on a string cell. *)
Definition to_numeric_coerce (s : string) : pyfloat :=
  match numeric_of_string s with
  | Some f => f
  | None => FNaN
  end.

(** The storage pandas gives a column of Python ints: [int64] when all fit
    it, [uint64] when none is negative and all fit that, the Python objects
    themselves otherwise. *)
Inductive int_dtype : Type := Int64 | UInt64 | Object.

Definition fits_int64 (z : Z) : bool := (- 2 ^ 63 <=? z) && (z <? 2 ^ 63).

Definition fits_uint64 (z : Z) : bool := (0 <=? z) && (z <? 2 ^ 64).

Definition infer_int_dtype (column : list Z) : int_dtype :=
  if forallb fits_int64 column then Int64
  else if forallb fits_uint64 column then UInt64
  else Object.

(** [.astype(int)] on a cell of such a column: a [uint64] beyond [int64]
    wraps around, a Python int beyond it raises. *)
Definition astype_int (dtype : int_dtype) (z : Z) : pyres Z :=
  match dtype with
  | Int64 => Ret z
  | UInt64 => Ret (if fits_int64 z then z else z - 2 ^ 64)
  | Object => if fits_int64 z then Ret z else Raise OverflowError
  end.

(** A cast applied to the cells of a column: the first cell that raises
    ends it. *)
Fixpoint map_res {A B} (f : A -> pyres B) (l : list A) : pyres (list B) :=
  match l with
  | [] => Ret []
  | x :: rest =>
      (y <-- f x ;;
       ys <-- map_res f rest ;;
       Ret (y :: ys))%pyres
  end.

(** ** The clock *)

(** [datetime.now()]: the clock is the sequence of its readings, the state is
    the number of readings made so far. *)
Definition datetime_now (clock : nat -> datetime) : M nat datetime :=
  fun k => (Ret (clock k), S k).

(** A record of a transformer: its data cells and the two time stamps that
    close the dict display, ['timestamp': datetime.now()] and
    ['extracted_at': datetime.now()]. *)
Record stamped (F : Type) : Type := mkStamped {
  cells : F;
  timestamp : datetime;
  extracted_at : datetime
}.

Arguments mkStamped {F} cells timestamp extracted_at.
Arguments cells {F} s.
Arguments timestamp {F} s.
Arguments extracted_at {F} s.

(** The dict display: the data entries are evaluated in order, then the two
    readings of the clock. *)
Definition stamp {F} (clock : nat -> datetime) (entries : pyres F)
  : M nat (stamped F) :=
  (c <- lift entries ;;
   t1 <- datetime_now clock ;;
   t2 <- datetime_now clock ;;
   ret (mkStamped c t1 t2))%monad.

(** [all.append(r)] when the [try] block gave a record. *)
Definition append_if {R} (all : list R) (r : option R) : list R :=
  match r with
  | Some x => all ++ [x]
  | None => all
  end.

(** [df[col] = f(df[col])] on the data cells, and [dropna] on them. *)
Definition on_cells {F G} (f : F -> G) (r : stamped F) : stamped G :=
  mkStamped (f (cells r)) (timestamp r) (extracted_at r).

Definition on_cells_res {F G} (f : F -> pyres G) (r : stamped F)
  : pyres (stamped G) :=
  (c <-- f (cells r) ;;
   Ret (mkStamped c (timestamp r) (extracted_at r)))%pyres.

(** [float(v.get(k, 0))]. *)
Definition float_get (v : pyval) (k : string) : pyres pyfloat :=
  (x <-- py_get v k (VInt 0) ;; py_float x)%pyres.

(** ** Stocks transformer *)

Module StocksTransformer.

(** The dict appended to [all_stocks]. *)
Record record : Type := mkRecord {
  r_symbol : pyval;
  r_price : pyfloat;
  r_open : pyfloat;
  r_high : pyfloat;
  r_low : pyfloat;
  r_volume : Z;
  r_latest_trading_day : pyval;
  r_previous_close : pyfloat;
  r_change : pyfloat;
  r_change_percent : string
}.

(** A row of the frame returned: [change_percent] is numeric by then. *)
Record row : Type := mkRow {
  symbol : pyval;
  price : pyfloat;
  open : pyfloat;
  high : pyfloat;
  low : pyfloat;
  volume : Z;
  latest_trading_day : pyval;
  previous_close : pyfloat;
  change : pyfloat;
  change_percent : pyfloat
}.

Definition column_names : list string :=
  ["symbol"; "price"; "open"; "high"; "low"; "volume"; "latest_trading_day";
   "previous_close"; "change"; "change_percent"; "timestamp"; "extracted_at"].

(** The data entries of the dict display, in the order of the source. *)
Definition entries (symbol quote : pyval) : pyres record :=
  (price <-- float_get quote "05. price" ;;
   open <-- float_get quote "02. open" ;;
   high <-- float_get quote "03. high" ;;
   low <-- float_get quote "04. low" ;;
   volume <-- (x <-- py_get quote "06. volume" (VInt 0) ;; py_int x) ;;
   latest_trading_day <-- py_get quote "07. latest trading day" VNone ;;
   previous_close <-- float_get quote "08. previous close" ;;
   change <-- float_get quote "09. change" ;;
   change_percent <--
     (x <-- py_get quote "10. change percent" (VStr "") ;;
      py_replace_percent x) ;;
   Ret (mkRecord symbol price open high low volume latest_trading_day
          previous_close change change_percent))%pyres.

(** The body of [for stock in stocks_data]. *)
Definition step (clock : nat -> datetime) (all_stocks : list (stamped record))
    (stock : pyval) : M nat (list (stamped record)) :=
  (symbol <- lift (py_getitem stock "symbol") ;;
   quote <- lift (py_getitem stock "data") ;;
   r <- try_except [ValueError; KeyError] (stamp clock (entries symbol quote)) ;;
   ret (append_if all_stocks r))%monad.

(** [dropna(subset=['symbol', 'price'])]. *)
Definition keep (r : record) : bool :=
  negb (isna (r_symbol r)) && negb (is_nan (r_price r)).

(** The casts of the data quality checks on a row that was kept: [price] is
    a float already, [volume] is cast from the storage of its column,
    [change_percent] goes through [to_numeric] and [fillna(0)]. *)
Definition quality (volumes : int_dtype) (r : record) : pyres row :=
  (volume <-- astype_int volumes (r_volume r) ;;
   Ret (mkRow (r_symbol r) (r_price r) (r_open r) (r_high r) (r_low r) volume
          (r_latest_trading_day r) (r_previous_close r) (r_change r)
          (fillna0 (to_numeric_coerce (r_change_percent r)))))%pyres.

(** From [df = pd.DataFrame(all_stocks)] to the end. *)
Definition finish (all_stocks : list (stamped record))
  : pyres (DataFrame (stamped row)) :=
  let df := frame_of_records column_names all_stocks in
  if empty df then Ret (mkFrame (columns df) [])
  else
    let volumes :=
      infer_int_dtype (map (fun r => r_volume (cells r)) (rows df)) in
    (kept <--
       map_res (on_cells_res (quality volumes))
         (filter (fun r => keep (cells r)) (rows df)) ;;
     Ret (mkFrame (columns df) kept))%pyres.

Definition transform (clock : nat -> datetime) (stocks_data : pyval)
  : M nat (DataFrame (stamped row)) :=
  (items <- lift (py_iter stocks_data) ;;
   all_stocks <- for_in (step clock) items [] ;;
   lift (finish all_stocks))%monad.

End StocksTransformer.

(** ** Crypto transformer *)

Module CryptoTransformer.

Record row : Type := mkRow {
  symbol : string;
  name : pyval;
  current_price : pyfloat;
  market_cap : pyfloat;
  total_volume : pyfloat;
  price_change_24h : pyfloat
}.

Definition column_names : list string :=
  ["symbol"; "name"; "current_price"; "market_cap"; "total_volume";
   "price_change_24h"; "timestamp"; "extracted_at"].

(** [float(crypto['market_data'][k].get('usd', 0))]. *)
Definition market_usd (crypto : pyval) (k : string) : pyres pyfloat :=
  (md <-- py_getitem crypto "market_data" ;;
   m <-- py_getitem md k ;;
   float_get m "usd")%pyres.

(** The detailed response. *)
Definition detailed (crypto : pyval) : pyres row :=
  (symbol <-- (s <-- py_get crypto "symbol" (VStr "") ;; py_upper s) ;;
   name <-- py_get crypto "name" VNone ;;
   current_price <-- market_usd crypto "current_price" ;;
   market_cap <-- market_usd crypto "market_cap" ;;
   total_volume <-- market_usd crypto "total_volume" ;;
   price_change_24h <--
     (md <-- py_getitem crypto "market_data" ;;
      float_get md "price_change_percentage_24h") ;;
   Ret (mkRow symbol name current_price market_cap total_volume
          price_change_24h))%pyres.

(** [float(data.get(k1, data.get(k2, 0)))]. *)
Definition float_get2 (data : pyval) (k1 k2 : string) : pyres pyfloat :=
  (inner <-- py_get data k2 (VInt 0) ;;
   x <-- py_get data k1 inner ;;
   py_float x)%pyres.

(** The simple response and the markets endpoint. *)
Definition simple (crypto : pyval) : pyres row :=
  (coin_id <-- py_get crypto "id" (VStr "") ;;
   data <-- py_get crypto "data" crypto ;;
   symbol <-- (s <-- py_get crypto "symbol" coin_id ;; py_upper s) ;;
   name <-- (c <-- py_capitalize coin_id ;; py_get crypto "name" (VStr c)) ;;
   current_price <-- float_get2 data "usd" "current_price" ;;
   market_cap <-- float_get2 data "usd_market_cap" "market_cap" ;;
   total_volume <-- float_get2 data "usd_24h_vol" "total_volume" ;;
   price_change_24h <--
     float_get2 data "usd_24h_change" "price_change_percentage_24h" ;;
   Ret (mkRow symbol name current_price market_cap total_volume
          price_change_24h))%pyres.

Definition entries (crypto : pyval) : pyres row :=
  (b <-- py_in "market_data" crypto ;;
   if b then detailed crypto else simple crypto)%pyres.

(** The body of [for crypto in crypto_data]. *)
Definition step (clock : nat -> datetime) (all_crypto : list (stamped row))
    (crypto : pyval) : M nat (list (stamped row)) :=
  (r <- try_except [ValueError; KeyError; TypeError]
          (stamp clock (entries crypto)) ;;
   ret (append_if all_crypto r))%monad.

(** [dropna(subset=['symbol', 'current_price'])]: a [str] is never NA. *)
Definition keep (r : row) : bool := negb (is_nan (current_price r)).

Definition quality (r : row) : row :=
  mkRow (symbol r) (name r) (current_price r) (fillna0 (market_cap r))
    (total_volume r) (fillna0 (price_change_24h r)).

Definition finish (all_crypto : list (stamped row))
  : DataFrame (stamped row) :=
  let df := frame_of_records column_names all_crypto in
  if empty df then df
  else
    mkFrame (columns df)
      (map (on_cells quality) (filter (fun r => keep (cells r)) (rows df))).

Definition transform (clock : nat -> datetime) (crypto_data : pyval)
  : M nat (DataFrame (stamped row)) :=
  if negb (truthy crypto_data) then ret empty_frame
  else
    (items <- lift (py_iter crypto_data) ;;
     all_crypto <- for_in (step clock) items [] ;;
     ret (finish all_crypto))%monad.

End CryptoTransformer.

(** ** Forex transformer *)

Module ForexTransformer.

Record row : Type := mkRow {
  base_currency : pyval;
  target_currency : string;
  exchange_rate : pyfloat;
  rate_date : pyval
}.

Definition column_names : list string :=
  ["base_currency"; "target_currency"; "exchange_rate"; "rate_date";
   "timestamp"; "extracted_at"].

Definition entries (base_currency rate_date : pyval)
    (item : string * pyval) : pyres row :=
  (exchange_rate <-- py_float (snd item) ;;
   Ret (mkRow base_currency (fst item) exchange_rate rate_date))%pyres.

(** The body of [for target_currency, exchange_rate in rates.items()]. *)
Definition step (clock : nat -> datetime) (base_currency rate_date : pyval)
    (all_rates : list (stamped row)) (item : string * pyval)
  : M nat (list (stamped row)) :=
  (r <- try_except [ValueError; TypeError]
          (stamp clock (entries base_currency rate_date item)) ;;
   ret (append_if all_rates r))%monad.

(** [dropna(subset=['base_currency', 'target_currency', 'exchange_rate'])]. *)
Definition keep (r : row) : bool :=
  negb (isna (base_currency r)) && negb (is_nan (exchange_rate r)).

Definition finish (all_rates : list (stamped row))
  : DataFrame (stamped row) :=
  let df := frame_of_records column_names all_rates in
  if empty df then df
  else mkFrame (columns df) (filter (fun r => keep (cells r)) (rows df)).

Definition transform (clock : nat -> datetime) (forex_data : pyval)
  : M nat (DataFrame (stamped row)) :=
  if negb (truthy forex_data) then ret empty_frame
  else
    (has_rates <- lift (py_in "rates" forex_data) ;;
     if negb has_rates then ret empty_frame
     else
       base_currency <- lift (py_getitem forex_data "base") ;;
       rates <- lift (py_getitem forex_data "rates") ;;
       rate_date <- lift (py_get forex_data "date" VNone) ;;
       items <- lift (py_items rates) ;;
       all_rates <- for_in (step clock base_currency rate_date) items [] ;;
       ret (finish all_rates))%monad.

End ForexTransformer.

(** ** Extractors *)

(** A GET request: the path segment after the base URL and the query. *)
Record request : Type := mkRequest {
  endpoint : string;
  params : list (string * string)
}.

(** What an extractor does to the outside: a request sent, with the body it
    got back, and a blocking wait. *)
Inductive event : Type :=
| Fetch (r : request) (body : pyval)
| Pause (seconds : Z).

Module BaseExtractor.
Section Provider.

(** The provider and the network: a request answered in a state of the
    world gives a body, [VNone] on failure, and the next state. *)
Variable World : Type.
Variable http_get : request -> World -> pyval * World.
Variable elapse : Z -> World -> World.

Record env : Type := mkEnv {
  world : World;
  events : list event
}.

(** Modelled from the spec: [BaseExtractor.get], whose file is not among the
    sources.  It issues one GET request and returns the parsed JSON body, or
    a failure signal ([None]) on a transport error or a non-success status;
    it never raises and does not retry. *)
Definition get (endpoint : string) (params : list (string * string))
  : M env pyval :=
  fun s =>
    let r := mkRequest endpoint params in
    let (body, w) := http_get r (world s) in
    (Ret body, mkEnv w (events s ++ [Fetch r body])).

(** [time.sleep(seconds)]: a negative length is a [ValueError]. *)
Definition sleep (seconds : Z) : M env unit :=
  fun s =>
    if seconds <? 0 then (Raise ValueError, s)
    else (Ret tt, mkEnv (elapse seconds (world s)) (events s ++ [Pause seconds])).

End Provider.

Arguments world {World} e.
Arguments events {World} e.
Arguments mkEnv {World} world events.

End BaseExtractor.

(** [data and k in data]. *)
Definition truthy_and_in (k : string) (data : pyval) : pyres bool :=
  if truthy data then py_in k data else Ret false.

Module StocksExtractor.
Section Provider.

Variable World : Type.
Variable http_get : request -> World -> pyval * World.
Variable elapse : Z -> World -> World.
Variable api_key : string.

Definition quote_request (symbol : string) : request :=
  mkRequest ""
    [("function", "GLOBAL_QUOTE"); ("symbol", symbol); ("apikey", api_key)].

Definition extract_stock_price (symbol : string)
  : M (BaseExtractor.env World) pyval :=
  (data <- BaseExtractor.get World http_get
             (endpoint (quote_request symbol)) (params (quote_request symbol)) ;;
   found <- lift (truthy_and_in "Global Quote" data) ;;
   if found then
     quote <- lift (py_getitem data "Global Quote") ;;
     if truthy quote then
       ret (VDict [("symbol", VStr symbol); ("data", quote)])
     else ret VNone
   else ret VNone)%monad.

(** [enumerate(symbols)]. *)
Definition enumerate {A} (l : list A) : list (nat * A) :=
  combine (seq 0 (List.length l)) l.

(** The body of [for i, symbol in enumerate(symbols)]; [n] is
    [len(symbols)]. *)
Definition step (n : nat) (delay : Z) (results : list pyval)
    (item : nat * string) : M (BaseExtractor.env World) (list pyval) :=
  (data <- extract_stock_price (snd item) ;;
   let results' := if truthy data then results ++ [data] else results in
   (if Z.of_nat (fst item) <? Z.of_nat n - 1
    then BaseExtractor.sleep World elapse delay
    else ret tt) ;;;
   ret results')%monad.

(** [delay: int = 12]. *)
Definition default_delay : Z := 12.

Definition extract_multiple_stocks (symbols : list string) (delay : Z)
  : M (BaseExtractor.env World) (list pyval) :=
  for_in (step (List.length symbols) delay) (enumerate symbols) [].

End Provider.
End StocksExtractor.

(** [for x in items: acc = f acc x], without state. *)
Fixpoint fold_res {A B} (f : B -> A -> pyres B) (items : list A) (acc : B)
  : pyres B :=
  match items with
  | [] => Ret acc
  | x :: rest => pbind (f acc x) (fun acc' => fold_res f rest acc')
  end.

Module ForexExtractor.
Section Provider.

Variable World : Type.
Variable http_get : request -> World -> pyval * World.

(** One turn of the dict comprehension
    [{currency: data['rates'].get(currency) for currency in target_currencies
      if currency in data['rates']}]. *)
Definition pick (data : pyval) (acc : pydict) (currency : string)
  : pyres pydict :=
  (rates <-- py_getitem data "rates" ;;
   present <-- py_in currency rates ;;
   if present then
     rates' <-- py_getitem data "rates" ;;
     v <-- py_get rates' currency VNone ;;
     Ret (dict_set acc currency v)
   else Ret acc)%pyres.

Definition extract_exchange_rates (base_currency : string)
    (target_currencies : list string) : M (BaseExtractor.env World) pyval :=
  (data <- BaseExtractor.get World http_get base_currency [] ;;
   found <- lift (truthy_and_in "rates" data) ;;
   if found then
     date <- lift (py_get data "date" VNone) ;;
     rates <- lift (fold_res (pick data) target_currencies []) ;;
     ret (VDict [("base", VStr base_currency); ("date", date);
                 ("rates", VDict rates)])
   else ret VNone)%monad.

(** The log line of the success branch evaluates
    [len(data.get('rates', {}))] before the body is returned. *)
Definition extract_all_rates (base_currency : string)
  : M (BaseExtractor.env World) pyval :=
  (data <- BaseExtractor.get World http_get base_currency [] ;;
   if truthy data then
     lift (rates <-- py_get data "rates" (VDict []) ;; py_len rates)%pyres ;;;
     ret data
   else ret VNone)%monad.

End Provider.
End ForexExtractor.

Module CryptoExtractor.
Section Provider.

Variable World : Type.
Variable http_get : request -> World -> pyval * World.

Definition prices_request (coin_ids : list string) : request :=
  mkRequest "simple/price"
    [("ids", join "," coin_ids); ("vs_currencies", "usd");
     ("include_market_cap", "true"); ("include_24hr_vol", "true");
     ("include_24hr_change", "true")].

(** The dict appended to [results] for an item of the body. *)
Definition wrap (item : string * pyval) : pyval :=
  VDict [("id", VStr (fst item)); ("data", snd item)].

Definition extract_crypto_prices (coin_ids : list string)
  : M (BaseExtractor.env World) pyval :=
  (data <- BaseExtractor.get World http_get
             (endpoint (prices_request coin_ids))
             (params (prices_request coin_ids)) ;;
   if truthy data then
     items <- lift (py_items data) ;;
     ret (VList (map wrap items))
   else ret VNone)%monad.

(** The values of [per_page], [page] and [sparkline] are the number of
    ids, [1] and [False], as they are written in the query. *)
Definition details_request (coin_ids : list string) : request :=
  mkRequest "coins/markets"
    [("ids", join "," coin_ids); ("vs_currency", "usd");
     ("order", "market_cap_desc");
     ("per_page", str_of_nat (List.length coin_ids)); ("page", "1");
     ("sparkline", "False"); ("price_change_percentage", "24h")].

Definition extract_crypto_details (coin_ids : list string)
  : M (BaseExtractor.env World) pyval :=
  (data <- BaseExtractor.get World http_get
             (endpoint (details_request coin_ids))
             (params (details_request coin_ids)) ;;
   if truthy data && is_list data then ret data else ret VNone)%monad.

End Provider.
End CryptoExtractor.

(** ** Schema *)

Module DatabaseSchema.

(** The three declared tables. *)
Inductive model : Type := Stock | Crypto | Forex.

Definition tablename (m : model) : string :=
  match m with
  | Stock => "stocks"
  | Crypto => "crypto"
  | Forex => "forex"
  end.

(** The columns of a table, in the order of their declaration. *)
Definition table_columns (m : model) : list string :=
  match m with
  | Stock =>
      ["id"; "symbol"; "price"; "open"; "high"; "low"; "volume";
       "latest_trading_day"; "previous_close"; "change"; "change_percent";
       "timestamp"; "extracted_at"]
  | Crypto =>
      ["id"; "symbol"; "name"; "current_price"; "market_cap"; "total_volume";
       "price_change_24h"; "timestamp"; "extracted_at"]
  | Forex =>
      ["id"; "base_currency"; "target_currency"; "exchange_rate"; "rate_date";
       "timestamp"; "extracted_at"]
  end.

(** The column that is the auto-incremented primary key. *)
Definition primary_key (m : model) : string := "id".

(** A [DatabaseManager]: an engine is modelled by its URL, a session factory
    by the URL of the engine it is bound to. *)
Record DatabaseManager : Type := mkManager {
  db_path : string;
  engine : option string;
  Session : option string
}.

(** [DatabaseManager(db_path)]. *)
Definition new_manager (db_path : string) : DatabaseManager :=
  mkManager db_path None None.

Definition connect (m : DatabaseManager) : DatabaseManager :=
  let url := ("sqlite:///" ++ db_path m)%string in
  mkManager (db_path m) (Some url) (Some url).

(** [get_session]: the manager after the call, and the engine the new
    session is bound to. *)
Definition get_session (m : DatabaseManager) : DatabaseManager * string :=
  let m' := match Session m with Some _ => m | None => connect m end in
  (m', match Session m' with Some url => url | None => EmptyString end).

End DatabaseSchema.

(** ** Loader *)

Module DataLoader.
Section Store.

(** The store behind [DataFrame.to_sql]: a write of a frame to a table
    either succeeds or raises, and leaves the store in some state. *)
Variable Store : Type.
Variable R : Type.
Variable to_sql : string -> DataFrame R -> Store -> pyres unit * Store.

(** The store and the writes asked of it so far: table and row count. *)
Record db : Type := mkDb {
  store : Store;
  writes : list (string * Z)
}.

(** [df.to_sql(table, engine, if_exists='append', index=False)]. *)
Definition df_to_sql (table : string) (df : DataFrame R) : M db unit :=
  fun s =>
    let (r, st) := to_sql table df (store s) in
    (r, mkDb st (writes s ++ [(table, len df)])).

Definition load (table : string) (df : DataFrame R) : M db Z :=
  if empty df then ret 0
  else
    try_catch
      (df_to_sql table df ;;; ret (len df))%monad
      (fun e => raise e).

Definition load_stocks (df : DataFrame R) : M db Z := load "stocks" df.
Definition load_crypto (df : DataFrame R) : M db Z := load "crypto" df.
Definition load_forex (df : DataFrame R) : M db Z := load "forex" df.

End Store.

Arguments store {Store} d.
Arguments writes {Store} d.
Arguments mkDb {Store} store writes.

Section Counts.

(** [session.query(Model).count()] on the store, which may raise. *)
Variable Store : Type.
Variable count_rows : string -> Store -> pyres Z.

(** A loader: its manager, the store with the writes asked of it, and the
    sessions that are open, each by the engine it is bound to. *)
Record loader : Type := mkLoader {
  db_manager : DatabaseSchema.DatabaseManager;
  database : db Store;
  sessions : list string
}.

(** [self.db_manager.get_session()]. *)
Definition open_session : M loader string :=
  fun s =>
    let (m, url) := DatabaseSchema.get_session (db_manager s) in
    (Ret url, mkLoader m (database s) (url :: sessions s)).

(** [session.close()]. *)
Definition close_session : M loader unit :=
  fun s => (Ret tt, mkLoader (db_manager s) (database s) (tl (sessions s))).

(** [session.query(Model).count()]. *)
Definition query_count (m : DatabaseSchema.model) : M loader Z :=
  fun s => (count_rows (DatabaseSchema.tablename m) (store (database s)), s).

Definition get_record_counts : M loader pyval :=
  (session <- open_session ;;
   try_finally
     (stock_count <- query_count DatabaseSchema.Stock ;;
      crypto_count <- query_count DatabaseSchema.Crypto ;;
      forex_count <- query_count DatabaseSchema.Forex ;;
      ret (VDict [("stocks", VInt stock_count);
                  ("crypto", VInt crypto_count);
                  ("forex", VInt forex_count)]))
     close_session)%monad.

(** A load, on the store of the loader. *)
Definition on_database {A} (m : M (db Store) A) : M loader A :=
  fun s =>
    let (r, d) := m (database s) in
    (r, mkLoader (db_manager s) d (sessions s)).

End Counts.

Arguments db_manager {Store} l.
Arguments database {Store} l.
Arguments sessions {Store} l.
Arguments mkLoader {Store} db_manager database sessions.

End DataLoader.

(** ** Demo pipeline *)

Module DemoPipeline.
Section Run.

Variable World : Type.
Variable http_get : request -> World -> pyval * World.
Variable elapse : Z -> World -> World.
Variable clock : nat -> datetime.

(** What the demo touches: the provider, the clock, and the CSV files
    written. *)
Record state : Type := mkState {
  env : BaseExtractor.env World;
  reads : nat;
  files : list string
}.

(** What is done with the frames once the loop is over:
    [pd.DataFrame(transformed_data)], [to_csv] and the printing. *)
Variable save : list (DataFrame (stamped StocksTransformer.row)) -> M state unit.

Definition in_env {A} (m : M (BaseExtractor.env World) A) : M state A :=
  fun s => let (r, e) := m (env s) in (r, mkState e (reads s) (files s)).

Definition in_clock {A} (m : M nat A) : M state A :=
  fun s => let (r, k) := m (reads s) in (r, mkState (env s) k (files s)).

(** [bool(df)]: pandas refuses the truth value of a frame. *)
Definition frame_truth {R} (df : DataFrame R) : pyres bool :=
  Raise ValueError.

Definition symbols : list string := ["AAPL"; "MSFT"; "GOOGL"].

(** The body of [for stock in raw_data]. *)
Definition step
    (transformed_data : list (DataFrame (stamped StocksTransformer.row)))
    (stock : pyval)
  : M state (list (DataFrame (stamped StocksTransformer.row))) :=
  (transformed <- in_clock (StocksTransformer.transform clock stock) ;;
   keep <- lift (frame_truth transformed) ;;
   ret (if keep then transformed_data ++ [transformed]
        else transformed_data))%monad.

Definition run_stocks_pipeline (api_key : string) : M state unit :=
  (raw_data <- in_env (StocksExtractor.extract_multiple_stocks World http_get
                         elapse api_key symbols 12) ;;
   if negb (truthy (VList raw_data)) then ret tt
   else
     transformed_data <- for_in step raw_data [] ;;
     match transformed_data with
     | [] => ret tt
     | _ => save transformed_data
     end)%monad.

End Run.

Arguments env {World} s.
Arguments reads {World} s.
Arguments files {World} s.
Arguments mkState {World} env reads files.

End DemoPipeline.

(** * Notions of the statements *)

(** ** The loop of a transformer, without the clock *)

(** What [try ... except handled] makes of the data entries. *)
Definition caught {A} (handled : list exn) (r : pyres A) : pyres (option A) :=
  match r with
  | Ret a => Ret (Some a)
  | Raise e => if handles handled e then Ret None else Raise e
  end.

(** The cells of the records a loop appends, in order; the first exception
    that is not handled ends it. *)
Fixpoint gather {A F} (attempt : A -> pyres (option F)) (items : list A)
  : pyres (list F) :=
  match items with
  | [] => Ret []
  | x :: rest =>
      (o <-- attempt x ;;
       l <-- gather attempt rest ;;
       Ret (match o with Some c => c :: l | None => l end))%pyres
  end.

(** The records appended when the clock has been read [k] times before. *)
Fixpoint stamp_all {F} (clock : nat -> datetime) (k : nat) (l : list F)
  : list (stamped F) :=
  match l with
  | [] => []
  | c :: rest =>
      mkStamped c (clock k) (clock (S k)) :: stamp_all clock (S (S k)) rest
  end.

(** A loop body that appends the stamped cells of [attempt], or nothing. *)
Definition follows {A F} (clock : nat -> datetime)
    (step : list (stamped F) -> A -> M nat (list (stamped F)))
    (attempt : A -> pyres (option F)) : Prop :=
  forall acc x k,
    step acc x k =
    match attempt x with
    | Ret (Some c) =>
        (Ret (acc ++ [mkStamped c (clock k) (clock (S k))]), S (S k))
    | Ret None => (Ret acc, k)
    | Raise e => (Raise e, k)
    end.

(** A frame without its two time columns. *)
Definition untimed {F} (df : DataFrame (stamped F)) : DataFrame F :=
  mkFrame (columns df) (map cells (rows df)).

Definition res_map {A B} (f : A -> B) (r : pyres A) : pyres B :=
  match r with
  | Ret a => Ret (f a)
  | Raise e => Raise e
  end.

Definition stocks_attempt (stock : pyval)
  : pyres (option StocksTransformer.record) :=
  (symbol <-- py_getitem stock "symbol" ;;
   quote <-- py_getitem stock "data" ;;
   caught [ValueError; KeyError] (StocksTransformer.entries symbol quote))%pyres.

Definition stocks_clean (l : list StocksTransformer.record)
  : pyres (DataFrame StocksTransformer.row) :=
  match l with
  | [] => Ret empty_frame
  | _ =>
      (kept <--
         map_res
           (StocksTransformer.quality
              (infer_int_dtype (map StocksTransformer.r_volume l)))
           (filter StocksTransformer.keep l) ;;
       Ret (mkFrame StocksTransformer.column_names kept))%pyres
  end.

Definition stocks_cells (stocks_data : pyval)
  : pyres (DataFrame StocksTransformer.row) :=
  (items <-- py_iter stocks_data ;;
   l <-- gather stocks_attempt items ;;
   stocks_clean l)%pyres.

Definition crypto_attempt (crypto : pyval)
  : pyres (option CryptoTransformer.row) :=
  caught [ValueError; KeyError; TypeError] (CryptoTransformer.entries crypto).

Definition crypto_clean (l : list CryptoTransformer.row)
  : DataFrame CryptoTransformer.row :=
  match l with
  | [] => empty_frame
  | _ =>
      mkFrame CryptoTransformer.column_names
        (map CryptoTransformer.quality (filter CryptoTransformer.keep l))
  end.

Definition crypto_cells (crypto_data : pyval)
  : pyres (DataFrame CryptoTransformer.row) :=
  if negb (truthy crypto_data) then Ret empty_frame
  else
    (items <-- py_iter crypto_data ;;
     l <-- gather crypto_attempt items ;;
     Ret (crypto_clean l))%pyres.

Definition forex_attempt (base_currency rate_date : pyval)
    (item : string * pyval) : pyres (option ForexTransformer.row) :=
  caught [ValueError; TypeError]
    (ForexTransformer.entries base_currency rate_date item).

Definition forex_clean (l : list ForexTransformer.row)
  : DataFrame ForexTransformer.row :=
  match l with
  | [] => empty_frame
  | _ =>
      mkFrame ForexTransformer.column_names (filter ForexTransformer.keep l)
  end.

Definition forex_cells (forex_data : pyval)
  : pyres (DataFrame ForexTransformer.row) :=
  if negb (truthy forex_data) then Ret empty_frame
  else
    (has_rates <-- py_in "rates" forex_data ;;
     if negb has_rates then Ret empty_frame
     else
       base_currency <-- py_getitem forex_data "base" ;;
       rates <-- py_getitem forex_data "rates" ;;
       rate_date <-- py_get forex_data "date" VNone ;;
       items <-- py_items rates ;;
       l <-- gather (forex_attempt base_currency rate_date) items ;;
       Ret (forex_clean l))%pyres.

(** ** Prices, numerals, rates, traces *)

(** The current price is absent under all the recognized key variants: in
    the nested form when there is a [market_data] mapping, else under [usd]
    and [current_price] of the record's data. *)
Definition price_absent (d : pydict) : bool :=
  match dict_get d "market_data" with
  | Some (VDict md) =>
      match dict_get md "current_price" with
      | Some (VDict cp) => negb (dict_mem cp "usd")
      | Some _ => false
      | None => true
      end
  | Some _ => false
  | None =>
      match dict_get d "data" with
      | Some (VDict data) =>
          negb (dict_mem data "usd") && negb (dict_mem data "current_price")
      | Some _ => false
      | None => negb (dict_mem d "usd") && negb (dict_mem d "current_price")
      end
  end.

(** *** Numerals *)

Fixpoint all_chars (p : ascii -> bool) (s : string) : bool :=
  match s with
  | EmptyString => true
  | String c r => p c && all_chars p r
  end.

Definition all_digits (s : string) : bool := all_chars is_digit s.

Definition blanks (s : string) : bool := all_chars is_space s.

Definition no_blank (s : string) : bool :=
  all_chars (fun c => negb (is_space c)) s.

Inductive sign : Type := NoSign | Plus | Minus.

Definition sign_text (sg : sign) : string :=
  match sg with
  | NoSign => ""
  | Plus => "+"
  | Minus => "-"
  end.

Definition signed (sg : sign) (z : Z) : Z :=
  match sg with
  | Minus => - z
  | _ => z
  end.

(** A numeral: a sign or none, digits before a dot and digits after it,
    without the dot when [n_frac] is [None], and an exponent or none: its
    letter, its sign and its digits. *)
Record numeral : Type := mkNumeral {
  n_sign : sign;
  n_int : string;
  n_frac : option string;
  n_exp : option (ascii * sign * string)
}.

Definition fraction_text (fr : option string) : string :=
  match fr with
  | Some fp => String "." fp
  | None => ""
  end.

Definition fraction_digits (fr : option string) : string :=
  match fr with
  | Some fp => fp
  | None => ""
  end.

Definition exponent_text (ex : option (ascii * sign * string)) : string :=
  match ex with
  | Some (c, sg, d) => String c (sign_text sg ++ d)
  | None => ""
  end.

Definition exponent_digits (ex : option (ascii * sign * string)) : string :=
  match ex with
  | Some (_, _, d) => d
  | None => ""
  end.

Definition exponent_value (ex : option (ascii * sign * string)) : Z :=
  match ex with
  | Some (_, sg, d) => signed sg (digits_value d)
  | None => 0
  end.

(** An exponent has the letter [e] or [E] and one digit at least. *)
Definition exponent_ok (ex : option (ascii * sign * string)) : bool :=
  match ex with
  | Some (c, _, d) =>
      (Ascii.eqb c "e" || Ascii.eqb c "E") && all_digits d &&
      negb (is_empty d)
  | None => true
  end.

(** One digit at least, before or after the dot. *)
Definition well_formed (n : numeral) : bool :=
  all_digits (n_int n) && all_digits (fraction_digits (n_frac n)) &&
  negb (is_empty (n_int n) && is_empty (fraction_digits (n_frac n))) &&
  exponent_ok (n_exp n).

Definition numeral_text (n : numeral) : string :=
  (sign_text (n_sign n) ++ n_int n ++ fraction_text (n_frac n) ++
   exponent_text (n_exp n))%string.

(** The power of ten the digits of a numeral are multiplied by: its
    exponent, less the number of digits after the dot. *)
Definition numeral_scale (n : numeral) : Z :=
  exponent_value (n_exp n) -
  Z.of_nat (String.length (fraction_digits (n_frac n))).

(** The number a numeral writes: its digits read as an integer, with its
    sign, times that power of ten. *)
Definition numeral_value (n : numeral) : Q :=
  Qmult
    (inject_Z
       (signed (n_sign n)
          (digits_value (n_int n ++ fraction_digits (n_frac n)))))
    (Qpower (inject_Z 10) (numeral_scale n)).

(** A numeral that pandas reads digit for digit: seventeen digits at most,
    and an exponent of three digits at most that is at most 290. *)
Definition short (n : numeral) : bool :=
  (String.length (n_int n) + String.length (fraction_digits (n_frac n))
   <=? 17)%nat &&
  (String.length (exponent_digits (n_exp n)) <=? 3)%nat &&
  (digits_value (exponent_digits (n_exp n)) <=? 290).

(** The text writes the numeral: the numeral, with blanks around it or
    none. *)
Definition writes (t : string) (n : numeral) : Prop :=
  well_formed n = true /\
  exists pre post,
    blanks pre = true /\ blanks post = true /\
    t = (pre ++ numeral_text n ++ post)%string.

(** The spellings of an infinity, in lower case. *)
Definition plus_infinity : list string :=
  ["inf"; "+inf"; "infinity"; "+infinity"].

Definition minus_infinity : list string := ["-inf"; "-infinity"].

Fixpoint has_nul (s : string) : bool :=
  match s with
  | EmptyString => false
  | String c r => Ascii.eqb c "000" || has_nul r
  end.

(** The rates the comprehension keeps of a rate table, with what was kept
    before. *)
Fixpoint filter_rates (rates : pydict) (targets : list string) (acc : pydict)
  : pydict :=
  match targets with
  | [] => acc
  | c :: rest =>
      filter_rates rates rest
        (match dict_get rates c with
         | Some v => dict_set acc c v
         | None => acc
         end)
  end.

(** A body as the providers send them: a JSON object, or the failure
    signal. *)
Definition object_or_none (v : pyval) : bool :=
  match v with
  | VDict _ | VNone => true
  | _ => false
  end.

(** The quote a body holds, when it holds one that is not empty. *)
Definition quote_of (body : pyval) : option pyval :=
  match body with
  | VDict d =>
      match dict_get d "Global Quote" with
      | Some q => if truthy q then Some q else None
      | None => None
      end
  | _ => None
  end.

(** A quote tagged with the symbol it was requested for. *)
Definition tagged (p : string * pyval) : pyval :=
  VDict [("symbol", VStr (fst p)); ("data", snd p)].

(** The successfully extracted quotes among the bodies received. *)
Fixpoint successes (l : list (string * pyval)) : list pyval :=
  match l with
  | [] => []
  | (symbol, body) :: rest =>
      match quote_of body with
      | Some q => tagged (symbol, q) :: successes rest
      | None => successes rest
      end
  end.

(** The fetches of a trace, in order. *)
Fixpoint fetched (t : list event) : list (request * pyval) :=
  match t with
  | [] => []
  | Fetch r b :: rest => (r, b) :: fetched rest
  | Pause _ :: rest => fetched rest
  end.

(** A trace of fetches with a pause of [delay] between each two, and none
    after the last. *)
Fixpoint paced (delay : Z) (t : list event) : bool :=
  match t with
  | [] => true
  | Fetch _ _ :: rest =>
      match rest with
      | [] => true
      | Pause d :: ((Fetch _ _ :: _) as rest') => (d =? delay) && paced delay rest'
      | _ => false
      end
  | Pause _ :: _ => false
  end.

(** The trace of a list of fetches made at that pace. *)
Fixpoint pace (delay : Z) (l : list (request * pyval)) : list event :=
  match l with
  | [] => []
  | (r, b) :: rest =>
      match rest with
      | [] => [Fetch r b]
      | _ => Fetch r b :: Pause delay :: pace delay rest
      end
  end.

(** The bodies the provider sends for requests made one after the other,
    with a wait of [delay] between each two, and the world after the
    last. *)
Fixpoint answers {World} (http_get : request -> World -> pyval * World)
    (elapse : Z -> World -> World) (delay : Z) (requests : list request)
    (w : World) : list pyval * World :=
  match requests with
  | [] => ([], w)
  | r :: rest =>
      match rest with
      | [] => ([fst (http_get r w)], snd (http_get r w))
      | _ =>
          (fst (http_get r w)
           :: fst (answers http_get elapse delay rest
                     (elapse delay (snd (http_get r w)))),
           snd (answers http_get elapse delay rest
                  (elapse delay (snd (http_get r w)))))
      end
  end.

(** [sub] keeps some elements of [l], in their order. *)
Inductive subseq {A : Type} : list A -> list A -> Prop :=
| subseq_nil : subseq [] []
| subseq_skip (x : A) (sub l : list A) : subseq sub l -> subseq sub (x :: l)
| subseq_keep (x : A) (sub l : list A) :
    subseq sub l -> subseq (x :: sub) (x :: l).

(** * Sample inputs *)

(** A clock whose k-th reading is [k]. *)
Definition ticking_clock (k : nat) : datetime := Z.of_nat k.

(** The quote of the end-to-end example, with a change percent of 1.23%. *)
Definition aapl : pyval :=
  VDict [("symbol", VStr "AAPL");
         ("data", VDict [("05. price", VStr "150.00");
                         ("06. volume", VStr "1000000");
                         ("09. change", VStr "1.5");
                         ("10. change percent", VStr "1.23%")])].

(** The frame the quote above gives when the clock reads 0 and 1. *)
Definition aapl_frame : DataFrame (stamped StocksTransformer.row) :=
  mkFrame StocksTransformer.column_names
    [mkStamped
       (StocksTransformer.mkRow (VStr "AAPL") (FNum (inject_Z 150))
          (float_of_Z 0) (float_of_Z 0) (float_of_Z 0) 1000000 VNone
          (float_of_Z 0) (FNum (Qmake 3 2)) (FNum (Qmake 123 100)))
       0 1].

(** A coin with no price under any key, and the frame it gives when the
    clock reads 0 and 1. *)
Definition unpriced_coin_fields : pydict :=
  [("id", VStr "bitcoin"); ("symbol", VStr "btc"); ("name", VStr "Bitcoin")].

Definition unpriced_coin_frame : DataFrame (stamped CryptoTransformer.row) :=
  mkFrame CryptoTransformer.column_names
    [mkStamped
       (CryptoTransformer.mkRow "BTC" (VStr "Bitcoin") (float_of_Z 0)
          (float_of_Z 0) (float_of_Z 0) (float_of_Z 0))
       0 1].

(** A detailed response with an id and no symbol. *)
Definition unnamed_detailed_fields : pydict :=
  [("id", VStr "bitcoin");
   ("market_data",
    VDict [("current_price", VDict [("usd", VInt 45000)]);
           ("market_cap", VDict [("usd", VInt 850000000000)]);
           ("total_volume", VDict [("usd", VInt 25000000000)])])].

(** A provider that knows the euro only. *)
Definition eur_rates : pydict := [("EUR", VFloat (FNum (Qmake 23 25)))].

Definition eur_body : pydict :=
  [("base", VStr "USD"); ("date", VStr "2024-01-15");
   ("rates", VDict eur_rates)].

Definition eur_provider (r : request) (w : unit) : pyval * unit :=
  (VDict eur_body, w).

(** A provider with quotes for AAPL only: any other symbol gets an empty
    quote. *)
Definition aapl_provider (r : request) (w : unit) : pyval * unit :=
  (VDict [("Global Quote",
           match dict_get (map (fun p => (fst p, VStr (snd p))) (params r))
                   "symbol" with
           | Some (VStr "AAPL") => VDict [("05. price", VStr "150.00")]
           | _ => VDict []
           end)], w).

(** A provider that answers with a JSON number, and one whose quote is a
    text where an object is expected. *)
Definition number_provider (r : request) (w : unit) : pyval * unit :=
  (VInt 429, w).

Definition text_quote_provider (r : request) (w : unit) : pyval * unit :=
  (VDict [("Global Quote", VStr "n/a")], w).

(** A sample store: the row counts written per table, which refuses a
    write once three rows or more are in. *)
Definition full_after_three {R} (table : string) (df : DataFrame R)
    (st : list (string * Z)) : pyres unit * list (string * Z) :=
  if 3 <=? fold_right (fun p n => snd p + n) 0 st
  then (Raise (OtherException "OperationalError"), st)
  else (Ret tt, st ++ [(table, len df)]).

(** * Further notions *)

(** The data cells of the rows of a frame that was returned; none when the
    call raised. *)
Definition rows_of {F} (r : pyres (DataFrame (stamped F))) : list F :=
  match r with
  | Ret df => map cells (rows df)
  | Raise _ => []
  end.

(** The column labels of a frame that was returned; none when the call
    raised. *)
Definition columns_of {R} (r : pyres (DataFrame R)) : list string :=
  match r with
  | Ret df => columns df
  | Raise _ => []
  end.

(** The time a trace spends in pauses. *)
Fixpoint waited (t : list event) : Z :=
  match t with
  | [] => 0
  | Fetch _ _ :: rest => waited rest
  | Pause d :: rest => d + waited rest
  end.

(** * Further sample inputs *)

(** A payload of two rates, one of which does not read as a number. *)
Definition usd_payload : pydict :=
  [("base", VStr "USD"); ("date", VStr "2024-01-15");
   ("rates", VDict [("EUR", VFloat (FNum (Qmake 23 25)));
                    ("GBP", VStr "n/a")])].

(** A quote with the volume written. *)
Definition stock_of_volume (volume : string) : pyval :=
  VDict [("symbol", VStr "AAPL");
         ("data", VDict [("05. price", VStr "150.00");
                         ("06. volume", VStr volume)])].

(** A body with a coin priced under ['usd'] and under ['current_price'],
    one under ['current_price'] only, and one under neither. *)
Definition mixed_prices_body : pydict :=
  [("bitcoin", VDict [("current_price", VInt 1); ("usd", VInt 45000)]);
   ("ethereum", VDict [("current_price", VFloat (FNum (Qmake 5 2)))]);
   ("dogecoin", VDict [])].

Definition mixed_prices_provider (r : request) (w : unit) : pyval * unit :=
  (VDict mixed_prices_body, w).

(** A store that takes every write: the row counts written per table, and
    the count of a table in it. *)
Definition append_store {R} (table : string) (df : DataFrame R)
    (st : list (string * Z)) : pyres unit * list (string * Z) :=
  (Ret tt, st ++ [(table, len df)]).

Definition count_store (table : string) (st : list (string * Z)) : pyres Z :=
  Ret (fold_right
         (fun p n => if String.eqb (fst p) table then snd p + n else n) 0 st).

(** * Properties *)

Lemma try_stamp {F} (clock : nat -> datetime) (handled : list exn)
    (e : pyres F) (k : nat) :
  try_except handled (stamp clock e) k =
  match caught handled e with
  | Ret (Some c) => (Ret (Some (mkStamped c (clock k) (clock (S k)))), S (S k))
  | Ret None => (Ret None, k)
  | Raise x => (Raise x, k)
  end.
Proof.
  unfold try_except, stamp, bind, lift, caught.
  destruct e as [c | x]; simpl; [reflexivity |].
  destruct (handles handled x); reflexivity.
Qed.

Lemma for_in_gather {A F} (clock : nat -> datetime)
    (step : list (stamped F) -> A -> M nat (list (stamped F)))
    (attempt : A -> pyres (option F)) :
  follows clock step attempt ->
  forall items acc k,
    fst (for_in step items acc k) =
    res_map (fun l => acc ++ stamp_all clock k l) (gather attempt items).
Proof.
  intros Hstep items.
  induction items as [| x rest IH]; intros acc k; simpl.
  - now rewrite app_nil_r.
  - unfold bind. rewrite Hstep.
    destruct (attempt x) as [[c |] | e]; simpl.
    + rewrite IH. destruct (gather attempt rest); simpl; [| reflexivity].
      now rewrite <- app_assoc.
    + rewrite IH. now destruct (gather attempt rest).
    + reflexivity.
Qed.

Lemma cells_stamp_all {F} (clock : nat -> datetime) (l : list F) :
  forall k, map cells (stamp_all clock k l) = l.
Proof.
  induction l as [| c rest IH]; intros k; simpl; [reflexivity |].
  now rewrite IH.
Qed.

Lemma stamp_all_nil {F} (clock : nat -> datetime) (k : nat) (l : list F) :
  stamp_all clock k l = [] -> l = [].
Proof. destruct l; [reflexivity | discriminate]. Qed.

Lemma cells_quality_filter {F G} (keep : F -> bool) (quality : F -> G)
    (l : list (stamped F)) :
  map cells (map (on_cells quality) (filter (fun r => keep (cells r)) l)) =
  map quality (filter keep (map cells l)).
Proof.
  induction l as [| r rest IH]; simpl; [reflexivity |].
  destruct (keep (cells r)); simpl; now rewrite IH.
Qed.

Lemma cells_filter {F} (keep : F -> bool) (l : list (stamped F)) :
  map cells (filter (fun r => keep (cells r)) l) =
  filter keep (map cells l).
Proof.
  induction l as [| r rest IH]; simpl; [reflexivity |].
  destruct (keep (cells r)); simpl; now rewrite IH.
Qed.

Lemma gather_In {A F} (attempt : A -> pyres (option F)) (items : list A) :
  forall l c,
    gather attempt items = Ret l -> In c l ->
    exists x, In x items /\ attempt x = Ret (Some c).
Proof.
  induction items as [| x rest IH]; simpl; intros l c Hg Hin.
  - injection Hg as <-. destruct Hin.
  - destruct (attempt x) as [o | e] eqn:Hx; simpl in Hg; [| discriminate].
    destruct (gather attempt rest) as [l' | e] eqn:Hr; simpl in Hg;
      [| discriminate].
    injection Hg as <-.
    assert (Hrest : In c l' -> exists y, In y (x :: rest) /\
                                          attempt y = Ret (Some c)).
    { intros H. destruct (IH l' c eq_refl H) as (y & Hy & Ha).
      exists y. split; [now right | exact Ha]. }
    destruct o as [c' |]; [| now apply Hrest].
    destruct Hin as [<- | Hin]; [| now apply Hrest].
    exists x. split; [now left | exact Hx].
Qed.

Lemma gather_keeps {A F} (attempt : A -> pyres (option F)) (items : list A) :
  forall l x c,
    gather attempt items = Ret l -> In x items ->
    attempt x = Ret (Some c) -> In c l.
Proof.
  induction items as [| y rest IH]; simpl; intros l x c Hg Hin Hx.
  - destruct Hin.
  - destruct (attempt y) as [o | e] eqn:Hy; simpl in Hg; [| discriminate].
    destruct (gather attempt rest) as [l' | e] eqn:Hr; simpl in Hg;
      [| discriminate].
    injection Hg as <-.
    destruct Hin as [-> | Hin].
    + rewrite Hx in Hy. injection Hy as <-. now left.
    + specialize (IH l' x c eq_refl Hin Hx).
      destruct o; [now right | exact IH].
Qed.

Lemma stocks_step_follows (clock : nat -> datetime) :
  follows clock (StocksTransformer.step clock) stocks_attempt.
Proof.
  intros acc x k. unfold StocksTransformer.step, stocks_attempt, bind, lift.
  destruct (py_getitem x "symbol") as [sym | e]; simpl; [| reflexivity].
  destruct (py_getitem x "data") as [quote | e]; simpl; [| reflexivity].
  rewrite try_stamp.
  now destruct (caught _ (StocksTransformer.entries sym quote)) as [[c |] | e].
Qed.

Lemma crypto_step_follows (clock : nat -> datetime) :
  follows clock (CryptoTransformer.step clock) crypto_attempt.
Proof.
  intros acc x k. unfold CryptoTransformer.step, crypto_attempt, bind.
  rewrite try_stamp.
  now destruct (caught _ (CryptoTransformer.entries x)) as [[c |] | e].
Qed.

Lemma forex_step_follows (clock : nat -> datetime) (base date : pyval) :
  follows clock (ForexTransformer.step clock base date)
    (forex_attempt base date).
Proof.
  intros acc x k. unfold ForexTransformer.step, forex_attempt, bind.
  rewrite try_stamp.
  now destruct (caught _ (ForexTransformer.entries base date x)) as [[c |] | e].
Qed.

Lemma map_res_on_cells {F G} (keep : F -> bool) (f : F -> pyres G)
    (l : list (stamped F)) :
  res_map (map cells)
    (map_res (on_cells_res f) (filter (fun r => keep (cells r)) l)) =
  map_res f (filter keep (map cells l)).
Proof.
  induction l as [| r rest IH]; [reflexivity |].
  cbn [filter map]. destruct (keep (cells r)); [| exact IH].
  cbn [map_res]. rewrite <- IH. unfold on_cells_res.
  destruct (f (cells r)) as [c | e]; cbn [pbind]; [| reflexivity].
  now destruct (map_res _ (filter _ rest)).
Qed.

Lemma map_res_In {A B} (f : A -> pyres B) (l : list A) :
  forall l' y,
    map_res f l = Ret l' -> In y l' -> exists x, In x l /\ f x = Ret y.
Proof.
  induction l as [| x rest IH]; cbn [map_res]; intros l' y Hm Hin.
  - injection Hm as <-. destruct Hin.
  - destruct (f x) as [b | e] eqn:Hx; cbn [pbind] in Hm; [| discriminate].
    destruct (map_res f rest) as [bs | e] eqn:Hr; cbn [pbind] in Hm;
      [| discriminate].
    injection Hm as <-. destruct Hin as [<- | Hin].
    + exists x. split; [now left | exact Hx].
    + destruct (IH bs y eq_refl Hin) as (x' & Hx' & Hf).
      exists x'. split; [now right | exact Hf].
Qed.

Lemma map_res_map {A B C} (f : A -> pyres B) (g : B -> C) (h : A -> C)
    (l : list A) :
  (forall x y, f x = Ret y -> g y = h x) ->
  forall l', map_res f l = Ret l' -> map g l' = map h l.
Proof.
  intros Hgh. induction l as [| x rest IH]; cbn [map_res]; intros l' Hm.
  - now injection Hm as <-.
  - destruct (f x) as [b | e] eqn:Hx; cbn [pbind] in Hm; [| discriminate].
    destruct (map_res f rest) as [bs | e] eqn:Hr; cbn [pbind] in Hm;
      [| discriminate].
    injection Hm as <-. cbn [map]. now rewrite (Hgh x b Hx), (IH bs eq_refl).
Qed.

(** What the casts keep of a record. *)
Lemma stocks_quality_cells (volumes : int_dtype)
    (c : StocksTransformer.record) (r : StocksTransformer.row) :
  StocksTransformer.quality volumes c = Ret r ->
  StocksTransformer.symbol r = StocksTransformer.r_symbol c /\
  StocksTransformer.price r = StocksTransformer.r_price c /\
  StocksTransformer.change_percent r =
  fillna0 (to_numeric_coerce (StocksTransformer.r_change_percent c)) /\
  astype_int volumes (StocksTransformer.r_volume c) =
  Ret (StocksTransformer.volume r).
Proof.
  unfold StocksTransformer.quality.
  destruct (astype_int volumes (StocksTransformer.r_volume c)) as [z | e];
    cbn [pbind]; [| discriminate].
  intros [= <-]. now repeat split.
Qed.

Lemma stocks_finish_untimed (l : list (stamped StocksTransformer.record)) :
  res_map untimed (StocksTransformer.finish l) = stocks_clean (map cells l).
Proof.
  destruct l as [| r rest]; [reflexivity |].
  unfold StocksTransformer.finish, stocks_clean.
  cbn [frame_of_records empty columns rows StocksTransformer.column_names].
  rewrite <- (map_map cells StocksTransformer.r_volume).
  rewrite <- (map_res_on_cells StocksTransformer.keep _ (r :: rest)).
  cbn [map].
  now destruct (map_res _ (filter _ (r :: rest))).
Qed.

Lemma crypto_finish_untimed (l : list (stamped CryptoTransformer.row)) :
  untimed (CryptoTransformer.finish l) = crypto_clean (map cells l).
Proof.
  destruct l as [| r rest]; [reflexivity |].
  unfold CryptoTransformer.finish, untimed, crypto_clean.
  cbn [frame_of_records empty columns rows CryptoTransformer.column_names map].
  now rewrite cells_quality_filter.
Qed.

Lemma forex_finish_untimed (l : list (stamped ForexTransformer.row)) :
  untimed (ForexTransformer.finish l) = forex_clean (map cells l).
Proof.
  destruct l as [| r rest]; [reflexivity |].
  unfold ForexTransformer.finish, untimed, forex_clean.
  cbn [frame_of_records empty columns rows ForexTransformer.column_names map].
  now rewrite cells_filter.
Qed.

(** The frame a transformer returns is fixed by the cells its loop gathers
    and by the readings of the clock. *)
Lemma stocks_transform_gather (clock : nat -> datetime) (v : pyval) (k : nat) :
  fst (StocksTransformer.transform clock v k) =
  (items <-- py_iter v ;;
   l <-- gather stocks_attempt items ;;
   StocksTransformer.finish (stamp_all clock k l))%pyres.
Proof.
  unfold StocksTransformer.transform, bind, lift.
  destruct (py_iter v) as [items | e]; simpl; [| reflexivity].
  pose proof (for_in_gather clock _ _ (stocks_step_follows clock) items [] k)
    as H.
  destruct (for_in (StocksTransformer.step clock) items [] k) as [[l | e] k'];
    simpl in H; destruct (gather stocks_attempt items) as [g | e'];
    simpl in *; try discriminate.
  - now injection H as ->.
  - now injection H as ->.
Qed.

Lemma crypto_transform_gather (clock : nat -> datetime) (v : pyval) (k : nat) :
  fst (CryptoTransformer.transform clock v k) =
  if negb (truthy v) then Ret empty_frame
  else
    (items <-- py_iter v ;;
     l <-- gather crypto_attempt items ;;
     Ret (CryptoTransformer.finish (stamp_all clock k l)))%pyres.
Proof.
  unfold CryptoTransformer.transform, bind, lift.
  destruct (negb (truthy v)); [reflexivity |].
  destruct (py_iter v) as [items | e]; simpl; [| reflexivity].
  pose proof (for_in_gather clock _ _ (crypto_step_follows clock) items [] k)
    as H.
  destruct (for_in (CryptoTransformer.step clock) items [] k) as [[l | e] k'];
    simpl in H; destruct (gather crypto_attempt items) as [g | e'];
    simpl in *; try discriminate.
  - now injection H as ->.
  - now injection H as ->.
Qed.

Lemma forex_transform_gather (clock : nat -> datetime) (v : pyval) (k : nat) :
  fst (ForexTransformer.transform clock v k) =
  if negb (truthy v) then Ret empty_frame
  else
    (has_rates <-- py_in "rates" v ;;
     if negb has_rates then Ret empty_frame
     else
       base_currency <-- py_getitem v "base" ;;
       rates <-- py_getitem v "rates" ;;
       rate_date <-- py_get v "date" VNone ;;
       items <-- py_items rates ;;
       l <-- gather (forex_attempt base_currency rate_date) items ;;
       Ret (ForexTransformer.finish (stamp_all clock k l)))%pyres.
Proof.
  unfold ForexTransformer.transform, bind, lift.
  destruct (negb (truthy v)); [reflexivity |].
  destruct (py_in "rates" v) as [b | e]; simpl; [| reflexivity].
  destruct (negb b); [reflexivity |].
  destruct (py_getitem v "base") as [base | e]; simpl; [| reflexivity].
  destruct (py_getitem v "rates") as [rates | e]; simpl; [| reflexivity].
  destruct (py_get v "date" VNone) as [date | e]; simpl; [| reflexivity].
  destruct (py_items rates) as [items | e]; simpl; [| reflexivity].
  pose proof (for_in_gather clock _ _ (forex_step_follows clock base date)
                items [] k) as H.
  destruct (for_in (ForexTransformer.step clock base date) items [] k)
    as [[l | e] k'];
    simpl in H; destruct (gather (forex_attempt base date) items) as [g | e'];
    simpl in *; try discriminate.
  - now injection H as ->.
  - now injection H as ->.
Qed.

Lemma stocks_transform_cells (clock : nat -> datetime) (v : pyval) (k : nat) :
  res_map untimed (fst (StocksTransformer.transform clock v k)) =
  stocks_cells v.
Proof.
  rewrite stocks_transform_gather. unfold stocks_cells.
  destruct (py_iter v) as [items | e]; simpl; [| reflexivity].
  destruct (gather stocks_attempt items) as [l | e]; simpl; [| reflexivity].
  now rewrite stocks_finish_untimed, cells_stamp_all.
Qed.

Lemma crypto_transform_cells (clock : nat -> datetime) (v : pyval) (k : nat) :
  res_map untimed (fst (CryptoTransformer.transform clock v k)) =
  crypto_cells v.
Proof.
  rewrite crypto_transform_gather. unfold crypto_cells.
  destruct (negb (truthy v)); [reflexivity |].
  destruct (py_iter v) as [items | e]; simpl; [| reflexivity].
  destruct (gather crypto_attempt items) as [l | e]; simpl; [| reflexivity].
  now rewrite crypto_finish_untimed, cells_stamp_all.
Qed.

Lemma forex_transform_cells (clock : nat -> datetime) (v : pyval) (k : nat) :
  res_map untimed (fst (ForexTransformer.transform clock v k)) =
  forex_cells v.
Proof.
  rewrite forex_transform_gather. unfold forex_cells.
  destruct (negb (truthy v)); [reflexivity |].
  destruct (py_in "rates" v) as [b | e]; simpl; [| reflexivity].
  destruct (negb b); [reflexivity |].
  destruct (py_getitem v "base") as [base | e]; simpl; [| reflexivity].
  destruct (py_getitem v "rates") as [rates | e]; simpl; [| reflexivity].
  destruct (py_get v "date" VNone) as [date | e]; simpl; [| reflexivity].
  destruct (py_items rates) as [items | e]; simpl; [| reflexivity].
  destruct (gather (forex_attempt base date) items) as [l | e]; simpl;
    [| reflexivity].
  now rewrite forex_finish_untimed, cells_stamp_all.
Qed.

(** ** Empty and null inputs *)

(** C1, as the code has it: the crypto and forex transformers return the
    empty frame, without reading the clock, on [None], on the empty list and
    on the empty dict; the stocks transformer, whose parameter is a list and
    has no such guard, does so on the empty list and the empty dict. *)
Theorem transform_empty_input (clock : nat -> datetime) (k : nat) :
  (CryptoTransformer.transform clock VNone k = (Ret empty_frame, k) /\
   CryptoTransformer.transform clock (VList []) k = (Ret empty_frame, k) /\
   CryptoTransformer.transform clock (VDict []) k = (Ret empty_frame, k)) /\
  (ForexTransformer.transform clock VNone k = (Ret empty_frame, k) /\
   ForexTransformer.transform clock (VList []) k = (Ret empty_frame, k) /\
   ForexTransformer.transform clock (VDict []) k = (Ret empty_frame, k)) /\
  (StocksTransformer.transform clock (VList []) k = (Ret empty_frame, k) /\
   StocksTransformer.transform clock (VDict []) k = (Ret empty_frame, k)).
Proof. repeat split. Qed.

(** C1 fails for the stocks transformer on a null input: iterating over
    [None] is a [TypeError], which nothing catches. *)
Lemma stocks_transform_none_raises :
  StocksTransformer.transform ticking_clock VNone 0%nat =
  (Raise TypeError, 0%nat).
Proof. reflexivity. Qed.

(** ** The clock is the only outside state a transformer reads *)

(** C8 fails as stated: applied twice in a row to the same records, the
    stocks transformer returns two different frames, because each record is
    stamped with two readings of the clock. *)
Lemma transform_twice_differs :
  snd (StocksTransformer.transform ticking_clock (VList [aapl]) 0%nat) = 2%nat /\
  fst (StocksTransformer.transform ticking_clock (VList [aapl]) 0%nat) <>
  fst (StocksTransformer.transform ticking_clock (VList [aapl]) 2%nat).
Proof. split; [reflexivity |]. vm_compute. intros H. discriminate H. Qed.

(** C8, as the code has it: what a transformer returns depends on its input
    and on the clock only, and the clock shows in the columns [timestamp] and
    [extracted_at] alone.  Two applications to the same input, whatever the
    clock reads, raise the same exception or return frames that are equal in
    every other column. *)
Theorem transform_pure_but_for_time_stamps
    (clock1 clock2 : nat -> datetime) (k1 k2 : nat) (v : pyval) :
  res_map untimed (fst (StocksTransformer.transform clock1 v k1)) =
  res_map untimed (fst (StocksTransformer.transform clock2 v k2)) /\
  res_map untimed (fst (CryptoTransformer.transform clock1 v k1)) =
  res_map untimed (fst (CryptoTransformer.transform clock2 v k2)) /\
  res_map untimed (fst (ForexTransformer.transform clock1 v k1)) =
  res_map untimed (fst (ForexTransformer.transform clock2 v k2)).
Proof.
  repeat split.
  - now rewrite !stocks_transform_cells.
  - now rewrite !crypto_transform_cells.
  - now rewrite !forex_transform_cells.
Qed.

(** ** Crypto: a missing price *)

Lemma pbind_ret {A B} (m : pyres A) (k : A -> pyres B) (b : B) :
  pbind m k = Ret b -> exists a, m = Ret a /\ k a = Ret b.
Proof. destruct m as [a | e]; simpl; [now exists a | discriminate]. Qed.

(** Splits an equation [x <-- m ;; ... = Ret b] into one equation per step. *)
Ltac pinv H :=
  repeat (let a := fresh "x" in
          let E := fresh "E" in
          apply pbind_ret in H; destruct H as (a & E & H)).

Lemma py_float_zero : py_float (VInt 0) = Ret (float_of_Z 0).
Proof. reflexivity. Qed.

Lemma dict_mem_false (d : pydict) (k : string) :
  dict_mem d k = false -> dict_get d k = None.
Proof. unfold dict_mem. now destruct (dict_get d k). Qed.

Lemma falsy_iter_nil (v : pyval) (items : list pyval) :
  truthy v = false -> py_iter v = Ret items -> items = [].
Proof.
  destruct v as [| b | z | f | s | l | d]; simpl; try discriminate.
  - destruct s; simpl; [now intros _ [= <-] | discriminate].
  - destruct l; [now intros _ [= <-] | discriminate].
  - destruct d; [now intros _ [= <-] | discriminate].
Qed.

Lemma gather_no_raise {A F} (attempt : A -> pyres (option F))
    (items : list A) :
  forall l x,
    gather attempt items = Ret l -> In x items ->
    exists o, attempt x = Ret o.
Proof.
  induction items as [| y rest IH]; simpl; intros l x Hg Hin.
  - destruct Hin.
  - destruct (attempt y) as [o | e] eqn:Hy; simpl in Hg; [| discriminate].
    destruct (gather attempt rest) as [l' | e] eqn:Hr; simpl in Hg;
      [| discriminate].
    destruct Hin as [<- | Hin]; [now exists o | now apply (IH l')].
Qed.

Lemma stamp_all_In {F} (clock : nat -> datetime) (k : nat) (l : list F)
    (c : F) :
  In c l -> exists r, In r (stamp_all clock k l) /\ cells r = c.
Proof.
  intros Hin. rewrite <- (cells_stamp_all clock l k) in Hin.
  apply in_map_iff in Hin. destruct Hin as (r & Hr & Hin). now exists r.
Qed.

Lemma stamp_all_cells_In {F} (clock : nat -> datetime) (k : nat) (l : list F)
    (r : stamped F) :
  In r (stamp_all clock k l) -> In (cells r) l.
Proof.
  intros Hin. rewrite <- (cells_stamp_all clock l k). now apply in_map.
Qed.

Lemma float_get_absent (d : pydict) (k : string) (f : pyfloat) :
  dict_get d k = None -> float_get (VDict d) k = Ret f -> f = float_of_Z 0.
Proof.
  unfold float_get. cbn [py_get pbind]. intros ->.
  rewrite py_float_zero. now intros [= <-].
Qed.

Lemma float_get2_absent (d : pydict) (k1 k2 : string) (f : pyfloat) :
  dict_get d k1 = None -> dict_get d k2 = None ->
  CryptoTransformer.float_get2 (VDict d) k1 k2 = Ret f -> f = float_of_Z 0.
Proof.
  unfold CryptoTransformer.float_get2. cbn [py_get pbind]. intros -> ->.
  rewrite py_float_zero. now intros [= <-].
Qed.

Lemma crypto_entries_price_absent (d : pydict) (row : CryptoTransformer.row) :
  price_absent d = true ->
  CryptoTransformer.entries (VDict d) = Ret row ->
  CryptoTransformer.current_price row = float_of_Z 0.
Proof.
  unfold price_absent, CryptoTransformer.entries, py_in, dict_mem.
  destruct (dict_get d "market_data") as [md |] eqn:Hmd; cbn [pbind].
  - destruct md as [| | | | | | md]; try discriminate.
    destruct (dict_get md "current_price") as [cp |] eqn:Hcp.
    + destruct cp as [| | | | | | cp]; try discriminate.
      intros Habs H. apply negb_true_iff, dict_mem_false in Habs.
      unfold CryptoTransformer.detailed in H. pinv H.
      injection H as <-. cbn [CryptoTransformer.current_price].
      match goal with
      | H : CryptoTransformer.market_usd _ "current_price" = Ret _ |- _ =>
          unfold CryptoTransformer.market_usd in H;
          cbn [py_getitem pbind] in H; rewrite Hmd in H;
          cbn [py_getitem pbind] in H; rewrite Hcp in H;
          now apply (float_get_absent cp "usd")
      end.
    + intros _ H. unfold CryptoTransformer.detailed in H. pinv H.
      match goal with
      | H : CryptoTransformer.market_usd _ "current_price" = Ret _ |- _ =>
          unfold CryptoTransformer.market_usd in H;
          cbn [py_getitem pbind] in H; rewrite Hmd in H;
          cbn [py_getitem pbind] in H; rewrite Hcp in H; discriminate H
      end.
  - intros Habs H. unfold CryptoTransformer.simple in H. pinv H.
    injection H as <-. cbn [CryptoTransformer.current_price].
    match goal with
    | H : py_get (VDict d) "data" (VDict d) = Ret _ |- _ =>
        cbn [py_get] in H; injection H as <-
    end.
    destruct (dict_get d "data") as [[| | | | | | data] |];
      try discriminate;
      apply andb_true_iff in Habs; destruct Habs as [Hu Hc];
      apply negb_true_iff, dict_mem_false in Hu;
      apply negb_true_iff, dict_mem_false in Hc;
      match goal with
      | H : CryptoTransformer.float_get2 _ "usd" "current_price" = Ret _
        |- _ => now apply (float_get2_absent _ "usd" "current_price") in H
      end.
Qed.

(** A detailed response without a price mapping raises. *)
Lemma crypto_entries_no_price_mapping (d md : pydict) :
  dict_get d "market_data" = Some (VDict md) ->
  dict_get md "current_price" = None ->
  exists e, CryptoTransformer.entries (VDict d) = Raise e.
Proof.
  intros Hmd Hcp.
  destruct (CryptoTransformer.entries (VDict d)) as [row | e] eqn:H;
    [| now exists e].
  exfalso. revert H.
  unfold CryptoTransformer.entries, py_in, dict_mem. rewrite Hmd.
  cbn [pbind]. intros H. unfold CryptoTransformer.detailed in H. pinv H.
  match goal with
  | H : CryptoTransformer.market_usd _ "current_price" = Ret _ |- _ =>
      unfold CryptoTransformer.market_usd in H;
      cbn [py_getitem pbind] in H; rewrite Hmd in H;
      cbn [py_getitem pbind] in H; rewrite Hcp in H; discriminate H
  end.
Qed.

Lemma crypto_keep_quality (clock : nat -> datetime) (k : nat)
    (l : list CryptoTransformer.row) (row : CryptoTransformer.row) :
  In row l -> CryptoTransformer.keep row = true ->
  exists r,
    In r (rows (CryptoTransformer.finish (stamp_all clock k l))) /\
    cells r = CryptoTransformer.quality row.
Proof.
  intros Hin Hkeep.
  destruct (stamp_all_In clock k l row Hin) as (r0 & Hr0 & Hc).
  exists (on_cells CryptoTransformer.quality r0). split.
  - unfold CryptoTransformer.finish.
    destruct (stamp_all clock k l) as [| a rest] eqn:Hl; [destruct Hr0 |].
    cbn [frame_of_records empty columns rows CryptoTransformer.column_names].
    apply in_map, filter_In. split; [exact Hr0 | now rewrite Hc].
  - simpl. now rewrite Hc.
Qed.

(** C2, as the code has it: a record whose current price is absent under all
    the recognized key variants is not dropped for that: the price defaults
    to 0, and when the entries of the record convert, its row is in the
    frame returned with [current_price] 0.  The record is skipped only when
    an entry raises one of the handled exceptions, which is what a
    [market_data] mapping without [current_price] does. *)
Theorem crypto_absent_price_defaulted
    (clock : nat -> datetime) (k : nat) (v : pyval) (items : list pyval)
    (df : DataFrame (stamped CryptoTransformer.row)) (d : pydict) :
  fst (CryptoTransformer.transform clock v k) = Ret df ->
  py_iter v = Ret items ->
  In (VDict d) items ->
  price_absent d = true ->
  match CryptoTransformer.entries (VDict d) with
  | Ret row =>
      exists r,
        In r (rows df) /\
        cells r = CryptoTransformer.quality row /\
        CryptoTransformer.current_price (cells r) = float_of_Z 0
  | Raise e => handles [ValueError; KeyError; TypeError] e = true
  end /\
  (forall md,
      dict_get d "market_data" = Some (VDict md) ->
      dict_get md "current_price" = None ->
      exists e, CryptoTransformer.entries (VDict d) = Raise e).
Proof.
  intros Hdf Hit Hin Habs.
  split; [| intros md; apply crypto_entries_no_price_mapping].
  rewrite crypto_transform_gather in Hdf.
  destruct (truthy v) eqn:Hv; cbn [negb] in Hdf;
    [| rewrite (falsy_iter_nil v items Hv Hit) in Hin; destruct Hin].
  rewrite Hit in Hdf. cbn [pbind] in Hdf.
  destruct (gather crypto_attempt items) as [l | e] eqn:Hg; [| discriminate].
  cbn [pbind] in Hdf. injection Hdf as <-.
  destruct (CryptoTransformer.entries (VDict d)) as [row | e] eqn:He.
  - pose proof (crypto_entries_price_absent d row Habs He) as Hp.
    assert (Hrow : In row l).
    { apply (gather_keeps crypto_attempt items l (VDict d) row Hg Hin).
      unfold crypto_attempt. now rewrite He. }
    destruct (crypto_keep_quality clock k l row Hrow) as (r & Hr & Hc).
    { unfold CryptoTransformer.keep. now rewrite Hp. }
    exists r. repeat split; [exact Hr | exact Hc |].
    rewrite Hc. exact Hp.
  - destruct (gather_no_raise crypto_attempt items l (VDict d) Hg Hin)
      as (o & Ho).
    unfold crypto_attempt in Ho. rewrite He in Ho. cbn [caught] in Ho.
    destruct (handles _ e); [reflexivity | discriminate].
Qed.

(** C2 fails as stated: a coin with no price under any key is kept, with the
    price 0. *)
Lemma crypto_unpriced_coin_kept :
  price_absent unpriced_coin_fields = true /\
  CryptoTransformer.transform ticking_clock (VList [VDict unpriced_coin_fields])
    0%nat = (Ret unpriced_coin_frame, 2%nat) /\
  map (fun r => CryptoTransformer.current_price (cells r))
    (rows unpriced_coin_frame) = [float_of_Z 0].
Proof. repeat split. Qed.

(** The theorem at the coin with no price. *)
Lemma crypto_absent_price_defaulted_witness :
  match CryptoTransformer.entries (VDict unpriced_coin_fields) with
  | Ret row =>
      exists r,
        In r (rows unpriced_coin_frame) /\
        cells r = CryptoTransformer.quality row /\
        CryptoTransformer.current_price (cells r) = float_of_Z 0
  | Raise e => handles [ValueError; KeyError; TypeError] e = true
  end /\
  (forall md,
      dict_get unpriced_coin_fields "market_data" = Some (VDict md) ->
      dict_get md "current_price" = None ->
      exists e, CryptoTransformer.entries (VDict unpriced_coin_fields) = Raise e).
Proof.
  apply (crypto_absent_price_defaulted ticking_clock 0%nat
           (VList [VDict unpriced_coin_fields]) [VDict unpriced_coin_fields]
           unpriced_coin_frame unpriced_coin_fields).
  - reflexivity.
  - reflexivity.
  - simpl. left. reflexivity.
  - reflexivity.
Defined.

(** ** Crypto: the symbol *)

(** Splits every equation [x <-- m ;; ... = Ret b] of the context. *)
Ltac pinv_all :=
  repeat match goal with
         | H : pbind _ _ = Ret _ |- _ =>
             let a := fresh "x" in
             let E := fresh "E" in
             apply pbind_ret in H; destruct H as (a & E & H)
         end.

Lemma upper_char_idem (c : ascii) : upper_char (upper_char c) = upper_char c.
Proof. destruct c as [[] [] [] [] [] [] [] []]; reflexivity. Qed.

Lemma upper_idem (s : string) : upper (upper s) = upper s.
Proof.
  unfold upper. induction s as [| c r IH]; cbn [map_string]; [reflexivity |].
  now rewrite upper_char_idem, IH.
Qed.

Lemma crypto_finish_In (l : list (stamped CryptoTransformer.row))
    (r : stamped CryptoTransformer.row) :
  In r (rows (CryptoTransformer.finish l)) ->
  exists r0, In r0 l /\ r = on_cells CryptoTransformer.quality r0.
Proof.
  unfold CryptoTransformer.finish.
  destruct l as [| a rest]; [intros [] |].
  cbn [frame_of_records empty columns rows CryptoTransformer.column_names].
  intros Hin. apply in_map_iff in Hin. destruct Hin as (r0 & <- & Hin).
  apply filter_In in Hin. now exists r0.
Qed.

(** Where the symbol of a row comes from. *)
Lemma crypto_entries_symbol (x : pyval) (row : CryptoTransformer.row) :
  CryptoTransformer.entries x = Ret row ->
  exists d s,
    x = VDict d /\
    CryptoTransformer.symbol row = upper s /\
    (dict_get d "symbol" = Some (VStr s) \/
     (dict_get d "symbol" = None /\
      if dict_mem d "market_data" then s = ""
      else match dict_get d "id" with
           | Some id => id = VStr s
           | None => s = ""
           end)).
Proof.
  unfold CryptoTransformer.entries. intros H. pinv H.
  destruct x as [| | | | | | d];
    try (destruct x0; unfold CryptoTransformer.detailed,
           CryptoTransformer.simple in H; cbn [py_get pbind] in H;
         discriminate H).
  exists d. cbn [py_in] in E. injection E as <-.
  destruct (dict_mem d "market_data").
  - unfold CryptoTransformer.detailed in H. pinv_all. injection H as <-.
    cbn [CryptoTransformer.symbol].
    match goal with
    | H : py_upper ?v = Ret _, G : py_get _ "symbol" _ = Ret ?v |- _ =>
        destruct v as [| | | | s | |]; try discriminate H;
        injection H as <-; cbn [py_get] in G; exists s; repeat split;
        destruct (dict_get d "symbol") as [y |];
        [left; congruence | right; split; congruence]
    end.
  - unfold CryptoTransformer.simple in H. pinv_all. injection H as <-.
    cbn [CryptoTransformer.symbol].
    match goal with
    | H : py_upper ?v = Ret _, G : py_get _ "symbol" _ = Ret ?v,
      I : py_get _ "id" _ = Ret _ |- _ =>
        destruct v as [| | | | s | |]; try discriminate H;
        injection H as <-; cbn [py_get] in G, I; exists s; repeat split;
        destruct (dict_get d "symbol") as [y |];
        [left; congruence
        | right; split; [reflexivity | destruct (dict_get d "id"); congruence]]
    end.
Qed.

(** C10, as the code has it: every row of the frame returned has an
    upper-cased symbol, the upper-casing of the symbol of a record of the
    input; when the record has no symbol key, of its coin id for a simple
    or markets record, and of the empty string for a detailed one. *)
Theorem crypto_symbol_upper
    (clock : nat -> datetime) (k : nat) (v : pyval)
    (df : DataFrame (stamped CryptoTransformer.row))
    (r : stamped CryptoTransformer.row) :
  fst (CryptoTransformer.transform clock v k) = Ret df ->
  In r (rows df) ->
  upper (CryptoTransformer.symbol (cells r)) =
  CryptoTransformer.symbol (cells r) /\
  exists items d s,
    py_iter v = Ret items /\
    In (VDict d) items /\
    CryptoTransformer.symbol (cells r) = upper s /\
    (dict_get d "symbol" = Some (VStr s) \/
     (dict_get d "symbol" = None /\
      if dict_mem d "market_data" then s = ""
      else match dict_get d "id" with
           | Some id => id = VStr s
           | None => s = ""
           end)).
Proof.
  intros Hdf Hr. rewrite crypto_transform_gather in Hdf.
  destruct (negb (truthy v)); [injection Hdf as <-; destruct Hr |].
  destruct (py_iter v) as [items | e]; [| discriminate].
  cbn [pbind] in Hdf.
  destruct (gather crypto_attempt items) as [l | e] eqn:Hg; [| discriminate].
  cbn [pbind] in Hdf. injection Hdf as <-.
  apply crypto_finish_In in Hr. destruct Hr as (r0 & Hr0 & ->).
  apply stamp_all_cells_In in Hr0.
  destruct (gather_In crypto_attempt items l (cells r0) Hg Hr0)
    as (x & Hx & Ha).
  unfold crypto_attempt in Ha.
  destruct (CryptoTransformer.entries x) as [row | e] eqn:He;
    cbn [caught] in Ha;
    [| destruct (handles _ e); discriminate].
  injection Ha as ->.
  destruct (crypto_entries_symbol x (cells r0) He) as (d & s & -> & Hs & Hsrc).
  cbn [on_cells cells CryptoTransformer.quality CryptoTransformer.symbol].
  split; [rewrite Hs; apply upper_idem |].
  exists items, d, s. repeat split; assumption.
Qed.

(** C10 fails as stated: a detailed record with a coin id and no symbol
    gives a row whose symbol is empty, not the upper-cased coin id. *)
Lemma crypto_detailed_symbol_not_coin_id :
  dict_get unnamed_detailed_fields "symbol" = None /\
  dict_get unnamed_detailed_fields "id" = Some (VStr "bitcoin") /\
  res_map (fun df => map (fun r => CryptoTransformer.symbol (cells r)) (rows df))
    (fst (CryptoTransformer.transform ticking_clock
            (VList [VDict unnamed_detailed_fields]) 0%nat)) = Ret [""] /\
  "" <> upper "bitcoin".
Proof. repeat split. discriminate. Qed.

(** The theorem at the row of the coin with no price. *)
Lemma crypto_symbol_upper_witness :
  upper "BTC" = "BTC" /\
  exists items d s,
    py_iter (VList [VDict unpriced_coin_fields]) = Ret items /\
    In (VDict d) items /\
    "BTC" = upper s /\
    (dict_get d "symbol" = Some (VStr s) \/
     (dict_get d "symbol" = None /\
      if dict_mem d "market_data" then s = ""
      else match dict_get d "id" with
           | Some id => id = VStr s
           | None => s = ""
           end)).
Proof.
  apply (crypto_symbol_upper ticking_clock 0%nat
           (VList [VDict unpriced_coin_fields]) unpriced_coin_frame
           (mkStamped
              (CryptoTransformer.mkRow "BTC" (VStr "Bitcoin") (float_of_Z 0)
                 (float_of_Z 0) (float_of_Z 0) (float_of_Z 0))
              0 1)).
  - reflexivity.
  - simpl. left. reflexivity.
Defined.

(** ** Stocks: the change percent *)

(** *** Texts *)

Lemma string_app_empty (s : string) : (s ++ "")%string = s.
Proof. induction s as [| c r IH]; simpl; [reflexivity | now rewrite IH]. Qed.

Lemma string_app_assoc (s t u : string) :
  ((s ++ t) ++ u = s ++ (t ++ u))%string.
Proof. induction s as [| c r IH]; simpl; [reflexivity | now rewrite IH]. Qed.

Lemma all_chars_app (p : ascii -> bool) (a b : string) :
  all_chars p (a ++ b) = all_chars p a && all_chars p b.
Proof.
  induction a as [| c r IH]; simpl; [reflexivity |].
  now rewrite IH, andb_assoc.
Qed.

Lemma all_chars_impl (p q : ascii -> bool) (s : string) :
  (forall c, p c = true -> q c = true) ->
  all_chars p s = true -> all_chars q s = true.
Proof.
  intros Hpq. induction s as [| c r IH]; simpl; [reflexivity |].
  intros H. apply andb_true_iff in H. destruct H as [Hc Hr].
  now rewrite (Hpq c Hc), (IH Hr).
Qed.

Lemma digit_facts (c : ascii) :
  is_digit c = true ->
  is_space c = false /\
  Ascii.eqb c "%" = false /\
  Ascii.eqb c "." = false /\
  Ascii.eqb c "-" = false /\
  Ascii.eqb c "+" = false /\
  Ascii.eqb c "e" || Ascii.eqb c "E" = false.
Proof.
  destruct c as [[] [] [] [] [] [] [] []]; intros H;
    try discriminate H; repeat split.
Qed.

Lemma digits_no_blank (s : string) :
  all_digits s = true -> no_blank s = true.
Proof.
  apply all_chars_impl. intros c Hc.
  now destruct (digit_facts c Hc) as (-> & _).
Qed.

Lemma remove_char_app (c : ascii) (s t : string) :
  remove_char c (s ++ t) = (remove_char c s ++ remove_char c t)%string.
Proof.
  induction s as [| a r IH]; simpl; [reflexivity |].
  destruct (Ascii.eqb a c); simpl; now rewrite IH.
Qed.

Lemma remove_char_absent (c : ascii) (s : string) :
  all_chars (fun a => negb (Ascii.eqb a c)) s = true -> remove_char c s = s.
Proof.
  induction s as [| a r IH]; simpl; [reflexivity |].
  intros H. apply andb_true_iff in H. destruct H as [Ha Hr].
  apply negb_true_iff in Ha. now rewrite Ha, (IH Hr).
Qed.

(** *** Blanks around a text *)

Lemma lstrip_blanks (pre s : string) :
  blanks pre = true -> lstrip is_space (pre ++ s) = lstrip is_space s.
Proof.
  induction pre as [| c r IH]; [reflexivity |].
  unfold blanks. cbn [all_chars append lstrip]. intros H.
  apply andb_true_iff in H. destruct H as [-> Hr]. now apply IH.
Qed.

Lemma lstrip_all_blanks (s : string) :
  blanks s = true -> lstrip is_space s = "".
Proof.
  intros H. rewrite <- (string_app_empty s). now rewrite lstrip_blanks.
Qed.

Lemma lstrip_no_blank (s : string) :
  no_blank s = true -> forall t, lstrip is_space (s ++ t) =
                                 match s with
                                 | "" => lstrip is_space t
                                 | _ => (s ++ t)%string
                                 end.
Proof.
  destruct s as [| c r]; [reflexivity |].
  unfold no_blank. cbn [all_chars append lstrip]. intros H t.
  apply andb_true_iff in H. destruct H as [Hc _].
  apply negb_true_iff in Hc. now rewrite Hc.
Qed.

Lemma rstrip_all_blanks (s : string) :
  blanks s = true -> rstrip is_space s = "".
Proof.
  induction s as [| c r IH]; [reflexivity |].
  unfold blanks. cbn [all_chars rstrip]. intros H.
  apply andb_true_iff in H. destruct H as [Hc Hr].
  now rewrite (IH Hr), Hc.
Qed.

Lemma rstrip_no_blank (s post : string) :
  no_blank s = true -> blanks post = true ->
  rstrip is_space (s ++ post) = s.
Proof.
  intros Hs Hpost. induction s as [| c r IH].
  - now apply rstrip_all_blanks.
  - unfold no_blank in Hs. cbn [all_chars] in Hs.
    apply andb_true_iff in Hs. destruct Hs as [Hc Hr].
    apply negb_true_iff in Hc.
    cbn [append rstrip]. rewrite (IH Hr), Hc. now destruct r.
Qed.

Lemma strip_around (pre s post : string) :
  blanks pre = true -> blanks post = true -> no_blank s = true ->
  strip is_space (pre ++ s ++ post) = s.
Proof.
  intros Hpre Hpost Hs. unfold strip.
  rewrite (lstrip_blanks pre _ Hpre), (lstrip_no_blank s Hs).
  destruct s as [| c r].
  - now rewrite (lstrip_all_blanks post Hpost).
  - now apply rstrip_no_blank.
Qed.

Lemma lstrip_spec (s : string) :
  exists pre, blanks pre = true /\ s = (pre ++ lstrip is_space s)%string.
Proof.
  induction s as [| c r (pre & Hpre & IH)].
  - now exists "".
  - cbn [lstrip]. destruct (is_space c) eqn:Hc.
    + exists (String c pre). unfold blanks in *. cbn [all_chars append].
      rewrite Hc, Hpre. now rewrite <- IH.
    + now exists "".
Qed.

Lemma rstrip_spec (s : string) :
  exists post, blanks post = true /\ s = (rstrip is_space s ++ post)%string.
Proof.
  induction s as [| c r (post & Hpost & IH)].
  - now exists "".
  - cbn [rstrip]. destruct (rstrip is_space r) as [| c' r'] eqn:Hr.
    + cbn [append] in IH. destruct (is_space c) eqn:Hc.
      * exists (String c post). unfold blanks in *. cbn [all_chars append].
        rewrite Hc, Hpost. subst r. now split.
      * exists post. cbn [append]. subst r. now split.
    + exists post. split; [exact Hpost |]. cbn [append] in *.
      now rewrite <- IH.
Qed.

Lemma strip_spec (s : string) :
  exists pre post,
    blanks pre = true /\ blanks post = true /\
    s = (pre ++ strip is_space s ++ post)%string.
Proof.
  destruct (lstrip_spec s) as (pre & Hpre & Hs).
  destruct (rstrip_spec (lstrip is_space s)) as (post & Hpost & Hl).
  exists pre, post. unfold strip. now rewrite <- Hl, <- Hs.
Qed.

(** *** Digits *)

Lemma span_digits_app (ip rest : string) :
  all_digits ip = true ->
  match rest with
  | EmptyString => true
  | String c _ => negb (is_digit c)
  end = true ->
  span_digits (ip ++ rest) = (ip, rest).
Proof.
  intros Hip Hrest. induction ip as [| c r IH]; simpl.
  - destruct rest as [| c r]; [reflexivity |].
    simpl. apply negb_true_iff in Hrest. now rewrite Hrest.
  - unfold all_digits in Hip. simpl in Hip.
    apply andb_true_iff in Hip. destruct Hip as [Hc Hr].
    rewrite Hc, (IH Hr). reflexivity.
Qed.

Lemma span_digits_all (d : string) :
  all_digits d = true -> span_digits d = (d, "").
Proof.
  intros H. rewrite <- (string_app_empty d) at 1.
  now apply span_digits_app.
Qed.

Lemma span_digits_spec (s : string) :
  s = (fst (span_digits s) ++ snd (span_digits s))%string /\
  all_digits (fst (span_digits s)) = true.
Proof.
  induction s as [| c r [IH1 IH2]]; [now split |].
  cbn [span_digits]. destruct (is_digit c) eqn:Hc; [| now split].
  destruct (span_digits r) as [d rest]. cbn [fst snd] in *.
  unfold all_digits in *. cbn [all_chars append].
  now rewrite Hc, IH2, <- IH1.
Qed.

Lemma digits_value_from_bound (s : string) :
  all_digits s = true ->
  forall acc, 0 <= acc ->
    0 <= digits_value_from acc s <
    (acc + 1) * 10 ^ Z.of_nat (String.length s).
Proof.
  induction s as [| c r IH]; intros Hs acc Hacc.
  - cbn. lia.
  - unfold all_digits in Hs. cbn [all_chars] in Hs.
    apply andb_true_iff in Hs. destruct Hs as [Hc Hr].
    cbn [digits_value_from String.length].
    assert (Hd : 0 <= digit_val c <= 9).
    { unfold is_digit in Hc. apply andb_true_iff in Hc.
      destruct Hc as [H1 H2]. apply Nat.leb_le in H1, H2.
      unfold digit_val. lia. }
    destruct (IH Hr (10 * acc + digit_val c)) as [H1 H2]; [lia |].
    split; [exact H1 |].
    rewrite Nat2Z.inj_succ, Z.pow_succ_r by lia.
    assert (Hp : 0 < 10 ^ Z.of_nat (String.length r))
      by (apply Z.pow_pos_nonneg; lia).
    nia.
Qed.

Lemma digits_value_bound (s : string) :
  all_digits s = true ->
  0 <= digits_value s < 10 ^ Z.of_nat (String.length s).
Proof.
  intros Hs. unfold digits_value.
  pose proof (digits_value_from_bound s Hs 0 (Z.le_refl 0)) as H. lia.
Qed.

(** *** A numeral is read as the number it writes *)

Lemma exp_letter (c : ascii) :
  Ascii.eqb c "e" || Ascii.eqb c "E" = true ->
  is_digit c = false /\ Ascii.eqb c "." = false /\ is_space c = false.
Proof.
  intros H. apply orb_true_iff in H.
  destruct H as [H | H]; apply Ascii.eqb_eq in H; subst; repeat split.
Qed.

Lemma read_sign_text (sg : sign) (r : string) :
  match r with
  | "" => true
  | String c _ => negb (Ascii.eqb c "-") && negb (Ascii.eqb c "+")
  end = true ->
  read_sign (sign_text sg ++ r) =
  (match sg with Minus => true | _ => false end, r).
Proof.
  intros H. destruct sg; [| reflexivity | reflexivity].
  cbn [sign_text append]. destruct r as [| c r']; [reflexivity |].
  apply andb_true_iff in H. destruct H as [H1 H2].
  apply negb_true_iff in H1, H2. unfold read_sign. now rewrite H1, H2.
Qed.

Lemma signed_negative (sg : sign) (z : Z) :
  (if match sg with Minus => true | _ => false end then - z else z) =
  signed sg z.
Proof. now destruct sg. Qed.

Lemma read_exponent_text (ex : option (ascii * sign * string)) :
  exponent_ok ex = true ->
  read_exponent (exponent_text ex) = Some (exponent_value ex).
Proof.
  destruct ex as [[[c sg] d] |]; [| reflexivity].
  cbn [exponent_ok exponent_text exponent_value]. intros H.
  apply andb_true_iff in H. destruct H as [H Hne].
  apply andb_true_iff in H. destruct H as [Hc Hd].
  apply negb_true_iff in Hne.
  unfold read_exponent. rewrite Hc, read_sign_text.
  - rewrite (span_digits_all d Hd), Hne. cbn [orb is_empty negb].
    now rewrite signed_negative.
  - destruct d as [| a d']; [reflexivity |].
    unfold all_digits in Hd. cbn [all_chars] in Hd.
    apply andb_true_iff in Hd. destruct Hd as [Ha _].
    now destruct (digit_facts a Ha) as (_ & _ & _ & -> & -> & _).
Qed.

Lemma exponent_text_head (ex : option (ascii * sign * string)) :
  exponent_ok ex = true ->
  match exponent_text ex with
  | "" => true
  | String c _ => negb (is_digit c) && negb (Ascii.eqb c ".")
  end = true.
Proof.
  destruct ex as [[[c sg] d] |]; [| reflexivity].
  cbn [exponent_ok exponent_text]. intros H.
  apply andb_true_iff in H. destruct H as [H _].
  apply andb_true_iff in H. destruct H as [Hc _].
  now destruct (exp_letter c Hc) as (-> & -> & _).
Qed.

Lemma read_number_text (ip : string) (fr : option string)
    (ex : option (ascii * sign * string)) :
  all_digits ip = true -> all_digits (fraction_digits fr) = true ->
  is_empty ip && is_empty (fraction_digits fr) = false ->
  exponent_ok ex = true ->
  read_number (ip ++ fraction_text fr ++ exponent_text ex) =
  Some (digits_value (ip ++ fraction_digits fr),
        exponent_value ex - Z.of_nat (String.length (fraction_digits fr))).
Proof.
  intros Hip Hfp Hne Hex. unfold read_number.
  pose proof (exponent_text_head ex Hex) as Hhead.
  rewrite span_digits_app; [| exact Hip |].
  - destruct fr as [fp |]; cbn [fraction_text fraction_digits append] in *.
    + cbn [read_fraction Ascii.eqb Bool.eqb].
      rewrite span_digits_app; [| exact Hfp |].
      * now rewrite Hne, read_exponent_text.
      * destruct (exponent_text ex) as [| c r]; [reflexivity |].
        apply andb_true_iff in Hhead. now destruct Hhead as [-> _].
    + unfold read_fraction.
      destruct (exponent_text ex) as [| c r] eqn:Het.
      * rewrite Hne, <- Het. now rewrite read_exponent_text.
      * apply andb_true_iff in Hhead. destruct Hhead as [_ Hdot].
        apply negb_true_iff in Hdot. rewrite Hdot, Hne, <- Het.
        now rewrite read_exponent_text.
  - destruct fr as [fp |]; cbn [fraction_text append]; [reflexivity |].
    destruct (exponent_text ex) as [| c r]; [reflexivity |].
    apply andb_true_iff in Hhead. now destruct Hhead as [-> _].
Qed.

Lemma well_formed_parts (n : numeral) :
  well_formed n = true ->
  all_digits (n_int n) = true /\
  all_digits (fraction_digits (n_frac n)) = true /\
  is_empty (n_int n) && is_empty (fraction_digits (n_frac n)) = false /\
  exponent_ok (n_exp n) = true.
Proof.
  unfold well_formed. intros H.
  apply andb_true_iff in H. destruct H as [H Hex].
  apply andb_true_iff in H. destruct H as [H Hne].
  apply andb_true_iff in H. destruct H as [Hip Hfp].
  apply negb_true_iff in Hne. now repeat split.
Qed.

Lemma read_decimal_text (n : numeral) :
  well_formed n = true ->
  read_decimal (numeral_text n) =
  Some (decimal
          (signed (n_sign n)
             (digits_value (n_int n ++ fraction_digits (n_frac n))))
          (numeral_scale n)).
Proof.
  intros Hwf. destruct (well_formed_parts n Hwf) as (Hip & Hfp & Hne & Hex).
  unfold read_decimal, numeral_text. rewrite read_sign_text.
  - rewrite read_number_text by assumption.
    now rewrite signed_negative.
  - destruct (n_int n) as [| c r] eqn:Hint.
    + destruct (n_frac n) as [fp |]; [reflexivity |].
      cbn in Hne. discriminate Hne.
    + unfold all_digits in Hip. cbn [all_chars] in Hip.
      apply andb_true_iff in Hip. destruct Hip as [Hc _].
      cbn [append].
      now destruct (digit_facts c Hc) as (_ & _ & _ & -> & -> & _).
Qed.

Lemma sign_text_chars (p : ascii -> bool) (sg : sign) :
  p "+"%char = true -> p "-"%char = true ->
  all_chars p (sign_text sg) = true.
Proof. intros H1 H2. destruct sg; cbn; now rewrite ?H1, ?H2. Qed.

Lemma numeral_text_chars (p : ascii -> bool) (n : numeral) :
  well_formed n = true ->
  (forall c, is_digit c = true -> p c = true) ->
  p "+"%char = true -> p "-"%char = true -> p "."%char = true ->
  p "e"%char = true -> p "E"%char = true ->
  all_chars p (numeral_text n) = true.
Proof.
  intros Hwf Hd Hplus Hminus Hdot He HE.
  destruct (well_formed_parts n Hwf) as (Hip & Hfp & _ & Hex).
  unfold numeral_text. rewrite !all_chars_app.
  rewrite sign_text_chars by assumption.
  rewrite (all_chars_impl is_digit p _ Hd Hip). cbn [andb].
  apply andb_true_iff. split.
  - destruct (n_frac n) as [fp |]; [| reflexivity].
    cbn [fraction_text fraction_digits all_chars] in *.
    now rewrite Hdot, (all_chars_impl is_digit p _ Hd Hfp).
  - destruct (n_exp n) as [[[c sg] d] |]; [| reflexivity].
    cbn [exponent_ok exponent_text all_chars] in *.
    apply andb_true_iff in Hex. destruct Hex as [Hex _].
    apply andb_true_iff in Hex. destruct Hex as [Hc Hdd].
    rewrite all_chars_app, sign_text_chars by assumption.
    rewrite (all_chars_impl is_digit p _ Hd Hdd).
    apply orb_true_iff in Hc.
    destruct Hc as [Hc | Hc]; apply Ascii.eqb_eq in Hc; subst c;
      now rewrite ?He, ?HE.
Qed.

Lemma numeral_text_no_blank (n : numeral) :
  well_formed n = true -> no_blank (numeral_text n) = true.
Proof.
  intros Hwf. apply numeral_text_chars; try reflexivity; [exact Hwf |].
  intros c Hc. now destruct (digit_facts c Hc) as (-> & _).
Qed.

Lemma numeral_text_no_percent (n : numeral) :
  well_formed n = true ->
  remove_char "%" (numeral_text n ++ "%") = numeral_text n.
Proof.
  intros Hwf. rewrite remove_char_app. cbn [remove_char Ascii.eqb Bool.eqb].
  rewrite string_app_empty. apply remove_char_absent.
  apply numeral_text_chars; try reflexivity; [exact Hwf |].
  intros c Hc. now destruct (digit_facts c Hc) as (_ & -> & _).
Qed.

(** [pandas.to_numeric] reads the text of a numeral, with blanks around it
    or none, as its digits times its power of ten. *)
Lemma numeric_of_written (t : string) (n : numeral) :
  writes t n ->
  numeric_of_string t =
  Some (decimal
          (signed (n_sign n)
             (digits_value (n_int n ++ fraction_digits (n_frac n))))
          (numeral_scale n)).
Proof.
  intros (Hwf & pre & post & Hpre & Hpost & ->).
  unfold numeric_of_string.
  rewrite strip_around by (try assumption; now apply numeral_text_no_blank).
  now rewrite read_decimal_text.
Qed.

(** *** The number read *)

Lemma string_length_app (a b : string) :
  String.length (a ++ b) = (String.length a + String.length b)%nat.
Proof. induction a as [| c r IH]; simpl; [reflexivity | now rewrite IH]. Qed.

Lemma Qred_integer (m : Z) : Qred (inject_Z m) = inject_Z m.
Proof. apply Qred_identity. simpl. apply Z.gcd_1_r. Qed.

(** Seventeen digits and an exponent of 290 stay below the range of
    binary64. *)
Lemma short_below_overflow : 10 ^ 17 * 10 ^ 290 < float_overflow.
Proof. reflexivity. Qed.

Lemma no_overflow (m e : Z) :
  Z.abs m < 10 ^ 17 -> e <= 290 -> overflows m e = false.
Proof.
  intros Hm He. unfold overflows.
  pose proof short_below_overflow as Hb.
  destruct (0 <=? e) eqn:Hpos.
  - apply Z.leb_le in Hpos. apply Z.leb_gt.
    assert (H1 : 10 ^ e <= 10 ^ 290) by (apply Z.pow_le_mono_r; lia).
    assert (H2 : 0 < 10 ^ e) by (apply Z.pow_pos_nonneg; lia).
    assert (H3 : 0 <= Z.abs m) by apply Z.abs_nonneg.
    assert (H4 : Z.abs m * 10 ^ e <= 10 ^ 17 * 10 ^ 290).
    { apply Z.mul_le_mono_nonneg; lia. }
    assert (H5 : Z.abs m * 10 ^ e < 10 ^ 17 * 10 ^ e).
    { apply Z.mul_lt_mono_pos_r; lia. }
    assert (H6 : 10 ^ 17 * 10 ^ e <= 10 ^ 17 * 10 ^ 290).
    { apply Z.mul_le_mono_nonneg_l; lia. }
    lia.
  - apply Z.leb_gt in Hpos. apply Z.leb_gt.
    assert (H2 : 0 < 10 ^ (- e)) by (apply Z.pow_pos_nonneg; lia).
    assert (H3 : 10 ^ 17 < float_overflow).
    { assert (H : 1 <= 10 ^ 290) by (apply Z.lt_le_incl; reflexivity || lia).
      nia. }
    nia.
Qed.

(** Within the range, [decimal] is the product it is named after. *)
Lemma decimal_value (m e : Z) :
  overflows m e = false ->
  decimal m e = FNum (Qred (Qmult (inject_Z m) (Qpower (inject_Z 10) e))).
Proof.
  intros Hno. unfold decimal. rewrite Hno.
  destruct (0 <=? e) eqn:Hpos.
  - apply Z.leb_le in Hpos. f_equal.
    rewrite <- (Qred_integer (m * 10 ^ e)). apply Qred_complete.
    rewrite inject_Z_mult. now rewrite Zpower_Qpower.
  - apply Z.leb_gt in Hpos. f_equal. apply Qred_complete.
    assert (Hp : 0 < 10 ^ (- e)) by (apply Z.pow_pos_nonneg; lia).
    rewrite Qmake_Qdiv, Z2Pos.id by exact Hp.
    unfold Qdiv. apply Qmult_comp; [reflexivity |].
    rewrite Zpower_Qpower by lia.
    rewrite <- Qpower_opp. now rewrite Z.opp_involutive.
Qed.

Lemma short_value (n : numeral) :
  well_formed n = true -> short n = true ->
  decimal
    (signed (n_sign n)
       (digits_value (n_int n ++ fraction_digits (n_frac n))))
    (numeral_scale n) =
  FNum (Qred (numeral_value n)).
Proof.
  intros Hwf Hshort.
  destruct (well_formed_parts n Hwf) as (Hip & Hfp & _ & Hex).
  unfold short in Hshort.
  apply andb_true_iff in Hshort. destruct Hshort as [Hshort Hexp].
  apply andb_true_iff in Hshort. destruct Hshort as [Hlen _].
  apply Nat.leb_le in Hlen. apply Z.leb_le in Hexp.
  unfold numeral_value. apply decimal_value. apply no_overflow.
  - assert (Hd : all_digits (n_int n ++ fraction_digits (n_frac n)) = true).
    { unfold all_digits in *. now rewrite all_chars_app, Hip, Hfp. }
    pose proof (digits_value_bound _ Hd) as [H0 H1].
    rewrite string_length_app in H1.
    assert (H2 : 10 ^ Z.of_nat (String.length (n_int n) +
                                String.length (fraction_digits (n_frac n)))
                 <= 10 ^ 17) by (apply Z.pow_le_mono_r; lia).
    destruct (n_sign n); cbn [signed]; rewrite ?Z.abs_opp;
      rewrite Z.abs_eq by exact H0; eapply Z.lt_le_trans; eassumption.
  - unfold numeral_scale.
    assert (He : exponent_value (n_exp n) <= 290).
    { destruct (n_exp n) as [[[c sg] d] |];
        cbn [exponent_value exponent_digits exponent_ok] in *; [| lia].
      apply andb_true_iff in Hex. destruct Hex as [Hex _].
      apply andb_true_iff in Hex. destruct Hex as [_ Hd].
      pose proof (digits_value_bound d Hd) as [H0 _].
      destruct sg; cbn [signed]; lia. }
    lia.
Qed.

(** *** What is read is a numeral *)

Lemma read_sign_spec (s : string) :
  exists sg,
    s = (sign_text sg ++ snd (read_sign s))%string /\
    fst (read_sign s) = match sg with Minus => true | _ => false end.
Proof.
  destruct s as [| c r]; [now exists NoSign |].
  unfold read_sign.
  destruct (Ascii.eqb c "-") eqn:Hm.
  { apply Ascii.eqb_eq in Hm. subst c. now exists Minus. }
  destruct (Ascii.eqb c "+") eqn:Hp.
  { apply Ascii.eqb_eq in Hp. subst c. now exists Plus. }
  now exists NoSign.
Qed.

Lemma read_exponent_spec (s : string) (e : Z) :
  read_exponent s = Some e ->
  exists ex,
    exponent_ok ex = true /\ s = exponent_text ex /\ e = exponent_value ex.
Proof.
  destruct s as [| c r]; cbn [read_exponent].
  { intros [= <-]. now exists None. }
  destruct (Ascii.eqb c "e" || Ascii.eqb c "E") eqn:Hc; [| discriminate].
  destruct (read_sign_spec r) as (sg & Hr & Hneg).
  destruct (read_sign r) as [neg r1]. cbn [fst snd] in Hr, Hneg.
  destruct (span_digits_spec r1) as [Hr1 Hd].
  destruct (span_digits r1) as [d r2]. cbn [fst snd] in Hr1, Hd.
  destruct (is_empty d) eqn:Hne; [discriminate |].
  destruct r2 as [| c' r']; [| discriminate].
  cbn [orb is_empty negb]. intros [= <-].
  exists (Some (c, sg, d)). cbn [exponent_ok exponent_text exponent_value].
  rewrite Hc, Hd, Hne. rewrite string_app_empty in Hr1. subst r1 r neg.
  repeat split. now rewrite signed_negative.
Qed.

Lemma read_number_spec (s : string) (m e : Z) :
  read_number s = Some (m, e) ->
  exists ip fr ex,
    all_digits ip = true /\ all_digits (fraction_digits fr) = true /\
    is_empty ip && is_empty (fraction_digits fr) = false /\
    exponent_ok ex = true /\
    s = (ip ++ fraction_text fr ++ exponent_text ex)%string /\
    m = digits_value (ip ++ fraction_digits fr) /\
    e = exponent_value ex - Z.of_nat (String.length (fraction_digits fr)).
Proof.
  unfold read_number.
  destruct (span_digits_spec s) as [Hs Hip].
  destruct (span_digits s) as [ip r1]. cbn [fst snd] in Hs, Hip.
  assert (Hfr : exists fr,
             all_digits (fraction_digits fr) = true /\
             r1 = (fraction_text fr ++ snd (read_fraction r1))%string /\
             fst (read_fraction r1) = fraction_digits fr).
  { unfold read_fraction. destruct r1 as [| c r]; [now exists None |].
    destruct (Ascii.eqb c ".") eqn:Hc; [| now exists None].
    apply Ascii.eqb_eq in Hc. subst c.
    destruct (span_digits_spec r) as [Hr Hfp].
    exists (Some (fst (span_digits r))).
    cbn [fraction_digits fraction_text append].
    repeat split; [exact Hfp | now rewrite <- Hr]. }
  destruct Hfr as (fr & Hfp & Hr1 & Hfst).
  destruct (read_fraction r1) as [fp r2]. cbn [fst snd] in Hr1, Hfst.
  subst fp.
  destruct (is_empty ip && is_empty (fraction_digits fr)) eqn:Hne;
    [discriminate |].
  destruct (read_exponent r2) as [e' |] eqn:He; [| discriminate].
  intros [= <- <-].
  destruct (read_exponent_spec r2 e' He) as (ex & Hex & -> & ->).
  exists ip, fr, ex. repeat split; try assumption.
  now rewrite Hs, Hr1.
Qed.

Lemma read_decimal_spec (s : string) (f : pyfloat) :
  read_decimal s = Some f ->
  exists n, well_formed n = true /\ s = numeral_text n.
Proof.
  unfold read_decimal.
  destruct (read_sign_spec s) as (sg & Hs & _).
  destruct (read_sign s) as [neg r]. cbn [snd] in Hs.
  destruct (read_number r) as [[m e] |] eqn:Hr; [| discriminate].
  intros _.
  destruct (read_number_spec r m e Hr)
    as (ip & fr & ex & Hip & Hfp & Hne & Hex & -> & _).
  exists (mkNumeral sg ip fr ex). split; [| exact Hs].
  unfold well_formed. cbn [n_int n_frac n_exp].
  now rewrite Hip, Hfp, Hne, Hex.
Qed.

(** A text that [pandas.to_numeric] reads as a decimal writes a numeral. *)
Lemma unwritten_unread (t : string) :
  (forall n, ~ writes t n) -> read_decimal (strip is_space t) = None.
Proof.
  intros Hno. destruct (read_decimal (strip is_space t)) as [f |] eqn:H;
    [| reflexivity].
  destruct (read_decimal_spec _ f H) as (n & Hwf & Hn).
  destruct (strip_spec t) as (pre & post & Hpre & Hpost & Ht).
  exfalso. apply (Hno n). split; [exact Hwf |].
  exists pre, post. now rewrite <- Hn.
Qed.

(** *** The spellings of an infinity *)

Lemma is_digit_lower (c : ascii) : is_digit (lower_char c) = is_digit c.
Proof. destruct c as [[] [] [] [] [] [] [] []]; reflexivity. Qed.

Lemma all_chars_lower_digit (s : string) :
  all_chars (fun c => negb (is_digit c)) (lower s) =
  all_chars (fun c => negb (is_digit c)) s.
Proof.
  induction s as [| c r IH]; [reflexivity |].
  unfold lower in *. cbn [map_string all_chars].
  now rewrite is_digit_lower, IH.
Qed.

Lemma numeral_text_digit (n : numeral) :
  well_formed n = true ->
  all_chars (fun c => negb (is_digit c)) (numeral_text n) = false.
Proof.
  intros Hwf. destruct (well_formed_parts n Hwf) as (Hip & Hfp & Hne & _).
  unfold numeral_text. rewrite !all_chars_app.
  destruct (n_int n) as [| c r].
  - destruct (n_frac n) as [[| c r] |]; try discriminate Hne.
    unfold all_digits in Hfp. cbn [fraction_digits all_chars] in Hfp.
    apply andb_true_iff in Hfp. destruct Hfp as [Hc _].
    cbn [fraction_text all_chars]. rewrite Hc. cbn.
    now rewrite andb_false_r.
  - unfold all_digits in Hip. cbn [all_chars] in Hip.
    apply andb_true_iff in Hip. destruct Hip as [Hc _].
    cbn [all_chars]. rewrite Hc. cbn. now rewrite andb_false_r.
Qed.

(** A spelling of an infinity writes no numeral. *)
Lemma infinity_unwritten (t : string) (n : numeral) :
  In (lower t) (plus_infinity ++ minus_infinity) -> ~ writes t n.
Proof.
  intros Hin (Hwf & pre & post & _ & _ & Ht).
  assert (H : all_chars (fun c => negb (is_digit c)) (lower t) = true).
  { cbn in Hin.
    repeat (destruct Hin as [<- | Hin]; [reflexivity |]). destruct Hin. }
  rewrite all_chars_lower_digit, Ht, !all_chars_app in H.
  rewrite (numeral_text_digit n Hwf) in H.
  now rewrite andb_false_r in H.
Qed.

Lemma read_infinity_plus (t : string) :
  In (lower t) plus_infinity -> read_infinity t = Some (FInf false).
Proof.
  unfold read_infinity. cbn [plus_infinity In].
  intros [<- | [<- | [<- | [<- | []]]]]; reflexivity.
Qed.

Lemma read_infinity_minus (t : string) :
  In (lower t) minus_infinity -> read_infinity t = Some (FInf true).
Proof.
  unfold read_infinity. cbn [minus_infinity In].
  intros [<- | [<- | []]]; reflexivity.
Qed.

Lemma read_infinity_none (t : string) :
  ~ In (lower t) (plus_infinity ++ minus_infinity) ->
  read_infinity t = None.
Proof.
  intros Hno. unfold read_infinity.
  repeat match goal with
         | |- context [String.eqb (lower t) ?l] =>
             let H := fresh "H" in
             destruct (String.eqb (lower t) l) eqn:H;
             [exfalso; apply Hno; apply String.eqb_eq in H; rewrite H;
              cbn; tauto |]
         end.
  reflexivity.
Qed.

(** *** What [to_numeric] and [fillna(0)] make of a text *)

Lemma coerce_written (t : string) (n : numeral) :
  short n = true -> writes t n ->
  fillna0 (to_numeric_coerce t) = FNum (Qred (numeral_value n)).
Proof.
  intros Hshort Hw. unfold to_numeric_coerce.
  rewrite (numeric_of_written t n Hw).
  destruct Hw as (Hwf & _). now rewrite short_value.
Qed.

Lemma coerce_infinity (t : string) :
  (In (lower t) plus_infinity ->
   fillna0 (to_numeric_coerce t) = FInf false) /\
  (In (lower t) minus_infinity ->
   fillna0 (to_numeric_coerce t) = FInf true).
Proof.
  split; intros Hin; unfold to_numeric_coerce, numeric_of_string;
    rewrite unwritten_unread.
  - now rewrite read_infinity_plus.
  - intros n. apply infinity_unwritten. apply in_or_app. now left.
  - now rewrite read_infinity_minus.
  - intros n. apply infinity_unwritten. apply in_or_app. now right.
Qed.

Lemma coerce_unwritten (t : string) :
  (forall n, ~ writes t n) ->
  ~ In (lower t) (plus_infinity ++ minus_infinity) ->
  fillna0 (to_numeric_coerce t) = float_of_Z 0.
Proof.
  intros Hno Hinf. unfold to_numeric_coerce, numeric_of_string.
  now rewrite unwritten_unread, read_infinity_none.
Qed.

(** *** The cell of a row *)

Lemma stocks_finish_In (l : list (stamped StocksTransformer.record))
    (df : DataFrame (stamped StocksTransformer.row))
    (r : stamped StocksTransformer.row) :
  StocksTransformer.finish l = Ret df -> In r (rows df) ->
  exists r0 volumes,
    In r0 l /\
    StocksTransformer.quality volumes (cells r0) = Ret (cells r).
Proof.
  unfold StocksTransformer.finish.
  destruct l as [| a rest]; [intros [= <-] [] |].
  cbn [frame_of_records empty columns rows StocksTransformer.column_names].
  set (volumes := infer_int_dtype _).
  destruct (map_res _ _) as [kept | e] eqn:Hk; cbn [pbind]; [| discriminate].
  intros [= <-] Hin. cbn [rows] in Hin.
  destruct (map_res_In _ _ _ _ Hk Hin) as (r0 & Hr0 & Hq).
  apply filter_In in Hr0. destruct Hr0 as [Hr0 _].
  exists r0, volumes. split; [exact Hr0 |].
  unfold on_cells_res in Hq.
  destruct (StocksTransformer.quality volumes (cells r0)) as [c | e'];
    cbn [pbind] in Hq; [| discriminate].
  now injection Hq as <-.
Qed.

Lemma stocks_entries_change_percent (sym quote : pyval)
    (c : StocksTransformer.record) :
  StocksTransformer.entries sym quote = Ret c ->
  StocksTransformer.r_symbol c = sym /\
  exists s,
    py_get quote "10. change percent" (VStr "") = Ret (VStr s) /\
    StocksTransformer.r_change_percent c = remove_char "%" s.
Proof.
  unfold StocksTransformer.entries. intros H. pinv_all. injection H as <-.
  split; [reflexivity |].
  match goal with
  | H : py_replace_percent ?v = Ret _ |- _ =>
      destruct v as [| | | | s | |]; try discriminate H;
      injection H as <-; exists s
  end.
  now split.
Qed.



(** The end-to-end example: one row, with the numbers the texts write. *)
Lemma stocks_transform_aapl :
  StocksTransformer.transform ticking_clock (VList [aapl]) 0%nat =
  (Ret aapl_frame, 2%nat) /\
  numeral_text (mkNumeral NoSign "1" (Some "23") None) = "1.23" /\
  Qred (numeral_value (mkNumeral NoSign "1" (Some "23") None)) =
  Qmake 123 100.
Proof. repeat split. Qed.

(** What the cell is for some texts: numerals with a sign, an exponent or
    blanks, texts that are no number, and spellings of an infinity, which
    blanks spoil. *)
Lemma change_percent_samples :
  map (fun s => fillna0 (to_numeric_coerce (remove_char "%" s)))
    ["1.23%"; "-0.5%"; "+1e2%"; "25E-1%"; " 2.5 %"; ".5%"; "N/A"; "";
     "1.2.3%"; "nan"; " inf%"; "inf%"; "-Infinity%"] =
  [FNum (Qmake 123 100); FNum (Qmake (-1) 2); FNum (Qmake 100 1);
   FNum (Qmake 5 2); FNum (Qmake 5 2); FNum (Qmake 1 2); float_of_Z 0;
   float_of_Z 0; float_of_Z 0; float_of_Z 0; float_of_Z 0; FInf false;
   FInf true].
Proof. vm_compute. reflexivity. Qed.

(** The transformer does return on a record whose entries convert and
    whose volume fits 64 bits. *)
Lemma stocks_transform_returns (clock : nat -> datetime) (k : nat)
    (sym quote : pyval) (c : StocksTransformer.record) :
  StocksTransformer.entries sym quote = Ret c ->
  StocksTransformer.keep c = true ->
  fits_int64 (StocksTransformer.r_volume c) = true ->
  exists row,
    StocksTransformer.quality Int64 c = Ret row /\
    StocksTransformer.transform clock
      (VList [VDict [("symbol", sym); ("data", quote)]]) k =
    (Ret (mkFrame StocksTransformer.column_names
            [mkStamped row (clock k) (clock (S k))]),
     S (S k)).
Proof.
  intros He Hk Hv. eexists. split; [reflexivity |].
  unfold StocksTransformer.transform, bind, lift. cbn [py_iter for_in].
  unfold bind. rewrite stocks_step_follows. unfold stocks_attempt.
  cbn [py_getitem dict_get String.eqb Ascii.eqb Bool.eqb pbind].
  rewrite He. cbn [caught app ret].
  unfold StocksTransformer.finish.
  cbn [frame_of_records empty columns rows StocksTransformer.column_names
         filter cells map].
  unfold infer_int_dtype. cbn [forallb]. rewrite Hv, Hk. cbn [andb].
  reflexivity.
Qed.
(** ** Forex extraction: the requested currencies *)

(** The comprehension over a rate table that is a mapping. *)
Lemma pick_dict (d rates acc : pydict) (c : string) :
  dict_get d "rates" = Some (VDict rates) ->
  ForexExtractor.pick (VDict d) acc c =
  Ret (match dict_get rates c with
       | Some v => dict_set acc c v
       | None => acc
       end).
Proof.
  intros H. unfold ForexExtractor.pick.
  cbn [py_getitem pbind py_in]. rewrite H. cbn [pbind py_in].
  unfold dict_mem. destruct (dict_get rates c) as [v |] eqn:Hc;
    [| reflexivity].
  cbn [pbind py_get]. now rewrite Hc.
Qed.

Lemma fold_pick_dict (d rates : pydict) (targets : list string) :
  dict_get d "rates" = Some (VDict rates) ->
  forall acc,
    fold_res (ForexExtractor.pick (VDict d)) targets acc =
    Ret (filter_rates rates targets acc).
Proof.
  intros H. induction targets as [| c rest IH]; intros acc; simpl;
    [reflexivity |].
  rewrite (pick_dict d rates acc c H). cbn [pbind]. apply IH.
Qed.

Lemma dict_get_set (d : pydict) (k k' : string) (v : pyval) :
  dict_get (dict_set d k v) k' =
  if String.eqb k k' then Some v else dict_get d k'.
Proof.
  induction d as [| [a x] r IH]; simpl.
  - reflexivity.
  - destruct (String.eqb a k) eqn:Hak; simpl.
    + apply String.eqb_eq in Hak. subst a.
      now destruct (String.eqb k k').
    + rewrite IH. destruct (String.eqb a k') eqn:Hak'; [| reflexivity].
      apply String.eqb_eq in Hak'. subst a.
      rewrite String.eqb_sym in Hak. now rewrite Hak.
Qed.

Lemma dict_keys_set (d : pydict) (k : string) (v : pyval) :
  dict_keys (dict_set d k v) =
  if dict_mem d k then dict_keys d else dict_keys d ++ [k].
Proof.
  unfold dict_mem, dict_keys.
  induction d as [| [a x] r IH]; simpl; [reflexivity |].
  destruct (String.eqb a k) eqn:Hak; simpl; [reflexivity |].
  rewrite IH. now destruct (dict_get r k).
Qed.

Lemma dict_mem_keys (d : pydict) (k : string) :
  dict_mem d k = true <-> In k (dict_keys d).
Proof.
  unfold dict_mem, dict_keys.
  induction d as [| [a x] r IH]; simpl; [split; [discriminate | tauto] |].
  destruct (String.eqb a k) eqn:Hak.
  - apply String.eqb_eq in Hak. tauto.
  - apply String.eqb_neq in Hak. rewrite IH. split; [tauto |].
    intros [H | H]; [contradiction | exact H].
Qed.

Lemma filter_rates_get (rates : pydict) (targets : list string) :
  forall acc c,
    dict_get (filter_rates rates targets acc) c =
    if existsb (String.eqb c) targets && dict_mem rates c
    then dict_get rates c
    else dict_get acc c.
Proof.
  induction targets as [| t rest IH]; intros acc c; simpl; [reflexivity |].
  rewrite IH. unfold dict_mem.
  destruct (existsb (String.eqb c) rest) eqn:Hrest; simpl.
  - rewrite orb_true_r. simpl.
    destruct (dict_get rates c) eqn:Hc; [reflexivity |].
    destruct (dict_get rates t) eqn:Ht; [| reflexivity].
    rewrite dict_get_set.
    destruct (String.eqb t c) eqn:Htc; [| reflexivity].
    apply String.eqb_eq in Htc. congruence.
  - rewrite orb_false_r.
    destruct (String.eqb c t) eqn:Hct; simpl.
    + apply String.eqb_eq in Hct. subst t.
      destruct (dict_get rates c) eqn:Hc; [| reflexivity].
      rewrite dict_get_set. now rewrite String.eqb_refl.
    + destruct (dict_get rates t) eqn:Ht; [| reflexivity].
      rewrite dict_get_set. rewrite String.eqb_sym. now rewrite Hct.
Qed.

Lemma filter_rates_NoDup (rates : pydict) (targets : list string) :
  forall acc,
    NoDup (dict_keys acc) ->
    NoDup (dict_keys (filter_rates rates targets acc)).
Proof.
  induction targets as [| t rest IH]; intros acc Hacc; simpl; [exact Hacc |].
  apply IH. destruct (dict_get rates t); [| exact Hacc].
  rewrite dict_keys_set. destruct (dict_mem acc t) eqn:Hm; [exact Hacc |].
  apply NoDup_app; [exact Hacc | repeat constructor; intros [] |].
  intros x Hx [<- | []]. apply dict_mem_keys in Hx. congruence.
Qed.

(** C4: when the provider answers with a body that holds a rate table, the
    result holds the base, the date of the body, and the rates of exactly
    the requested currencies that the table has, each with the rate of the
    table; the others are left out and nothing is raised.  One request is
    sent. *)
Theorem forex_extract_requested_rates
    (World : Type) (http_get : request -> World -> pyval * World)
    (base : string) (targets : list string)
    (s : BaseExtractor.env World) (d rates : pydict) (w : World) :
  http_get (mkRequest base []) (BaseExtractor.world s) = (VDict d, w) ->
  dict_get d "rates" = Some (VDict rates) ->
  exists filtered,
    ForexExtractor.extract_exchange_rates World http_get base targets s =
    (Ret (VDict [("base", VStr base);
                 ("date", match dict_get d "date" with
                          | Some x => x
                          | None => VNone
                          end);
                 ("rates", VDict filtered)]),
     BaseExtractor.mkEnv w
       (BaseExtractor.events s ++ [Fetch (mkRequest base []) (VDict d)])) /\
    (forall c,
        In c (dict_keys filtered) <->
        In c targets /\ In c (dict_keys rates)) /\
    (forall c,
        In c (dict_keys filtered) -> dict_get filtered c = dict_get rates c) /\
    NoDup (dict_keys filtered) /\
    (targets = ["EUR"; "XXX"] -> dict_keys rates = ["EUR"] ->
     dict_keys filtered = ["EUR"]).
Proof.
  intros Hget Hrates. exists (filter_rates rates targets []).
  assert (Hkeys : forall c,
             In c (dict_keys (filter_rates rates targets [])) <->
             In c targets /\ In c (dict_keys rates)).
  { intros c. rewrite <- !dict_mem_keys. unfold dict_mem at 1.
    rewrite filter_rates_get. simpl dict_get.
    destruct (existsb (String.eqb c) targets) eqn:Hex; simpl.
    - apply existsb_exists in Hex. destruct Hex as (x & Hx & Heq).
      apply String.eqb_eq in Heq. subst x.
      unfold dict_mem. destruct (dict_get rates c); simpl; tauto.
    - split; [discriminate |]. intros [Hin _].
      assert (existsb (String.eqb c) targets = true) as Habs; [| congruence].
      apply existsb_exists. exists c. split; [exact Hin |].
      apply String.eqb_refl. }
  split; [| split; [exact Hkeys | split; [| split]]].
  - unfold ForexExtractor.extract_exchange_rates, bind, BaseExtractor.get, lift.
    rewrite Hget. unfold truthy_and_in.
    assert (Ht : truthy (VDict d) = true)
      by (destruct d; [discriminate | reflexivity]).
    rewrite Ht. cbn [py_in]. unfold dict_mem. rewrite Hrates.
    cbn [py_get]. rewrite (fold_pick_dict d rates targets Hrates).
    reflexivity.
  - intros c Hc. apply Hkeys in Hc. destruct Hc as [Hin Hr].
    rewrite filter_rates_get. simpl dict_get.
    apply dict_mem_keys in Hr. rewrite Hr.
    assert (existsb (String.eqb c) targets = true) as ->; [| reflexivity].
    apply existsb_exists. exists c. split; [exact Hin | apply String.eqb_refl].
  - apply filter_rates_NoDup. constructor.
  - intros -> Hk. destruct rates as [| [a x] [| b r]]; try discriminate.
    injection Hk as ->. reflexivity.
Qed.

(** The theorem at the request of EUR and XXX to the provider that knows
    the euro only. *)
Lemma forex_extract_requested_rates_witness :
  exists filtered,
    ForexExtractor.extract_exchange_rates unit eur_provider "USD"
      ["EUR"; "XXX"] (BaseExtractor.mkEnv tt []) =
    (Ret (VDict [("base", VStr "USD");
                 ("date", match dict_get eur_body "date" with
                          | Some x => x
                          | None => VNone
                          end);
                 ("rates", VDict filtered)]),
     BaseExtractor.mkEnv tt
       ([] ++ [Fetch (mkRequest "USD" []) (VDict eur_body)])) /\
    (forall c,
        In c (dict_keys filtered) <->
        In c ["EUR"; "XXX"] /\ In c (dict_keys eur_rates)) /\
    (forall c,
        In c (dict_keys filtered) ->
        dict_get filtered c = dict_get eur_rates c) /\
    NoDup (dict_keys filtered) /\
    (["EUR"; "XXX"] = ["EUR"; "XXX"] -> dict_keys eur_rates = ["EUR"] ->
     dict_keys filtered = ["EUR"]).
Proof.
  apply (forex_extract_requested_rates unit eur_provider "USD" ["EUR"; "XXX"]
           (BaseExtractor.mkEnv tt []) eur_body eur_rates tt).
  - reflexivity.
  - reflexivity.
Defined.

(** The example of the claim: EUR and XXX requested, EUR alone answered. *)
Lemma forex_extract_eur_xxx :
  fst (ForexExtractor.extract_exchange_rates unit eur_provider "USD"
         ["EUR"; "XXX"] (BaseExtractor.mkEnv tt [])) =
  Ret (VDict [("base", VStr "USD"); ("date", VStr "2024-01-15");
              ("rates", VDict [("EUR", VFloat (FNum (Qmake 23 25)))])]).
Proof. reflexivity. Qed.

(** ** Stocks extraction: one paced fetch per symbol *)

Section StocksExtraction.

Variable World : Type.
Variable http_get : request -> World -> pyval * World.
Variable elapse : Z -> World -> World.
Variable api_key : string.

#[local] Abbreviation price :=
  (StocksExtractor.extract_stock_price World http_get api_key).
#[local] Abbreviation request_of := (StocksExtractor.quote_request api_key).
#[local] Abbreviation bodies_of symbols delay s :=
  (fst (answers http_get elapse delay (map request_of symbols)
          (BaseExtractor.world s))).

Lemma answers_length (delay : Z) (requests : list request) :
  forall w,
    List.length (fst (answers http_get elapse delay requests w)) =
    List.length requests.
Proof.
  induction requests as [| r rest IH]; intros w; [reflexivity |].
  cbn [answers]. destruct rest as [| r' rest']; [reflexivity |].
  cbn [fst List.length]. now rewrite IH.
Qed.

(** One call sends one request; on a body that is an object or the failure
    signal it returns the tagged quote, or [None]. *)
Lemma extract_stock_price_object (symbol : string)
    (s : BaseExtractor.env World) :
  object_or_none (fst (http_get (request_of symbol) (BaseExtractor.world s)))
  = true ->
  price symbol s =
  let (body, w) := http_get (request_of symbol) (BaseExtractor.world s) in
  (Ret (match quote_of body with
        | Some q => tagged (symbol, q)
        | None => VNone
        end),
   BaseExtractor.mkEnv w
     (BaseExtractor.events s ++ [Fetch (request_of symbol) body])).
Proof.
  unfold StocksExtractor.extract_stock_price, bind,
    BaseExtractor.get, lift.
  cbn [endpoint params StocksExtractor.quote_request].
  destruct (http_get _ (BaseExtractor.world s)) as [body w].
  cbn [fst]. intros Hbody.
  destruct body as [| | | | | | d]; try discriminate; [reflexivity |].
  unfold truthy_and_in, quote_of.
  destruct d as [| p d']; [reflexivity |].
  cbn [truthy py_in]. unfold dict_mem.
  destruct (dict_get (p :: d') "Global Quote") as [q |] eqn:Hq;
    [| reflexivity].
  cbn [py_getitem]. rewrite Hq. now destruct (truthy q).
Qed.

(** Whatever the body, a call that returns gives the tagged quote or
    [None]. *)
Lemma extract_stock_price_shape (symbol : string)
    (s s' : BaseExtractor.env World) (data : pyval) :
  price symbol s = (Ret data, s') ->
  data = VNone \/ exists q, data = tagged (symbol, q).
Proof.
  unfold StocksExtractor.extract_stock_price, bind,
    BaseExtractor.get, lift.
  destruct (http_get _ (BaseExtractor.world s)) as [body w].
  destruct (truthy_and_in "Global Quote" body) as [[] | e];
    [| intros [= <- _]; now left | discriminate].
  destruct (py_getitem body "Global Quote") as [q | e]; [| discriminate].
  destruct (truthy q); intros [= <- _]; [right; now exists q | now left].
Qed.

Lemma pace_cons (delay : Z) (r : request) (b : pyval)
    (l : list (request * pyval)) :
  l <> [] -> pace delay ((r, b) :: l) = Fetch r b :: Pause delay :: pace delay l.
Proof. destruct l; [congruence | reflexivity]. Qed.

Lemma paced_pace (delay : Z) (l : list (request * pyval)) :
  paced delay (pace delay l) = true.
Proof.
  induction l as [| [r b] rest IH]; [reflexivity |].
  destruct rest as [| [r' b'] rest']; [reflexivity |].
  rewrite pace_cons by discriminate.
  cbn [paced]. 
  destruct (pace delay ((r', b') :: rest')) as [| e t] eqn:Hp.
  - destruct rest'; discriminate.
  - destruct e as [r0 b0 | d0].
    + now rewrite Z.eqb_refl, IH.
    + destruct rest'; discriminate.
Qed.

Lemma fetched_pace (delay : Z) (l : list (request * pyval)) :
  fetched (pace delay l) = l.
Proof.
  induction l as [| [r b] rest IH]; [reflexivity |].
  destruct rest as [| p rest']; [reflexivity |].
  rewrite pace_cons by discriminate. cbn [fetched]. now rewrite IH.
Qed.

Lemma extract_loop_trace (n : nat) (delay : Z) :
  0 <= delay ->
  (forall r w, object_or_none (fst (http_get r w)) = true) ->
  forall (rest : list string) (i : nat) (acc : list pyval)
         (s : BaseExtractor.env World),
    (i + List.length rest = n)%nat ->
    exists bodies w,
      List.length bodies = List.length rest /\
      for_in (StocksExtractor.step World http_get elapse api_key n delay)
        (combine (seq i (List.length rest)) rest) acc s =
      (Ret (acc ++ successes (combine rest bodies)),
       BaseExtractor.mkEnv w
         (BaseExtractor.events s ++
          pace delay (combine (map request_of rest) bodies))).
Proof.
  intros Hdelay Hobj rest.
  induction rest as [| symbol rest IH]; intros i acc s Hn.
  - exists [], (BaseExtractor.world s). split; [reflexivity |].
    cbn. rewrite !app_nil_r. now destruct s.
  - cbn [List.length seq combine for_in].
    unfold bind at 1. unfold StocksExtractor.step at 1. unfold bind at 1.
    cbn [fst snd].
    rewrite extract_stock_price_object by apply Hobj.
    destruct (http_get (request_of symbol) (BaseExtractor.world s))
      as [body w] eqn:Hget.
    set (data := match quote_of body with
                 | Some q => tagged (symbol, q)
                 | None => VNone
                 end).
    set (acc' := if truthy data then acc ++ [data] else acc).
    assert (Hacc : acc' = acc ++ successes [(symbol, body)]).
    { unfold acc', data. cbn [successes].
      destruct (quote_of body); [reflexivity | now rewrite app_nil_r]. }
    cbn [List.length] in Hn.
    destruct rest as [| symbol' rest'].
    + (* the last symbol: no pause *)
      assert (Hlast : (Z.of_nat i <? Z.of_nat n - 1) = false)
        by (apply Z.ltb_ge; simpl in Hn; lia).
      rewrite Hlast. unfold bind, ret. cbn [List.length seq combine for_in].
      exists [body], w. split; [reflexivity |].
      unfold ret. cbn [map combine pace]. rewrite Hacc. reflexivity.
    + assert (Hmore : (Z.of_nat i <? Z.of_nat n - 1) = true)
        by (apply Z.ltb_lt; simpl in Hn; lia).
      rewrite Hmore. unfold bind at 1. unfold BaseExtractor.sleep.
      assert (Hpos : (delay <? 0) = false) by (apply Z.ltb_ge; lia).
      rewrite Hpos. unfold ret at 1.
      cbn [BaseExtractor.world BaseExtractor.events].
      destruct (IH (S i) acc'
                  (BaseExtractor.mkEnv (elapse delay w)
                     ((BaseExtractor.events s ++ [Fetch (request_of symbol) body])
                      ++ [Pause delay])))
        as (bodies & w' & Hlen & Hrun);
        [rewrite Nat.add_succ_r in Hn; exact Hn |].
      exists (body :: bodies), w'.
      split; [cbn [List.length]; now rewrite Hlen |].
      rewrite Hrun. cbn [BaseExtractor.events].
      rewrite Hacc. cbn [successes combine map].
      destruct bodies as [| b' bodies']; [discriminate Hlen |].
      cbn [combine map].
      rewrite (pace_cons delay (request_of symbol) body) by discriminate.
      cbn [combine map].
      rewrite <- !app_assoc. cbn [app].
      destruct (quote_of body); reflexivity.
Qed.

(** The loop, exactly: the bodies are the answers of the provider to the
    requests for the symbols, made at that pace. *)
Lemma extract_loop_run (n : nat) (delay : Z) :
  0 <= delay ->
  forall (rest : list string) (i : nat) (acc : list pyval)
         (s : BaseExtractor.env World),
    (i + List.length rest = n)%nat ->
    forallb object_or_none (bodies_of rest delay s) = true ->
    for_in (StocksExtractor.step World http_get elapse api_key n delay)
      (combine (seq i (List.length rest)) rest) acc s =
    (Ret (acc ++ successes (combine rest (bodies_of rest delay s))),
     BaseExtractor.mkEnv
       (snd (answers http_get elapse delay (map request_of rest)
               (BaseExtractor.world s)))
       (BaseExtractor.events s ++
        pace delay
          (combine (map request_of rest) (bodies_of rest delay s)))).
Proof.
  intros Hdelay rest.
  induction rest as [| symbol rest IH]; intros i acc s Hn Hobj.
  - cbn. rewrite !app_nil_r. now destruct s.
  - cbn [List.length seq combine for_in].
    unfold bind at 1. unfold StocksExtractor.step at 1. unfold bind at 1.
    cbn [fst snd].
    assert (Hbody : object_or_none
                      (fst (http_get (request_of symbol)
                              (BaseExtractor.world s))) = true).
    { cbn [map answers] in Hobj.
      destruct (map request_of rest); cbn [fst forallb] in Hobj;
        apply andb_true_iff in Hobj; now destruct Hobj. }
    rewrite extract_stock_price_object by exact Hbody.
    cbn [map answers] in Hobj |- *.
    destruct (http_get (request_of symbol) (BaseExtractor.world s))
      as [body w] eqn:Hget.
    cbn [fst snd] in Hobj |- *.
    set (data := match quote_of body with
                 | Some q => tagged (symbol, q)
                 | None => VNone
                 end).
    set (acc' := if truthy data then acc ++ [data] else acc).
    assert (Hacc : acc' = acc ++ successes [(symbol, body)]).
    { unfold acc', data. cbn [successes].
      destruct (quote_of body); [reflexivity | now rewrite app_nil_r]. }
    cbn [List.length] in Hn.
    destruct rest as [| symbol' rest'].
    + (* the last symbol: no pause *)
      assert (Hlast : (Z.of_nat i <? Z.of_nat n - 1) = false)
        by (apply Z.ltb_ge; simpl in Hn; lia).
      rewrite Hlast. unfold bind, ret. cbn [List.length seq combine for_in].
      unfold ret. cbn [map combine pace fst snd]. rewrite Hacc. reflexivity.
    + assert (Hmore : (Z.of_nat i <? Z.of_nat n - 1) = true)
        by (apply Z.ltb_lt; simpl in Hn; lia).
      rewrite Hmore. unfold bind at 1. unfold BaseExtractor.sleep.
      assert (Hpos : (delay <? 0) = false) by (apply Z.ltb_ge; lia).
      rewrite Hpos. unfold ret at 1.
      cbn [BaseExtractor.world BaseExtractor.events].
      cbn [map] in Hobj |- *. cbn [fst snd forallb] in Hobj |- *.
      apply andb_true_iff in Hobj. destruct Hobj as [_ Hrest].
      rewrite (IH (S i) acc'
                 (BaseExtractor.mkEnv (elapse delay w)
                    ((BaseExtractor.events s
                      ++ [Fetch (request_of symbol) body])
                     ++ [Pause delay])));
        [| rewrite Nat.add_succ_r in Hn; exact Hn | exact Hrest].
      cbn [BaseExtractor.world BaseExtractor.events].
      rewrite Hacc. cbn [map].
      remember (answers http_get elapse delay
                  (request_of symbol' :: map request_of rest')
                  (elapse delay w)) as run eqn:Hrun.
      assert (Hlen : List.length (fst run) = S (List.length rest')).
      { rewrite Hrun, answers_length. cbn [List.length].
        now rewrite length_map. }
      destruct run as [bodies w']. cbn [fst snd] in Hlen |- *.
      destruct bodies as [| b' bodies']; [discriminate Hlen |].
      cbn [successes combine map].
      rewrite (pace_cons delay (request_of symbol) body) by discriminate.
      rewrite <- !app_assoc. cbn [app].
      destruct (quote_of body); reflexivity.
Qed.

Lemma map_fst_combine {A B} (l : list A) :
  forall l' : list B,
    List.length l' = List.length l -> map fst (combine l l') = l.
Proof.
  induction l as [| a l IH]; intros [| b l'] H; try discriminate H;
    [reflexivity |].
  cbn [combine map fst]. f_equal. apply IH. now injection H.
Qed.


Lemma subseq_length {A} (sub l : list A) :
  subseq sub l -> (List.length sub <= List.length l)%nat.
Proof. induction 1; simpl; lia. Qed.

Lemma extract_loop_subseq (n : nat) (delay : Z) :
  forall (rest : list string) (i : nat) (acc results : list pyval)
         (s s' : BaseExtractor.env World),
    for_in (StocksExtractor.step World http_get elapse api_key n delay)
      (combine (seq i (List.length rest)) rest) acc s = (Ret results, s') ->
    exists picked,
      results = acc ++ map tagged picked /\
      subseq (map fst picked) rest.
Proof.
  induction rest as [| symbol rest IH]; intros i acc results s s'.
  - cbn. intros [= <- _]. exists []. split; [now rewrite app_nil_r |].
    constructor.
  - cbn [List.length seq combine for_in].
    unfold bind at 1. unfold StocksExtractor.step at 1. unfold bind at 1.
    cbn [fst snd].
    destruct (price symbol s) as [[data | e] s1] eqn:Hprice; [| discriminate].
    set (acc' := if truthy data then acc ++ [data] else acc).
    unfold bind at 1.
    destruct ((if Z.of_nat i <? Z.of_nat n - 1
               then BaseExtractor.sleep World elapse delay
               else ret tt) s1) as [[[] | e] s2]; [| discriminate].
    unfold ret at 1. intros Hrun.
    destruct (IH (S i) acc' results s2 s' Hrun) as (picked & -> & Hsub).
    destruct (extract_stock_price_shape symbol s s1 data Hprice)
      as [-> | (q & ->)].
    + exists picked. split; [reflexivity | now constructor].
    + exists ((symbol, q) :: picked). split.
      * unfold acc'. cbn [truthy tagged map]. now rewrite <- app_assoc.
      * cbn [map fst]. now constructor.
Qed.

(** C9: the list returned holds, in the order of the symbols, the tagged
    quotes of some of them: for each at most one, tagged with that very
    symbol, so that it is no longer than the list of symbols. *)
Theorem extract_multiple_stocks_subsequence (symbols : list string)
    (delay : Z) (s s' : BaseExtractor.env World) (results : list pyval) :
  StocksExtractor.extract_multiple_stocks World http_get elapse api_key
    symbols delay s = (Ret results, s') ->
  (List.length results <= List.length symbols)%nat /\
  exists picked,
    results = map tagged picked /\
    subseq (map fst picked) symbols /\
    map (fun r => py_getitem r "symbol") results =
    map (fun p => Ret (VStr (fst p))) picked.
Proof.
  intros Hrun.
  destruct (extract_loop_subseq (List.length symbols) delay symbols 0%nat []
              results s s' Hrun) as (picked & -> & Hsub).
  cbn [app]. split.
  - rewrite length_map, <- (length_map fst picked).
    now apply subseq_length.
  - exists picked. repeat split; [exact Hsub |].
    rewrite map_map. apply map_ext. now intros [sym q].
Qed.

End StocksExtraction.



(** Three symbols, one without a quote: three requests, two pauses, one
    quote returned. *)
Lemma extract_three_symbols :
  StocksExtractor.extract_multiple_stocks unit aapl_provider (fun _ w => w)
    "demo" ["NOPE"; "AAPL"; "NOPE"] 12 (BaseExtractor.mkEnv tt []) =
  (Ret [tagged ("AAPL", VDict [("05. price", VStr "150.00")])],
   BaseExtractor.mkEnv tt
     [Fetch (StocksExtractor.quote_request "demo" "NOPE")
        (VDict [("Global Quote", VDict [])]);
      Pause 12;
      Fetch (StocksExtractor.quote_request "demo" "AAPL")
        (VDict [("Global Quote", VDict [("05. price", VStr "150.00")])]);
      Pause 12;
      Fetch (StocksExtractor.quote_request "demo" "NOPE")
        (VDict [("Global Quote", VDict [])])]).
Proof. reflexivity. Qed.

(** The theorem at the run above. *)
Lemma extract_multiple_stocks_subsequence_witness :
  (List.length [tagged ("AAPL", VDict [("05. price", VStr "150.00")])]
   <= List.length ["NOPE"; "AAPL"; "NOPE"])%nat /\
  exists picked,
    [tagged ("AAPL", VDict [("05. price", VStr "150.00")])] =
    map tagged picked /\
    subseq (map fst picked) ["NOPE"; "AAPL"; "NOPE"] /\
    map (fun r => py_getitem r "symbol")
      [tagged ("AAPL", VDict [("05. price", VStr "150.00")])] =
    map (fun p => Ret (VStr (fst p))) picked.
Proof.
  apply (extract_multiple_stocks_subsequence unit aapl_provider
           (fun _ w => w) "demo" ["NOPE"; "AAPL"; "NOPE"] 12
           (BaseExtractor.mkEnv tt [])
           (BaseExtractor.mkEnv tt
              [Fetch (StocksExtractor.quote_request "demo" "NOPE")
                 (VDict [("Global Quote", VDict [])]);
               Pause 12;
               Fetch (StocksExtractor.quote_request "demo" "AAPL")
                 (VDict [("Global Quote",
                          VDict [("05. price", VStr "150.00")])]);
               Pause 12;
               Fetch (StocksExtractor.quote_request "demo" "NOPE")
                 (VDict [("Global Quote", VDict [])])])).
  reflexivity.
Defined.


(** ** Loader *)

Section Loading.

Variable Store : Type.
Variable R : Type.
Variable to_sql : string -> DataFrame R -> Store -> pyres unit * Store.

Lemma load_empty (table : string) (df : DataFrame R)
    (s : DataLoader.db Store) :
  empty df = true -> DataLoader.load Store R to_sql table df s = (Ret 0, s).
Proof. intros H. unfold DataLoader.load. now rewrite H. Qed.

Lemma load_raises (table : string) (df : DataFrame R)
    (s : DataLoader.db Store) (e : exn) (st : Store) :
  empty df = false ->
  to_sql table df (DataLoader.store s) = (Raise e, st) ->
  DataLoader.load Store R to_sql table df s =
  (Raise e, DataLoader.mkDb st (DataLoader.writes s ++ [(table, len df)])).
Proof.
  intros H Hw.
  unfold DataLoader.load, try_catch, bind, DataLoader.df_to_sql, raise.
  now rewrite H, Hw.
Qed.

Lemma load_returns (table : string) (df : DataFrame R)
    (s : DataLoader.db Store) (st : Store) :
  empty df = false ->
  to_sql table df (DataLoader.store s) = (Ret tt, st) ->
  DataLoader.load Store R to_sql table df s =
  (Ret (len df),
   DataLoader.mkDb st (DataLoader.writes s ++ [(table, len df)])).
Proof.
  intros H Hw.
  unfold DataLoader.load, try_catch, bind, DataLoader.df_to_sql, ret.
  now rewrite H, Hw.
Qed.

(** C6: on a frame that is not empty each loader asks the store for one
    write to its table; if the write raises, the loader raises the same
    exception, and if it succeeds, the loader returns the number of rows of
    the frame. *)
Theorem load_propagates_or_counts (df : DataFrame R)
    (s : DataLoader.db Store) :
  empty df = false ->
  DataLoader.load_stocks Store R to_sql df s =
  (res_map (fun _ => len df) (fst (to_sql "stocks" df (DataLoader.store s))),
   DataLoader.mkDb (snd (to_sql "stocks" df (DataLoader.store s)))
     (DataLoader.writes s ++ [("stocks", len df)])) /\
  DataLoader.load_crypto Store R to_sql df s =
  (res_map (fun _ => len df) (fst (to_sql "crypto" df (DataLoader.store s))),
   DataLoader.mkDb (snd (to_sql "crypto" df (DataLoader.store s)))
     (DataLoader.writes s ++ [("crypto", len df)])) /\
  DataLoader.load_forex Store R to_sql df s =
  (res_map (fun _ => len df) (fst (to_sql "forex" df (DataLoader.store s))),
   DataLoader.mkDb (snd (to_sql "forex" df (DataLoader.store s)))
     (DataLoader.writes s ++ [("forex", len df)])).
Proof.
  intros H.
  assert (Hload : forall table,
             DataLoader.load Store R to_sql table df s =
             (res_map (fun _ => len df)
                (fst (to_sql table df (DataLoader.store s))),
              DataLoader.mkDb (snd (to_sql table df (DataLoader.store s)))
                (DataLoader.writes s ++ [(table, len df)]))).
  { intros table.
    destruct (to_sql table df (DataLoader.store s)) as [[[] | e] st] eqn:Hw.
    - now apply load_returns.
    - now apply load_raises. }
  repeat split; apply Hload.
Qed.

(** C7: on an empty frame each loader returns 0 and leaves the store as it
    was, with no write asked of it; it does not raise. *)
Theorem load_empty_frame (df : DataFrame R) (s : DataLoader.db Store) :
  empty df = true ->
  DataLoader.load_stocks Store R to_sql df s = (Ret 0, s) /\
  DataLoader.load_crypto Store R to_sql df s = (Ret 0, s) /\
  DataLoader.load_forex Store R to_sql df s = (Ret 0, s).
Proof. intros H. repeat split; now apply load_empty. Qed.

End Loading.

(** The theorem at the sample store, full. *)
Lemma load_propagates_or_counts_witness :
  DataLoader.load_stocks _ _ full_after_three aapl_frame
    (DataLoader.mkDb [("stocks", 3)] []) =
  (Raise (OtherException "OperationalError"),
   DataLoader.mkDb [("stocks", 3)] [("stocks", 1)]) /\
  DataLoader.load_crypto _ _ full_after_three aapl_frame
    (DataLoader.mkDb [("stocks", 3)] []) =
  (Raise (OtherException "OperationalError"),
   DataLoader.mkDb [("stocks", 3)] [("crypto", 1)]) /\
  DataLoader.load_forex _ _ full_after_three aapl_frame
    (DataLoader.mkDb [("stocks", 3)] []) =
  (Raise (OtherException "OperationalError"),
   DataLoader.mkDb [("stocks", 3)] [("forex", 1)]).
Proof.
  apply (load_propagates_or_counts (list (string * Z))
           (stamped StocksTransformer.row) full_after_three aapl_frame
           (DataLoader.mkDb [("stocks", 3)] [])).
  reflexivity.
Defined.

(** The theorem at the sample store and the empty frame. *)
Lemma load_empty_frame_witness :
  DataLoader.load_stocks _ _ full_after_three
    (@empty_frame (stamped StocksTransformer.row))
    (DataLoader.mkDb [("stocks", 3)] []) =
  (Ret 0, DataLoader.mkDb [("stocks", 3)] []) /\
  DataLoader.load_crypto _ _ full_after_three
    (@empty_frame (stamped StocksTransformer.row))
    (DataLoader.mkDb [("stocks", 3)] []) =
  (Ret 0, DataLoader.mkDb [("stocks", 3)] []) /\
  DataLoader.load_forex _ _ full_after_three
    (@empty_frame (stamped StocksTransformer.row))
    (DataLoader.mkDb [("stocks", 3)] []) =
  (Ret 0, DataLoader.mkDb [("stocks", 3)] []).
Proof.
  apply (load_empty_frame (list (string * Z)) (stamped StocksTransformer.row)
           full_after_three empty_frame (DataLoader.mkDb [("stocks", 3)] [])).
  reflexivity.
Defined.

(** A write that succeeds and one that fails on the sample store. *)
Lemma load_sample_store :
  DataLoader.load_stocks _ _ full_after_three aapl_frame
    (DataLoader.mkDb [] []) =
  (Ret 1, DataLoader.mkDb [("stocks", 1)] [("stocks", 1)]) /\
  DataLoader.load_stocks _ _ full_after_three aapl_frame
    (DataLoader.mkDb [("stocks", 3)] []) =
  (Raise (OtherException "OperationalError"),
   DataLoader.mkDb [("stocks", 3)] [("stocks", 1)]).
Proof. split; reflexivity. Qed.
(** * Further properties *)

(** ** Subsequences and gathered cells *)

Lemma subseq_nil_l {A} (l : list A) : subseq [] l.
Proof. induction l; now constructor. Qed.

Lemma subseq_refl {A} (l : list A) : subseq l l.
Proof. induction l; now constructor. Qed.

Lemma subseq_trans {A} (a b c : list A) :
  subseq a b -> subseq b c -> subseq a c.
Proof.
  intros Hab Hbc. revert a Hab.
  induction Hbc as [| x b c Hbc IH | x b c Hbc IH]; intros a Hab.
  - exact Hab.
  - constructor. now apply IH.
  - inversion Hab as [| y a' b' Hab' | y a' b' Hab']; subst.
    + constructor. now apply IH.
    + apply subseq_keep. now apply IH.
Qed.

Lemma subseq_filter {A} (f : A -> bool) (l : list A) : subseq (filter f l) l.
Proof.
  induction l as [| x l IH]; simpl; [constructor |].
  destruct (f x); now constructor.
Qed.

Lemma subseq_map {A B} (f : A -> B) (a b : list A) :
  subseq a b -> subseq (map f a) (map f b).
Proof. induction 1; simpl; now constructor. Qed.

Lemma subseq_In {A} (a b : list A) (x : A) : subseq a b -> In x a -> In x b.
Proof.
  induction 1 as [| y a b H IH | y a b H IH]; simpl; [tauto | |].
  - intros Hin. right. now apply IH.
  - intros [-> | Hin]; [now left | right; now apply IH].
Qed.

Lemma subseq_NoDup {A} (a b : list A) : subseq a b -> NoDup b -> NoDup a.
Proof.
  induction 1 as [| y a b H IH | y a b H IH]; intros Hb.
  - constructor.
  - inversion Hb; subst. now apply IH.
  - inversion Hb as [| z l Hnin Hnd]; subst. constructor; [| now apply IH].
    intros Hin. apply Hnin. now apply (subseq_In a b).
Qed.

(** The cells gathered come, in order, from some of the items. *)
Lemma gather_subseq {A F} (attempt : A -> pyres (option F)) (items : list A) :
  forall l,
    gather attempt items = Ret l ->
    exists picked,
      subseq picked items /\
      map attempt picked = map (fun c => Ret (Some c)) l.
Proof.
  induction items as [| x rest IH]; simpl; intros l Hg.
  - injection Hg as <-. exists []. split; constructor.
  - destruct (attempt x) as [o | e] eqn:Hx; simpl in Hg; [| discriminate].
    destruct (gather attempt rest) as [l' | e] eqn:Hr; simpl in Hg;
      [| discriminate].
    destruct (IH l' eq_refl) as (picked & Hsub & Hmap).
    injection Hg as <-. destruct o as [c |].
    + exists (x :: picked). split; [now constructor |].
      simpl. now rewrite Hx, Hmap.
    + exists picked. split; [now constructor | exact Hmap].
Qed.

Lemma map_filter_subseq {A B} (attempt : A -> pyres (option B))
    (keep : B -> bool) (picked : list A) (l : list B) :
  map attempt picked = map (fun c => Ret (Some c)) l ->
  exists kept,
    subseq kept picked /\
    map attempt kept = map (fun c => Ret (Some c)) (filter keep l).
Proof.
  revert l. induction picked as [| x picked IH]; intros [| c l] Hmap;
    try discriminate.
  - exists []. split; constructor.
  - simpl in Hmap. injection Hmap as Hx Hrest.
    destruct (IH l Hrest) as (kept & Hsub & Hk). simpl.
    destruct (keep c).
    + exists (x :: kept). split; [now constructor |].
      simpl. now rewrite Hx, Hk.
    + exists kept. split; [now constructor | exact Hk].
Qed.

Lemma gather_app {A F} (attempt : A -> pyres (option F)) (a b : list A) :
  gather attempt (a ++ b) =
  (la <-- gather attempt a ;;
   lb <-- gather attempt b ;;
   Ret (la ++ lb))%pyres.
Proof.
  induction a as [| x a IH]; simpl.
  - now destruct (gather attempt b).
  - destruct (attempt x) as [o | e]; simpl; [| reflexivity].
    rewrite IH. destruct (gather attempt a) as [la | e]; simpl;
      [| reflexivity].
    destruct (gather attempt b) as [lb | e]; simpl; [| reflexivity].
    now destruct o.
Qed.

Lemma gather_skip {A F} (attempt : A -> pyres (option F)) (pre post : list A)
    (x : A) :
  attempt x = Ret None ->
  gather attempt (pre ++ x :: post) = gather attempt (pre ++ post).
Proof.
  intros Hx. rewrite !gather_app. simpl. rewrite Hx. simpl.
  destruct (gather attempt pre) as [la | e]; simpl; [| reflexivity].
  now destruct (gather attempt post).
Qed.

(** ** Transformers: the rows of a returned frame *)

Lemma rows_of_cells {F} (r : pyres (DataFrame (stamped F)))
    (p : pyres (DataFrame F)) :
  res_map untimed r = p ->
  rows_of r = match p with Ret df => rows df | Raise _ => [] end.
Proof. intros <-. now destruct r. Qed.

Lemma stocks_clean_rows (l : list StocksTransformer.record) :
  match stocks_clean l with
  | Ret df => rows df
  | Raise _ => []
  end =
  match
    map_res
      (StocksTransformer.quality
         (infer_int_dtype (map StocksTransformer.r_volume l)))
      (filter StocksTransformer.keep l)
  with
  | Ret kept => kept
  | Raise _ => []
  end.
Proof.
  destruct l as [| c l]; [reflexivity |]. unfold stocks_clean.
  now destruct (map_res _ _).
Qed.

Lemma crypto_clean_rows (l : list CryptoTransformer.row) :
  rows (crypto_clean l) =
  map CryptoTransformer.quality (filter CryptoTransformer.keep l).
Proof. now destruct l. Qed.

Lemma forex_clean_rows (l : list ForexTransformer.row) :
  rows (forex_clean l) = filter ForexTransformer.keep l.
Proof. now destruct l. Qed.

(** The rows returned are the casts of the records gathered and kept, from
    the storage of the volumes of all the records gathered. *)
Lemma stocks_rows_of (clock : nat -> datetime) (k : nat) (v : pyval) :
  rows_of (fst (StocksTransformer.transform clock v k)) = [] \/
  exists l,
    (items <-- py_iter v ;; gather stocks_attempt items)%pyres = Ret l /\
    map_res
      (StocksTransformer.quality
         (infer_int_dtype (map StocksTransformer.r_volume l)))
      (filter StocksTransformer.keep l) =
    Ret (rows_of (fst (StocksTransformer.transform clock v k))).
Proof.
  rewrite (rows_of_cells _ _ (stocks_transform_cells clock v k)).
  unfold stocks_cells.
  destruct (py_iter v) as [items | e]; cbn [pbind]; [| now left].
  destruct (gather stocks_attempt items) as [l | e]; cbn [pbind];
    [| now left].
  rewrite stocks_clean_rows.
  destruct (map_res _ (filter StocksTransformer.keep l)) as [kept | e] eqn:Hk;
    [| now left].
  right. now exists l.
Qed.

Lemma crypto_rows_of (clock : nat -> datetime) (k : nat) (v : pyval) :
  rows_of (fst (CryptoTransformer.transform clock v k)) =
  match (items <-- py_iter v ;; gather crypto_attempt items)%pyres with
  | Ret l => map CryptoTransformer.quality (filter CryptoTransformer.keep l)
  | Raise _ => []
  end.
Proof.
  rewrite (rows_of_cells _ _ (crypto_transform_cells clock v k)).
  unfold crypto_cells.
  destruct (truthy v) eqn:Hv; cbn [negb].
  - destruct (py_iter v) as [items | e]; cbn [pbind]; [| reflexivity].
    destruct (gather crypto_attempt items) as [l | e]; cbn [pbind];
      [apply crypto_clean_rows | reflexivity].
  - destruct (py_iter v) as [items | e] eqn:Hit; cbn [pbind]; [| reflexivity].
    now rewrite (falsy_iter_nil v items Hv Hit).
Qed.

Lemma forex_rows_of (clock : nat -> datetime) (k : nat) (d rates : pydict)
    (base : pyval) :
  dict_get d "base" = Some base ->
  dict_get d "rates" = Some (VDict rates) ->
  rows_of (fst (ForexTransformer.transform clock (VDict d) k)) =
  match gather (forex_attempt base
                  (match dict_get d "date" with
                   | Some x => x
                   | None => VNone
                   end)) rates with
  | Ret l => filter ForexTransformer.keep l
  | Raise _ => []
  end.
Proof.
  intros Hbase Hrates.
  rewrite (rows_of_cells _ _ (forex_transform_cells clock (VDict d) k)).
  unfold forex_cells.
  assert (Ht : truthy (VDict d) = true)
    by (destruct d; [discriminate | reflexivity]).
  rewrite Ht. cbn [negb py_in pbind]. unfold dict_mem. rewrite Hrates.
  cbn [negb py_getitem pbind]. rewrite Hbase, Hrates.
  cbn [pbind py_get py_items].
  destruct (gather _ rates) as [l | e]; cbn [pbind];
    [apply forex_clean_rows | reflexivity].
Qed.

Lemma caught_some {A} (handled : list exn) (r : pyres A) (a : A) :
  caught handled r = Ret (Some a) -> r = Ret a.
Proof.
  destruct r as [x | e]; simpl; [now intros [= ->] |].
  destruct (handles handled e); discriminate.
Qed.

Lemma caught_none {A} (handled : list exn) (r : pyres A) :
  caught handled r = Ret None ->
  exists e, r = Raise e /\ handles handled e = true.
Proof.
  destruct r as [x | e]; simpl; [discriminate |].
  destruct (handles handled e) eqn:H; [| discriminate]. now exists e.
Qed.

(** What a stock must be for the loop to go past it. *)
Lemma stocks_attempt_shape (x : pyval)
    (o : option StocksTransformer.record) :
  stocks_attempt x = Ret o ->
  exists d sym q,
    x = VDict d /\ dict_get d "symbol" = Some sym /\
    dict_get d "data" = Some (VDict q) /\
    caught [ValueError; KeyError] (StocksTransformer.entries sym (VDict q))
    = Ret o.
Proof.
  unfold stocks_attempt. intros H.
  destruct x as [| | | | | | d]; try discriminate H.
  cbn [py_getitem] in H.
  destruct (dict_get d "symbol") as [sym |] eqn:Hs; [| discriminate H].
  destruct (dict_get d "data") as [quote |] eqn:Hq; [| discriminate H].
  cbn [pbind] in H. exists d, sym.
  destruct quote as [| | | | | | q];
    try (unfold StocksTransformer.entries, float_get in H; simpl in H;
         discriminate H).
  now exists q.
Qed.

Lemma stocks_attempt_symbol (x : pyval) (c : StocksTransformer.record) :
  stocks_attempt x = Ret (Some c) ->
  py_getitem x "symbol" = Ret (StocksTransformer.r_symbol c).
Proof.
  intros H. destruct (stocks_attempt_shape x _ H)
    as (d & sym & q & -> & Hs & Hq & Hc).
  apply caught_some in Hc.
  destruct (stocks_entries_change_percent _ _ _ Hc) as (-> & _).
  cbn [py_getitem]. now rewrite Hs.
Qed.

(** ** Stocks transformer *)

(** X1: handed one extracted record instead of a list of them, as the demo
    does, the stocks transformer iterates over the keys of the record and
    raises a [TypeError] at the first, before it reads the clock. *)
Theorem stocks_transform_single_record_raises (clock : nat -> datetime)
    (k : nat) (d : pydict) :
  d <> [] ->
  StocksTransformer.transform clock (VDict d) k = (Raise TypeError, k).
Proof.
  destruct d as [| [key v] rest]; [congruence |]. intros _. reflexivity.
Qed.

(** The theorem at the record of a quote. *)
Lemma stocks_transform_single_record_raises_witness :
  StocksTransformer.transform ticking_clock
    (VDict [("symbol", VStr "AAPL");
            ("data", VDict [("05. price", VStr "150.00")])]) 0%nat =
  (Raise TypeError, 0%nat).
Proof.
  apply (stocks_transform_single_record_raises ticking_clock 0%nat
           [("symbol", VStr "AAPL");
            ("data", VDict [("05. price", VStr "150.00")])]).
  discriminate.
Defined.

(** X2: the rows of the frame returned for a list of stocks carry, in the
    order of the list, the symbols of some of its records: a row is never
    made up, doubled or moved, and there are no more rows than records. *)
Theorem stocks_rows_in_order (clock : nat -> datetime) (k : nat)
    (items : list pyval) :
  subseq
    (map (fun c => Ret (StocksTransformer.symbol c))
       (rows_of (fst (StocksTransformer.transform clock (VList items) k))))
    (map (fun x => py_getitem x "symbol") items) /\
  (List.length
     (rows_of (fst (StocksTransformer.transform clock (VList items) k)))
   <= List.length items)%nat.
Proof.
  assert (H : subseq
                (map (fun c => Ret (StocksTransformer.symbol c))
                   (rows_of (fst (StocksTransformer.transform clock
                                    (VList items) k))))
                (map (fun x => py_getitem x "symbol") items)).
  { destruct (stocks_rows_of clock k (VList items))
      as [-> | (l & Hg & Hk)]; [apply subseq_nil_l |].
    cbn [py_iter pbind] in Hg.
    rewrite (map_res_map _ (fun c => Ret (StocksTransformer.symbol c))
               (fun c => Ret (StocksTransformer.r_symbol c)) _
               (fun x y Hq =>
                  f_equal Ret (proj1 (stocks_quality_cells _ x y Hq)))
               _ Hk).
    destruct (gather_subseq _ _ _ Hg) as (picked & Hsub & Hmap).
    destruct (map_filter_subseq _ StocksTransformer.keep _ _ Hmap)
      as (kept & Hsub' & Hkept).
    apply (subseq_trans _ (map (fun x => py_getitem x "symbol") kept));
      [| apply subseq_map; now apply (subseq_trans _ picked)].
    clear Hg Hk Hsub Hmap Hsub'. revert kept Hkept.
    induction (filter StocksTransformer.keep l) as [| c cs IH];
      intros [| x kept] Hk; try discriminate; [constructor |].
    simpl in Hk. injection Hk as Hx Hrest. simpl.
    rewrite (stocks_attempt_symbol x c Hx). apply subseq_keep.
    now apply IH. }
  split; [exact H |].
  apply subseq_length in H. now rewrite !length_map in H.
Qed.

(** X3: every row of a frame the stocks transformer returns has a symbol
    that is not NA, a price that is not NaN and a change percent that is
    not NaN. *)
Theorem stocks_rows_checked (clock : nat -> datetime) (k : nat) (v : pyval) :
  Forall
    (fun c =>
       isna (StocksTransformer.symbol c) = false /\
       is_nan (StocksTransformer.price c) = false /\
       is_nan (StocksTransformer.change_percent c) = false)
    (rows_of (fst (StocksTransformer.transform clock v k))).
Proof.
  destruct (stocks_rows_of clock k v) as [-> | (l & _ & Hk)];
    [constructor |].
  apply Forall_forall. intros c Hc.
  destruct (map_res_In _ _ _ _ Hk Hc) as (c0 & Hc0 & Hq).
  apply filter_In in Hc0.
  destruct Hc0 as [_ Hkeep]. unfold StocksTransformer.keep in Hkeep.
  apply andb_true_iff in Hkeep. destruct Hkeep as [Hs Hp].
  apply negb_true_iff in Hs, Hp.
  destruct (stocks_quality_cells _ _ _ Hq) as (-> & -> & -> & _).
  repeat split; [exact Hs | exact Hp |].
  now destruct (to_numeric_coerce _).
Qed.

(** X4: a stock whose entries raise a [ValueError] or a [KeyError] is left
    out and changes nothing else: the outcome is the one of the list
    without it, time stamps included. *)
Theorem stocks_skipped_record_isolated (clock : nat -> datetime) (k : nat)
    (pre post : list pyval) (d : pydict) (sym quote : pyval) (e : exn) :
  dict_get d "symbol" = Some sym ->
  dict_get d "data" = Some quote ->
  StocksTransformer.entries sym quote = Raise e ->
  handles [ValueError; KeyError] e = true ->
  fst (StocksTransformer.transform clock (VList (pre ++ VDict d :: post)) k) =
  fst (StocksTransformer.transform clock (VList (pre ++ post)) k).
Proof.
  intros Hs Hq He Hh. rewrite !stocks_transform_gather. cbn [py_iter pbind].
  rewrite gather_skip; [reflexivity |].
  unfold stocks_attempt. cbn [py_getitem]. rewrite Hs, Hq. cbn [pbind].
  rewrite He. cbn [caught]. now rewrite Hh.
Qed.

(** The theorem at a stock whose price does not read as a number. *)
Lemma stocks_skipped_record_isolated_witness :
  fst (StocksTransformer.transform ticking_clock
         (VList ([aapl] ++
                 VDict [("symbol", VStr "BAD");
                        ("data", VDict [("05. price", VStr "n/a")])]
                 :: [aapl])) 0%nat) =
  fst (StocksTransformer.transform ticking_clock
         (VList ([aapl] ++ [aapl])) 0%nat).
Proof.
  apply (stocks_skipped_record_isolated ticking_clock 0%nat [aapl] [aapl]
           [("symbol", VStr "BAD");
            ("data", VDict [("05. price", VStr "n/a")])]
           (VStr "BAD") (VDict [("05. price", VStr "n/a")]) ValueError);
    reflexivity.
Defined.

(** X5: the stocks transformer returns only if every record of the list is
    a dict with a symbol and with a quote that is a dict: a record without
    one of them makes the whole call raise, whatever the other records. *)
Theorem stocks_transform_returns_only_on_records (clock : nat -> datetime)
    (k : nat) (items : list pyval)
    (df : DataFrame (stamped StocksTransformer.row)) :
  fst (StocksTransformer.transform clock (VList items) k) = Ret df ->
  Forall
    (fun x =>
       exists d sym q,
         x = VDict d /\ dict_get d "symbol" = Some sym /\
         dict_get d "data" = Some (VDict q))
    items.
Proof.
  rewrite stocks_transform_gather. cbn [py_iter pbind].
  destruct (gather stocks_attempt items) as [l | e] eqn:Hg; [| discriminate].
  intros _. apply Forall_forall. intros x Hx.
  destruct (gather_no_raise _ _ _ _ Hg Hx) as (o & Ho).
  destruct (stocks_attempt_shape x o Ho) as (d & sym & q & H1 & H2 & H3 & _).
  now exists d, sym, q.
Qed.

(** The theorem at the list of the sample quote. *)
Lemma stocks_transform_returns_only_on_records_witness :
  Forall
    (fun x =>
       exists d sym q,
         x = VDict d /\ dict_get d "symbol" = Some sym /\
         dict_get d "data" = Some (VDict q))
    [aapl].
Proof.
  apply (stocks_transform_returns_only_on_records ticking_clock 0%nat [aapl]
           aapl_frame).
  reflexivity.
Defined.

Lemma astype_int_fits (column : list Z) (z v : Z) :
  In z column ->
  astype_int (infer_int_dtype column) z = Ret v ->
  fits_int64 v = true.
Proof.
  intros Hin. unfold infer_int_dtype.
  destruct (forallb fits_int64 column) eqn:H64.
  { intros [= <-]. rewrite forallb_forall in H64. now apply H64. }
  destruct (forallb fits_uint64 column) eqn:Hu64.
  - rewrite forallb_forall in Hu64. specialize (Hu64 z Hin).
    cbn [astype_int]. intros [= <-].
    destruct (fits_int64 z) eqn:Hz; [exact Hz |].
    unfold fits_int64, fits_uint64 in *.
    assert (Hpow : 2 ^ 64 = 2 * 2 ^ 63) by reflexivity.
    assert (Hpos : 0 < 2 ^ 63) by reflexivity.
    rewrite Hpow in *. set (p := 2 ^ 63) in *.
    apply andb_true_iff in Hu64. destruct Hu64 as [H0 H1].
    apply Z.leb_le in H0. apply Z.ltb_lt in H1.
    apply andb_false_iff in Hz.
    apply andb_true_iff. split; [apply Z.leb_le | apply Z.ltb_lt];
      destruct Hz as [Hz | Hz];
      (apply Z.leb_gt in Hz || apply Z.ltb_ge in Hz); lia.
  - cbn [astype_int]. destruct (fits_int64 z) eqn:Hz; [| discriminate].
    now intros [= <-].
Qed.

(** X6: the volume of every row of a frame the stocks transformer returns
    fits a signed integer of 64 bits, whatever the volumes of the records:
    the cast of the column wraps a volume from [2^63] on around, or makes
    the call raise. *)
Theorem stocks_volume_int64 (clock : nat -> datetime) (k : nat) (v : pyval) :
  Forall
    (fun c =>
       - 2 ^ 63 <= StocksTransformer.volume c < 2 ^ 63)
    (rows_of (fst (StocksTransformer.transform clock v k))).
Proof.
  destruct (stocks_rows_of clock k v) as [-> | (l & _ & Hk)];
    [constructor |].
  apply Forall_forall. intros c Hc.
  destruct (map_res_In _ _ _ _ Hk Hc) as (c0 & Hc0 & Hq).
  apply filter_In in Hc0. destruct Hc0 as [Hc0 _].
  destruct (stocks_quality_cells _ _ _ Hq) as (_ & _ & _ & Hv).
  apply astype_int_fits in Hv; [| now apply in_map].
  unfold fits_int64 in Hv. apply andb_true_iff in Hv.
  destruct Hv as [H0 H1]. apply Z.leb_le in H0. apply Z.ltb_lt in H1.
  now split.
Qed.

(** A volume of [2^63] alone comes back as [-2^63]; a volume of [2^64]
    makes the call raise. *)
Lemma stocks_volume_samples :
  map StocksTransformer.volume
    (rows_of (fst (StocksTransformer.transform ticking_clock
                     (VList [stock_of_volume "9223372036854775808"])
                     0%nat))) =
  [-9223372036854775808] /\
  fst (StocksTransformer.transform ticking_clock
         (VList [stock_of_volume "18446744073709551616"]) 0%nat) =
  Raise OverflowError.
Proof. split; reflexivity. Qed.

(** ** Crypto transformer *)

(** X7: every row of a frame the crypto transformer returns has a price, a
    market cap and a 24 h change that are not NaN. *)
Theorem crypto_rows_checked (clock : nat -> datetime) (k : nat) (v : pyval) :
  Forall
    (fun c =>
       is_nan (CryptoTransformer.current_price c) = false /\
       is_nan (CryptoTransformer.market_cap c) = false /\
       is_nan (CryptoTransformer.price_change_24h c) = false)
    (rows_of (fst (CryptoTransformer.transform clock v k))).
Proof.
  rewrite crypto_rows_of.
  destruct (items <-- py_iter v;; gather crypto_attempt items)%pyres
    as [l | e]; [| constructor].
  apply Forall_forall. intros c Hc. apply in_map_iff in Hc.
  destruct Hc as (c0 & <- & Hc0). apply filter_In in Hc0.
  destruct Hc0 as [_ Hkeep]. unfold CryptoTransformer.keep in Hkeep.
  apply negb_true_iff in Hkeep.
  cbn [CryptoTransformer.quality CryptoTransformer.current_price
         CryptoTransformer.market_cap CryptoTransformer.price_change_24h].
  repeat split; [exact Hkeep | |].
  - now destruct (CryptoTransformer.market_cap c0).
  - now destruct (CryptoTransformer.price_change_24h c0).
Qed.

(** X8: the rows of the frame returned for a list of coins are, in the
    order of the list, the checked entries of some of its records, one row
    for a record at most: there are no more rows than records. *)
Theorem crypto_rows_in_order (clock : nat -> datetime) (k : nat)
    (items : list pyval) :
  (exists picked,
      subseq picked items /\
      map (fun x =>
             res_map CryptoTransformer.quality (CryptoTransformer.entries x))
        picked =
      map Ret
        (rows_of (fst (CryptoTransformer.transform clock (VList items) k)))) /\
  (List.length
     (rows_of (fst (CryptoTransformer.transform clock (VList items) k)))
   <= List.length items)%nat.
Proof.
  assert (H : exists picked,
             subseq picked items /\
             map (fun x =>
                    res_map CryptoTransformer.quality
                      (CryptoTransformer.entries x)) picked =
             map Ret
               (rows_of (fst (CryptoTransformer.transform clock
                                (VList items) k)))).
  { rewrite crypto_rows_of. cbn [py_iter pbind].
    destruct (gather crypto_attempt items) as [l | e] eqn:Hg;
      [| exists []; split; [apply subseq_nil_l | reflexivity]].
    destruct (gather_subseq _ _ _ Hg) as (picked & Hsub & Hmap).
    destruct (map_filter_subseq _ CryptoTransformer.keep _ _ Hmap)
      as (kept & Hsub' & Hkept).
    exists kept. split; [now apply (subseq_trans _ picked) |].
    clear Hg Hsub Hmap Hsub'. revert kept Hkept.
    induction (filter CryptoTransformer.keep l) as [| c cs IH];
      intros [| x kept] Hk; try discriminate; [reflexivity |].
    simpl in Hk. injection Hk as Hx Hrest. simpl.
    unfold crypto_attempt in Hx. apply caught_some in Hx.
    rewrite Hx. cbn [res_map]. f_equal. now apply IH. }
  split; [exact H |].
  destruct H as (picked & Hsub & Hmap).
  apply subseq_length in Hsub.
  apply (f_equal (@List.length _)) in Hmap. rewrite !length_map in Hmap.
  lia.
Qed.

(** X9: a coin whose entries raise a [ValueError], a [KeyError] or a
    [TypeError] is left out and changes nothing else: the outcome is the one
    of the list without it, time stamps included. *)
Theorem crypto_skipped_record_isolated (clock : nat -> datetime) (k : nat)
    (pre post : list pyval) (x : pyval) (e : exn) :
  CryptoTransformer.entries x = Raise e ->
  handles [ValueError; KeyError; TypeError] e = true ->
  fst (CryptoTransformer.transform clock (VList (pre ++ x :: post)) k) =
  fst (CryptoTransformer.transform clock (VList (pre ++ post)) k).
Proof.
  intros He Hh.
  assert (Hskip : gather crypto_attempt (pre ++ x :: post) =
                  gather crypto_attempt (pre ++ post)).
  { apply gather_skip. unfold crypto_attempt. rewrite He. cbn [caught].
    now rewrite Hh. }
  rewrite !crypto_transform_gather.
  assert (Ht : truthy (VList (pre ++ x :: post)) = true)
    by (destruct pre; reflexivity).
  rewrite Ht. cbn [negb py_iter pbind]. rewrite Hskip.
  destruct (pre ++ post) as [| y rest] eqn:Hpp; [| reflexivity].
  reflexivity.
Qed.

(** The theorem at a coin whose price does not read as a number, and at one
    that is no dict. *)
Lemma crypto_skipped_record_isolated_witness :
  fst (CryptoTransformer.transform ticking_clock
         (VList ([VDict unpriced_coin_fields] ++
                 VDict [("id", VStr "x"); ("current_price", VStr "n/a")]
                 :: [VDict unpriced_coin_fields])) 0%nat) =
  fst (CryptoTransformer.transform ticking_clock
         (VList ([VDict unpriced_coin_fields]
                 ++ [VDict unpriced_coin_fields])) 0%nat).
Proof.
  apply (crypto_skipped_record_isolated ticking_clock 0%nat
           [VDict unpriced_coin_fields] [VDict unpriced_coin_fields]
           (VDict [("id", VStr "x"); ("current_price", VStr "n/a")])
           ValueError); reflexivity.
Defined.

(** ** Forex transformer *)

Lemma forex_cells_rows_kept (v : pyval) (df : DataFrame ForexTransformer.row) :
  forex_cells v = Ret df ->
  Forall (fun c => ForexTransformer.keep c = true) (rows df).
Proof.
  unfold forex_cells.
  destruct (negb (truthy v)); [intros [= <-]; constructor |].
  destruct (py_in "rates" v) as [b | e]; cbn [pbind]; [| discriminate].
  destruct (negb b); [intros [= <-]; constructor |].
  destruct (py_getitem v "base") as [base | e]; cbn [pbind]; [| discriminate].
  destruct (py_getitem v "rates") as [rates | e]; cbn [pbind];
    [| discriminate].
  destruct (py_get v "date" VNone) as [date | e]; cbn [pbind];
    [| discriminate].
  destruct (py_items rates) as [items | e]; cbn [pbind]; [| discriminate].
  destruct (gather (forex_attempt base date) items) as [l | e]; cbn [pbind];
    [| discriminate].
  intros [= <-]. rewrite forex_clean_rows.
  apply Forall_forall. intros c Hc. now apply filter_In in Hc.
Qed.

(** X10: every row of a frame the forex transformer returns has a base
    currency that is not NA and an exchange rate that is not NaN. *)
Theorem forex_rows_checked (clock : nat -> datetime) (k : nat) (v : pyval) :
  Forall
    (fun c =>
       isna (ForexTransformer.base_currency c) = false /\
       is_nan (ForexTransformer.exchange_rate c) = false)
    (rows_of (fst (ForexTransformer.transform clock v k))).
Proof.
  rewrite (rows_of_cells _ _ (forex_transform_cells clock v k)).
  destruct (forex_cells v) as [df | e] eqn:Hv; [| constructor].
  apply forex_cells_rows_kept in Hv.
  apply Forall_forall. intros c Hc.
  rewrite Forall_forall in Hv. specialize (Hv c Hc).
  unfold ForexTransformer.keep in Hv. apply andb_true_iff in Hv.
  destruct Hv as [Hb Hr]. now apply negb_true_iff in Hb, Hr.
Qed.

(** X11: for a payload with a base and a rate table, the rows returned
    are, in the order of the table, those of some of its entries: the
    target is the key, the rate is [float] of the value, and every row has
    the base and the date of the payload ([None] without a date). *)
Theorem forex_rows_from_rates (clock : nat -> datetime) (k : nat)
    (d rates : pydict) (base : pyval) :
  dict_get d "base" = Some base ->
  dict_get d "rates" = Some (VDict rates) ->
  (exists picked,
      subseq picked rates /\
      map (fun p => (fst p, py_float (snd p))) picked =
      map (fun c => (ForexTransformer.target_currency c,
                     Ret (ForexTransformer.exchange_rate c)))
        (rows_of (fst (ForexTransformer.transform clock (VDict d) k)))) /\
  Forall
    (fun c =>
       ForexTransformer.base_currency c = base /\
       ForexTransformer.rate_date c =
       match dict_get d "date" with Some x => x | None => VNone end)
    (rows_of (fst (ForexTransformer.transform clock (VDict d) k))).
Proof.
  intros Hbase Hrates. rewrite (forex_rows_of clock k d rates base Hbase Hrates).
  set (date := match dict_get d "date" with Some x => x | None => VNone end).
  destruct (gather (forex_attempt base date) rates) as [l | e] eqn:Hg;
    [| split; [exists []; split; [apply subseq_nil_l | reflexivity]
              | constructor]].
  assert (Hentry : forall p c,
             forex_attempt base date p = Ret (Some c) ->
             py_float (snd p) = Ret (ForexTransformer.exchange_rate c) /\
             ForexTransformer.target_currency c = fst p /\
             ForexTransformer.base_currency c = base /\
             ForexTransformer.rate_date c = date).
  { intros p c Hp. unfold forex_attempt in Hp. apply caught_some in Hp.
    unfold ForexTransformer.entries in Hp.
    destruct (py_float (snd p)) as [f | e]; [| discriminate].
    cbn [pbind] in Hp. injection Hp as <-. now repeat split. }
  split.
  - destruct (gather_subseq _ _ _ Hg) as (picked & Hsub & Hmap).
    destruct (map_filter_subseq _ ForexTransformer.keep _ _ Hmap)
      as (kept & Hsub' & Hkept).
    exists kept. split; [now apply (subseq_trans _ picked) |].
    clear Hg Hsub Hmap Hsub'. revert kept Hkept.
    induction (filter ForexTransformer.keep l) as [| c cs IH];
      intros [| p kept] Hk; try discriminate; [reflexivity |].
    simpl in Hk. injection Hk as Hp Hrest. simpl.
    destruct (Hentry p c Hp) as (Hf & Ht & _).
    rewrite Hf, Ht. f_equal. now apply IH.
  - apply Forall_forall. intros c Hc. apply filter_In in Hc.
    destruct Hc as [Hc _].
    destruct (gather_In _ _ _ _ Hg Hc) as (p & _ & Hp).
    destruct (Hentry p c Hp) as (_ & _ & Hb & Hd). now split.
Qed.

(** The theorem at a payload of two rates, one of which is left out. *)
Lemma forex_rows_from_rates_witness :
  (exists picked,
      subseq picked [("EUR", VFloat (FNum (Qmake 23 25))); ("GBP", VStr "n/a")] /\
      map (fun p => (fst p, py_float (snd p))) picked =
      map (fun c => (ForexTransformer.target_currency c,
                     Ret (ForexTransformer.exchange_rate c)))
        (rows_of (fst (ForexTransformer.transform ticking_clock
                         (VDict usd_payload) 0%nat)))) /\
  Forall
    (fun c =>
       ForexTransformer.base_currency c = VStr "USD" /\
       ForexTransformer.rate_date c =
       match dict_get usd_payload "date" with Some x => x | None => VNone end)
    (rows_of (fst (ForexTransformer.transform ticking_clock
                     (VDict usd_payload) 0%nat))).
Proof.
  apply (forex_rows_from_rates ticking_clock 0%nat usd_payload
           [("EUR", VFloat (FNum (Qmake 23 25))); ("GBP", VStr "n/a")]
           (VStr "USD")); reflexivity.
Defined.

(** ** Stocks extractor *)

Section StocksExtractionMore.

Variable World : Type.
Variable http_get : request -> World -> pyval * World.
Variable elapse : Z -> World -> World.
Variable api_key : string.

#[local] Abbreviation price_of :=
  (StocksExtractor.extract_stock_price World http_get api_key).
#[local] Abbreviation req_of := (StocksExtractor.quote_request api_key).
#[local] Abbreviation extract_all :=
  (StocksExtractor.extract_multiple_stocks World http_get elapse api_key).

(** Whatever comes of it, a call sends one request and does nothing else
    to the outside. *)
Lemma extract_stock_price_events (symbol : string)
    (s : BaseExtractor.env World) :
  exists body,
    BaseExtractor.events (snd (price_of symbol s)) =
    BaseExtractor.events s ++ [Fetch (req_of symbol) body].
Proof.
  unfold StocksExtractor.extract_stock_price, bind, BaseExtractor.get, lift.
  cbn [endpoint params StocksExtractor.quote_request].
  destruct (http_get _ (BaseExtractor.world s)) as [body w].
  exists body.
  destruct (truthy_and_in "Global Quote" body) as [[] | e];
    try reflexivity.
  destruct (py_getitem body "Global Quote") as [q | e]; [| reflexivity].
  now destruct (truthy q).
Qed.

Lemma extract_loop_paced (n : nat) (delay : Z) :
  forall (rest : list string) (i : nat) (acc : list pyval)
         (s : BaseExtractor.env World),
    (i + List.length rest = n)%nat ->
    exists fs,
      BaseExtractor.events
        (snd (for_in (StocksExtractor.step World http_get elapse api_key n
                        delay)
                (combine (seq i (List.length rest)) rest) acc s)) =
      BaseExtractor.events s ++ pace delay fs /\
      map fst fs = firstn (List.length fs) (map req_of rest) /\
      (rest <> [] -> fs <> []).
Proof.
  induction rest as [| symbol rest IH]; intros i acc s Hn.
  - exists []. cbn. rewrite app_nil_r. repeat split. congruence.
  - cbn [List.length seq combine for_in].
    unfold bind at 1. unfold StocksExtractor.step at 1. unfold bind at 1.
    cbn [fst snd].
    destruct (extract_stock_price_events symbol s) as (body & Hev).
    destruct (price_of symbol s) as [[data | e] s1] eqn:Hprice;
      cbn [snd] in Hev.
    2:{ exists [(req_of symbol, body)]. cbn [snd pace]. rewrite Hev.
        repeat split. discriminate. }
    set (acc' := if truthy data then acc ++ [data] else acc).
    cbn [List.length] in Hn. rewrite Nat.add_succ_r in Hn.
    destruct rest as [| symbol' rest'].
    + assert (Hlast : (Z.of_nat i <? Z.of_nat n - 1) = false)
        by (apply Z.ltb_ge; simpl in Hn; lia).
      rewrite Hlast. unfold bind, ret. cbn [List.length seq combine for_in].
      unfold ret. cbn [snd].
      exists [(req_of symbol, body)]. cbn [pace]. rewrite Hev.
      repeat split. discriminate.
    + assert (Hmore : (Z.of_nat i <? Z.of_nat n - 1) = true)
        by (apply Z.ltb_lt; simpl in Hn; lia).
      rewrite Hmore. unfold bind at 1. unfold BaseExtractor.sleep.
      destruct (delay <? 0) eqn:Hneg.
      * exists [(req_of symbol, body)]. cbn [snd pace]. rewrite Hev.
        repeat split. discriminate.
      * unfold ret at 1.
        destruct (IH (S i) acc'
                    (BaseExtractor.mkEnv (elapse delay (BaseExtractor.world s1))
                       (BaseExtractor.events s1 ++ [Pause delay])) Hn)
          as (fs & Hfs & Hreq & Hne).
        exists ((req_of symbol, body) :: fs).
        rewrite Hfs. cbn [BaseExtractor.events]. rewrite Hev.
        rewrite pace_cons by (apply Hne; discriminate).
        rewrite <- !app_assoc. cbn [app]. repeat split.
        -- cbn [map fst List.length firstn]. now rewrite Hreq.
        -- discriminate.
Qed.

(** X12: whatever the provider answers and whatever the delay, and also
    when the extraction raises, what it did to the outside is paced: it
    sent requests for the first symbols of the list, one for each and in
    order, with a pause of the delay between each two consecutive requests
    and none after the last. *)
Theorem extract_multiple_stocks_always_paced (symbols : list string)
    (delay : Z) (s : BaseExtractor.env World) :
  exists trace n,
    BaseExtractor.events (snd (extract_all symbols delay s)) =
    BaseExtractor.events s ++ trace /\
    paced delay trace = true /\
    map fst (fetched trace) = firstn n (map req_of symbols).
Proof.
  destruct (extract_loop_paced (List.length symbols) delay symbols 0%nat []
              s eq_refl) as (fs & Hev & Hreq & _).
  exists (pace delay fs), (List.length fs). repeat split.
  - exact Hev.
  - apply paced_pace.
  - now rewrite fetched_pace.
Qed.

Lemma waited_pace (delay : Z) (l : list (request * pyval)) :
  waited (pace delay l) = delay * Z.of_nat (List.length l - 1).
Proof.
  induction l as [| [r b] rest IH]; [simpl; lia |].
  destruct rest as [| p rest']; [simpl; lia |].
  rewrite pace_cons by discriminate. cbn [waited]. rewrite IH.
  cbn [List.length Nat.sub]. rewrite Nat.sub_0_r, Nat2Z.inj_succ. ring.
Qed.



End StocksExtractionMore.



Lemma extract_loop_no_quote (World : Type)
    (http_get : request -> World -> pyval * World)
    (elapse : Z -> World -> World) (api_key : string) (n : nat) (delay : Z) :
  0 <= delay ->
  (forall r w, object_or_none (fst (http_get r w)) = true) ->
  (forall r w, quote_of (fst (http_get r w)) = None) ->
  forall (rest : list string) (i : nat) (acc : list pyval)
         (s : BaseExtractor.env World),
    fst (for_in (StocksExtractor.step World http_get elapse api_key n delay)
           (combine (seq i (List.length rest)) rest) acc s) = Ret acc.
Proof.
  intros Hdelay Hobj Hnone rest.
  induction rest as [| symbol rest IH]; intros i acc s; [reflexivity |].
  cbn [List.length seq combine for_in].
  unfold bind at 1. unfold StocksExtractor.step at 1. unfold bind at 1.
  cbn [fst snd].
  rewrite extract_stock_price_object by apply Hobj.
  pose proof (Hnone (StocksExtractor.quote_request api_key symbol)
                (BaseExtractor.world s)) as Hq.
  destruct (http_get _ (BaseExtractor.world s)) as [body w].
  cbn [fst] in Hq. rewrite Hq. cbn [truthy].
  destruct (Z.of_nat i <? Z.of_nat n - 1).
  - unfold bind at 1. unfold BaseExtractor.sleep.
    assert (Hpos : (delay <? 0) = false) by (apply Z.ltb_ge; lia).
    rewrite Hpos. unfold ret at 1. apply IH.
  - unfold bind at 1. unfold ret at 1 2. apply IH.
Qed.



(** ** Forex extractor *)

Lemma dict_get_In (d : pydict) (k : string) (v : pyval) :
  NoDup (dict_keys d) -> In (k, v) d -> dict_get d k = Some v.
Proof.
  unfold dict_keys. induction d as [| [a x] r IH]; simpl; [tauto |].
  intros Hnd [[= -> ->] | Hin].
  - now rewrite String.eqb_refl.
  - inversion Hnd as [| y l Hnin Hnd']; subst.
    destruct (String.eqb a k) eqn:Hak; [| now apply IH].
    apply String.eqb_eq in Hak. subst a. exfalso. apply Hnin.
    apply in_map_iff. now exists (k, v).
Qed.

Lemma forex_attempt_some (base date : pyval) (p : string * pyval)
    (c : ForexTransformer.row) :
  forex_attempt base date p = Ret (Some c) ->
  py_float (snd p) = Ret (ForexTransformer.exchange_rate c) /\
  ForexTransformer.target_currency c = fst p /\
  ForexTransformer.base_currency c = base /\
  ForexTransformer.rate_date c = date.
Proof.
  intros Hp. unfold forex_attempt in Hp. apply caught_some in Hp.
  unfold ForexTransformer.entries in Hp.
  destruct (py_float (snd p)) as [f | e]; [| discriminate].
  cbn [pbind] in Hp. injection Hp as <-. now repeat split.
Qed.

Lemma forex_extract_result (World : Type)
    (http_get : request -> World -> pyval * World)
    (base : string) (targets : list string)
    (s : BaseExtractor.env World) (d rates : pydict) (w : World) :
  http_get (mkRequest base []) (BaseExtractor.world s) = (VDict d, w) ->
  dict_get d "rates" = Some (VDict rates) ->
  fst (ForexExtractor.extract_exchange_rates World http_get base targets s) =
  Ret (VDict [("base", VStr base);
              ("date", match dict_get d "date" with
                       | Some x => x
                       | None => VNone
                       end);
              ("rates", VDict (filter_rates rates targets []))]).
Proof.
  intros Hget Hrates.
  unfold ForexExtractor.extract_exchange_rates, bind, BaseExtractor.get, lift.
  rewrite Hget. unfold truthy_and_in.
  assert (Ht : truthy (VDict d) = true)
    by (destruct d; [discriminate | reflexivity]).
  rewrite Ht. cbn [py_in]. unfold dict_mem. rewrite Hrates.
  cbn [py_get]. now rewrite (fold_pick_dict d rates targets Hrates).
Qed.

(** X16: extraction then transformation, for a body with a rate table:
    every row has the requested base (not the one of the body), a target
    that was requested and that the table has, and as rate [float] of the
    value of the table; no target comes twice. *)
Theorem forex_lane_rows (World : Type)
    (http_get : request -> World -> pyval * World)
    (clock : nat -> datetime) (k : nat)
    (base : string) (targets : list string)
    (s : BaseExtractor.env World) (d rates : pydict) (w : World) :
  http_get (mkRequest base []) (BaseExtractor.world s) = (VDict d, w) ->
  dict_get d "rates" = Some (VDict rates) ->
  exists raw,
    fst (ForexExtractor.extract_exchange_rates World http_get base targets s)
    = Ret raw /\
    Forall
      (fun c =>
         ForexTransformer.base_currency c = VStr base /\
         In (ForexTransformer.target_currency c) targets /\
         exists v,
           dict_get rates (ForexTransformer.target_currency c) = Some v /\
           py_float v = Ret (ForexTransformer.exchange_rate c))
      (rows_of (fst (ForexTransformer.transform clock raw k))) /\
    NoDup
      (map ForexTransformer.target_currency
         (rows_of (fst (ForexTransformer.transform clock raw k)))).
Proof.
  intros Hget Hrates. eexists. split;
    [exact (forex_extract_result World http_get base targets s d rates w
              Hget Hrates) |].
  set (date := match dict_get d "date" with Some x => x | None => VNone end).
  set (kept := filter_rates rates targets []).
  assert (Hnd : NoDup (dict_keys kept))
    by (apply filter_rates_NoDup; constructor).
  rewrite (forex_rows_of clock k _ kept (VStr base)) by reflexivity.
  cbn [dict_get String.eqb Ascii.eqb Bool.eqb].
  destruct (gather (forex_attempt (VStr base) date) kept) as [l | e] eqn:Hg;
    [| split; constructor].
  split.
  - apply Forall_forall. intros c Hc. apply filter_In in Hc.
    destruct Hc as [Hc _].
    destruct (gather_In _ _ _ _ Hg Hc) as ([key v] & Hp & Ha).
    destruct (forex_attempt_some _ _ _ _ Ha) as (Hf & Ht & Hb & _).
    cbn [fst snd] in Hf, Ht. rewrite Ht.
    pose proof (dict_get_In kept key v Hnd Hp) as Hkv.
    unfold kept in Hkv. rewrite filter_rates_get in Hkv. cbn [dict_get] in Hkv.
    destruct (existsb (String.eqb key) targets) eqn:Hex;
      [| discriminate Hkv].
    destruct (dict_mem rates key); [| discriminate Hkv].
    cbn [andb] in Hkv. repeat split; [exact Hb | | now exists v].
    apply existsb_exists in Hex. destruct Hex as (t & Hin & Heq).
    apply String.eqb_eq in Heq. now subst t.
  - destruct (gather_subseq _ _ _ Hg) as (picked & Hsub & Hmap).
    destruct (map_filter_subseq _ ForexTransformer.keep _ _ Hmap)
      as (sel & Hsub' & Hsel).
    assert (Hkeys : map ForexTransformer.target_currency
                      (filter ForexTransformer.keep l) = map fst sel).
    { clear Hg Hsub Hmap Hsub'. revert sel Hsel.
      induction (filter ForexTransformer.keep l) as [| c cs IH];
        intros [| p sel] Hk; try discriminate; [reflexivity |].
      simpl in Hk. injection Hk as Hp Hrest. simpl.
      destruct (forex_attempt_some _ _ _ _ Hp) as (_ & -> & _).
      f_equal. now apply IH. }
    rewrite Hkeys.
    apply (subseq_NoDup _ (dict_keys kept)); [| exact Hnd].
    apply subseq_map. now apply (subseq_trans _ picked).
Qed.

(** The theorem at the request of EUR and XXX to the provider that knows
    the euro only. *)
Lemma forex_lane_rows_witness :
  exists raw,
    fst (ForexExtractor.extract_exchange_rates unit eur_provider "USD"
           ["EUR"; "XXX"] (BaseExtractor.mkEnv tt [])) = Ret raw /\
    Forall
      (fun c =>
         ForexTransformer.base_currency c = VStr "USD" /\
         In (ForexTransformer.target_currency c) ["EUR"; "XXX"] /\
         exists v,
           dict_get eur_rates (ForexTransformer.target_currency c) = Some v /\
           py_float v = Ret (ForexTransformer.exchange_rate c))
      (rows_of (fst (ForexTransformer.transform ticking_clock raw 0%nat))) /\
    NoDup
      (map ForexTransformer.target_currency
         (rows_of (fst (ForexTransformer.transform ticking_clock raw 0%nat)))).
Proof.
  apply (forex_lane_rows unit eur_provider ticking_clock 0%nat "USD"
           ["EUR"; "XXX"] (BaseExtractor.mkEnv tt []) eur_body eur_rates tt);
    reflexivity.
Defined.

(** X17: when the body has no rate table (a failure, or an object without
    ['rates']), the forex lane ends without a write and without an error:
    the extraction returns [None] after its one request, the transformer
    returns the empty frame on it, and the loader returns 0 on that and
    asks nothing of the store. *)
Theorem forex_lane_without_rates (World Store : Type)
    (http_get : request -> World -> pyval * World)
    (to_sql : string -> DataFrame (stamped ForexTransformer.row) -> Store ->
              pyres unit * Store)
    (clock : nat -> datetime) (k : nat) (base : string)
    (targets : list string) (s : BaseExtractor.env World)
    (body : pyval) (w : World) (db : DataLoader.db Store) :
  http_get (mkRequest base []) (BaseExtractor.world s) = (body, w) ->
  body = VNone \/ (exists d, body = VDict d /\ dict_get d "rates" = None) ->
  ForexExtractor.extract_exchange_rates World http_get base targets s =
  (Ret VNone,
   BaseExtractor.mkEnv w
     (BaseExtractor.events s ++ [Fetch (mkRequest base []) body])) /\
  ForexTransformer.transform clock VNone k = (Ret empty_frame, k) /\
  DataLoader.load_forex Store _ to_sql empty_frame db = (Ret 0, db).
Proof.
  intros Hget Hbody. repeat split.
  unfold ForexExtractor.extract_exchange_rates, bind, BaseExtractor.get, lift.
  rewrite Hget. destruct Hbody as [-> | (d & -> & Hr)]; [reflexivity |].
  unfold truthy_and_in. destruct d as [| p d']; [reflexivity |].
  cbn [truthy py_in]. unfold dict_mem. now rewrite Hr.
Qed.

(** The theorem at a provider that fails. *)
Lemma forex_lane_without_rates_witness :
  ForexExtractor.extract_exchange_rates unit (fun _ w => (VNone, w)) "USD"
    ["EUR"] (BaseExtractor.mkEnv tt []) =
  (Ret VNone,
   BaseExtractor.mkEnv tt ([] ++ [Fetch (mkRequest "USD" []) VNone])) /\
  ForexTransformer.transform ticking_clock VNone 0%nat =
  (Ret empty_frame, 0%nat) /\
  DataLoader.load_forex (list (string * Z)) (stamped ForexTransformer.row)
    full_after_three empty_frame (DataLoader.mkDb [] []) =
  (Ret 0, DataLoader.mkDb [] []).
Proof.
  apply (forex_lane_without_rates unit (list (string * Z))
           (fun _ w => (VNone, w)) full_after_three ticking_clock 0%nat
           "USD" ["EUR"] (BaseExtractor.mkEnv tt []) VNone tt
           (DataLoader.mkDb [] [])).
  - reflexivity.
  - left. reflexivity.
Defined.

(** X18: on a body that is an object with entries, [extract_all_rates]
    returns the body as it is, base, date and rates, when it has no
    ['rates'] or when ['rates'] has a length; when ['rates'] is null, a
    number or a boolean it raises the [TypeError] of the [len] of its log
    line, although the request succeeded. *)
Theorem extract_all_rates_outcome (World : Type)
    (http_get : request -> World -> pyval * World) (base : string)
    (s : BaseExtractor.env World) (d : pydict) (w : World) :
  http_get (mkRequest base []) (BaseExtractor.world s) = (VDict d, w) ->
  d <> [] ->
  ForexExtractor.extract_all_rates World http_get base s =
  (match dict_get d "rates" with
   | Some (VDict _) | Some (VList _) | Some (VStr _) | None => Ret (VDict d)
   | Some _ => Raise TypeError
   end,
   BaseExtractor.mkEnv w
     (BaseExtractor.events s ++ [Fetch (mkRequest base []) (VDict d)])).
Proof.
  intros Hget Hd.
  unfold ForexExtractor.extract_all_rates, bind, BaseExtractor.get, lift.
  rewrite Hget. destruct d as [| p d']; [congruence |].
  cbn [truthy py_get pbind].
  destruct (dict_get (p :: d') "rates") as [[| | | | | |] |]; reflexivity.
Qed.

(** The theorem at the provider that knows the euro only. *)
Lemma extract_all_rates_outcome_witness :
  ForexExtractor.extract_all_rates unit eur_provider "USD"
    (BaseExtractor.mkEnv tt []) =
  (match dict_get eur_body "rates" with
   | Some (VDict _) | Some (VList _) | Some (VStr _) | None =>
       Ret (VDict eur_body)
   | Some _ => Raise TypeError
   end,
   BaseExtractor.mkEnv tt
     ([] ++ [Fetch (mkRequest "USD" []) (VDict eur_body)])).
Proof.
  apply (extract_all_rates_outcome unit eur_provider "USD"
           (BaseExtractor.mkEnv tt []) eur_body tt).
  - reflexivity.
  - discriminate.
Defined.

(** ** Crypto extractor *)

(** The entries of a record made by [extract_crypto_prices]. *)
Lemma crypto_entries_wrap (p : string * pyval) (c : CryptoTransformer.row) :
  CryptoTransformer.entries (CryptoExtractor.wrap p) = Ret c ->
  CryptoTransformer.symbol c = upper (fst p) /\
  CryptoTransformer.name c = VStr (capitalize (fst p)) /\
  CryptoTransformer.float_get2 (snd p) "usd" "current_price" =
  Ret (CryptoTransformer.current_price c) /\
  CryptoTransformer.float_get2 (snd p) "usd_market_cap" "market_cap" =
  Ret (CryptoTransformer.market_cap c) /\
  CryptoTransformer.float_get2 (snd p) "usd_24h_vol" "total_volume" =
  Ret (CryptoTransformer.total_volume c) /\
  CryptoTransformer.float_get2 (snd p) "usd_24h_change"
    "price_change_percentage_24h" =
  Ret (CryptoTransformer.price_change_24h c).
Proof.
  destruct p as [id data]. unfold CryptoExtractor.wrap. cbn [fst snd].
  unfold CryptoTransformer.entries. cbn [py_in pbind].
  change (dict_mem [("id", VStr id); ("data", data)] "market_data")
    with false. cbv iota.
  unfold CryptoTransformer.simple. cbn [py_get pbind].
  change (dict_get [("id", VStr id); ("data", data)] "id")
    with (Some (VStr id)).
  change (dict_get [("id", VStr id); ("data", data)] "data")
    with (Some data).
  change (dict_get [("id", VStr id); ("data", data)] "symbol")
    with (@None pyval).
  change (dict_get [("id", VStr id); ("data", data)] "name")
    with (@None pyval).
  cbn [py_upper py_capitalize pbind]. intros H. pinv_all.
  injection H as <-. now repeat split.
Qed.

Lemma float_get2_priority (data : pyval) (k1 k2 : string) (f : pyfloat) :
  CryptoTransformer.float_get2 data k1 k2 = Ret f ->
  exists fields,
    data = VDict fields /\
    py_float
      match dict_get fields k1 with
      | Some x => x
      | None =>
          match dict_get fields k2 with
          | Some x => x
          | None => VInt 0
          end
      end = Ret f.
Proof.
  unfold CryptoTransformer.float_get2.
  destruct data as [| | | | | | fields]; try discriminate.
  cbn [py_get pbind]. intros H. exists fields. split; [reflexivity |].
  now destruct (dict_get fields k1).
Qed.



(** The prices of the rows of that body: ['usd'] goes before
    ['current_price'], and 0 stands for a price under neither. *)
Lemma crypto_prices_priority_sample :
  map (fun c => (CryptoTransformer.symbol c, CryptoTransformer.current_price c))
    (rows_of (fst (CryptoTransformer.transform ticking_clock
                     (VList (map CryptoExtractor.wrap mixed_prices_body))
                     0%nat))) =
  [("BITCOIN", FNum (inject_Z 45000)); ("ETHEREUM", FNum (Qmake 5 2));
   ("DOGECOIN", float_of_Z 0)].
Proof. reflexivity. Qed.

(** X20: whatever the provider answers, [extract_crypto_details] returns
    after its one request and does not raise.  It returns the body when the
    body is a list with elements, and [None] otherwise; on [None] the
    transformer returns the empty frame, on which the loader returns 0 and
    asks nothing of the store. *)
Theorem crypto_details_lane (World Store : Type)
    (http_get : request -> World -> pyval * World)
    (to_sql : string -> DataFrame (stamped CryptoTransformer.row) -> Store ->
              pyres unit * Store)
    (clock : nat -> datetime) (k : nat) (coin_ids : list string)
    (s : BaseExtractor.env World) (db : DataLoader.db Store) :
  CryptoExtractor.extract_crypto_details World http_get coin_ids s =
  (Ret (match fst (http_get (CryptoExtractor.details_request coin_ids)
                     (BaseExtractor.world s)) with
        | VList (x :: l) => VList (x :: l)
        | _ => VNone
        end),
   BaseExtractor.mkEnv
     (snd (http_get (CryptoExtractor.details_request coin_ids)
             (BaseExtractor.world s)))
     (BaseExtractor.events s ++
      [Fetch (CryptoExtractor.details_request coin_ids)
         (fst (http_get (CryptoExtractor.details_request coin_ids)
                 (BaseExtractor.world s)))])) /\
  CryptoTransformer.transform clock VNone k = (Ret empty_frame, k) /\
  DataLoader.load_crypto Store _ to_sql empty_frame db = (Ret 0, db).
Proof.
  repeat split.
  unfold CryptoExtractor.extract_crypto_details, bind, BaseExtractor.get.
  unfold CryptoExtractor.details_request. cbn [endpoint params].
  destruct (http_get _ (BaseExtractor.world s)) as [body w]. cbn [fst snd].
  destruct body as [| [] | z | f | str | [| x l] | [| p d]];
    try reflexivity.
  - cbn [truthy is_list]. now rewrite andb_false_r.
  - cbn [truthy is_list]. now rewrite andb_false_r.
  - cbn [truthy is_list]. now rewrite andb_false_r.
Qed.

(** ** Schema and loader *)

Lemma columns_of_untimed {F} (r : pyres (DataFrame (stamped F))) :
  columns_of r = columns_of (res_map untimed r).
Proof. now destruct r. Qed.

(** X21: the columns of a frame a transformer returns are those of the
    table of its lane, in the order of their declaration, without the
    primary key, which the store fills in; or the frame has no column at
    all, and then no row either. *)
Theorem frame_columns_match_schema (clock : nat -> datetime) (k : nat)
    (v : pyval) :
  (columns_of (fst (StocksTransformer.transform clock v k)) = [] \/
   DatabaseSchema.primary_key DatabaseSchema.Stock
   :: columns_of (fst (StocksTransformer.transform clock v k)) =
   DatabaseSchema.table_columns DatabaseSchema.Stock) /\
  (columns_of (fst (CryptoTransformer.transform clock v k)) = [] \/
   DatabaseSchema.primary_key DatabaseSchema.Crypto
   :: columns_of (fst (CryptoTransformer.transform clock v k)) =
   DatabaseSchema.table_columns DatabaseSchema.Crypto) /\
  (columns_of (fst (ForexTransformer.transform clock v k)) = [] \/
   DatabaseSchema.primary_key DatabaseSchema.Forex
   :: columns_of (fst (ForexTransformer.transform clock v k)) =
   DatabaseSchema.table_columns DatabaseSchema.Forex).
Proof.
  rewrite !columns_of_untimed.
  rewrite stocks_transform_cells, crypto_transform_cells,
    forex_transform_cells.
  repeat split.
  - unfold stocks_cells.
    destruct (py_iter v) as [items | e]; cbn [pbind]; [| now left].
    destruct (gather stocks_attempt items) as [[| c l] | e]; cbn [pbind];
      [now left | | now left].
    unfold stocks_clean.
    destruct (map_res _ _) as [kept | e]; [now right | now left].
  - unfold crypto_cells. destruct (negb (truthy v)); [now left |].
    destruct (py_iter v) as [items | e]; cbn [pbind]; [| now left].
    destruct (gather crypto_attempt items) as [[| c l] | e]; cbn [pbind];
      [now left | now right | now left].
  - unfold forex_cells. destruct (negb (truthy v)); [now left |].
    destruct (py_in "rates" v) as [b | e]; cbn [pbind]; [| now left].
    destruct (negb b); [now left |].
    destruct (py_getitem v "base") as [base | e]; cbn [pbind]; [| now left].
    destruct (py_getitem v "rates") as [rates | e]; cbn [pbind];
      [| now left].
    destruct (py_get v "date" VNone) as [date | e]; cbn [pbind];
      [| now left].
    destruct (py_items rates) as [items | e]; cbn [pbind]; [| now left].
    destruct (gather (forex_attempt base date) items) as [[| c l] | e];
      cbn [pbind]; [now left | now right | now left].
Qed.

Section Counting.

Variable Store : Type.
Variable R : Type.
Variable to_sql : string -> DataFrame R -> Store -> pyres unit * Store.
Variable count_rows : string -> Store -> pyres Z.

#[local] Abbreviation counts := (DataLoader.get_record_counts Store count_rows).

Lemma get_session_connected (m : DatabaseSchema.DatabaseManager) :
  DatabaseSchema.Session (fst (DatabaseSchema.get_session m)) <> None.
Proof.
  unfold DatabaseSchema.get_session. cbn [fst].
  destruct (DatabaseSchema.Session m) eqn:H; [now rewrite H | discriminate].
Qed.

Lemma get_record_counts_run (s : DataLoader.loader Store) :
  counts s =
  ((a <-- count_rows "stocks" (DataLoader.store (DataLoader.database s)) ;;
    b <-- count_rows "crypto" (DataLoader.store (DataLoader.database s)) ;;
    c <-- count_rows "forex" (DataLoader.store (DataLoader.database s)) ;;
    Ret (VDict [("stocks", VInt a); ("crypto", VInt b); ("forex", VInt c)]))
   %pyres,
   DataLoader.mkLoader (fst (DatabaseSchema.get_session (DataLoader.db_manager s)))
     (DataLoader.database s) (DataLoader.sessions s)).
Proof.
  unfold DataLoader.get_record_counts, bind, DataLoader.open_session,
    try_finally, DataLoader.query_count, DataLoader.close_session, ret.
  destruct (DatabaseSchema.get_session (DataLoader.db_manager s)) as [m url].
  cbn [fst DataLoader.database DataLoader.store DatabaseSchema.tablename
         DataLoader.db_manager DataLoader.sessions tl].
  destruct (count_rows "stocks" _) as [a | e]; cbn [pbind]; [| reflexivity].
  destruct (count_rows "crypto" _) as [b | e]; cbn [pbind]; [| reflexivity].
  destruct (count_rows "forex" _) as [c | e]; cbn [pbind]; reflexivity.
Qed.

(** X22: [get_record_counts] closes the session it opens, whether the
    counts return or one of them raises: the open sessions are those of
    before, the store and its writes are untouched, and the manager is
    connected afterwards.  It returns the three counts under the names of
    their tables, or raises the exception of the first count that raises. *)
Theorem get_record_counts_closes (s : DataLoader.loader Store) :
  DataLoader.sessions (snd (counts s)) = DataLoader.sessions s /\
  DataLoader.database (snd (counts s)) = DataLoader.database s /\
  DatabaseSchema.Session (DataLoader.db_manager (snd (counts s))) <> None /\
  fst (counts s) =
  (a <-- count_rows (DatabaseSchema.tablename DatabaseSchema.Stock)
           (DataLoader.store (DataLoader.database s)) ;;
   b <-- count_rows (DatabaseSchema.tablename DatabaseSchema.Crypto)
           (DataLoader.store (DataLoader.database s)) ;;
   c <-- count_rows (DatabaseSchema.tablename DatabaseSchema.Forex)
           (DataLoader.store (DataLoader.database s)) ;;
   Ret (VDict [("stocks", VInt a); ("crypto", VInt b); ("forex", VInt c)]))
  %pyres.
Proof.
  rewrite get_record_counts_run. cbn [fst snd DataLoader.sessions
    DataLoader.database DataLoader.db_manager DatabaseSchema.tablename].
  repeat split. apply get_session_connected.
Qed.

(** X23: a load that succeeds shows in the counts, on a store where a
    write that succeeds adds its rows to its table and to no other: after
    a load of a frame to the table of a model, [get_record_counts] gives
    the count of before plus the rows of the frame for that table, and the
    counts of before for the two others.  The three loaders write to the
    tables of the three models. *)
Theorem load_then_count (m : DatabaseSchema.model) (df : DataFrame R)
    (s : DataLoader.loader Store) (st : Store) (a b c : Z) :
  (forall table frame st0 st1 t n,
      to_sql table frame st0 = (Ret tt, st1) ->
      count_rows t st0 = Ret n ->
      count_rows t st1 =
      Ret (n + if String.eqb t table then len frame else 0)) ->
  empty df = false ->
  to_sql (DatabaseSchema.tablename m) df
    (DataLoader.store (DataLoader.database s)) = (Ret tt, st) ->
  fst (counts s) =
  Ret (VDict [("stocks", VInt a); ("crypto", VInt b); ("forex", VInt c)]) ->
  fst ((DataLoader.on_database Store
          (DataLoader.load Store R to_sql (DatabaseSchema.tablename m) df)
        ;;; counts)%monad s) =
  Ret (VDict
         [("stocks",
           VInt (a + match m with DatabaseSchema.Stock => len df | _ => 0 end));
          ("crypto",
           VInt (b + match m with DatabaseSchema.Crypto => len df | _ => 0 end));
          ("forex",
           VInt (c + match m with DatabaseSchema.Forex => len df | _ => 0 end))])
  /\
  DataLoader.load_stocks Store R to_sql =
  DataLoader.load Store R to_sql
    (DatabaseSchema.tablename DatabaseSchema.Stock) /\
  DataLoader.load_crypto Store R to_sql =
  DataLoader.load Store R to_sql
    (DatabaseSchema.tablename DatabaseSchema.Crypto) /\
  DataLoader.load_forex Store R to_sql =
  DataLoader.load Store R to_sql
    (DatabaseSchema.tablename DatabaseSchema.Forex).
Proof.
  intros Happend Hne Hw Hc. split; [| repeat split].
  rewrite get_record_counts_run in Hc. cbn [fst] in Hc.
  destruct (count_rows "stocks" _) as [a0 | e] eqn:Ha; [| discriminate].
  destruct (count_rows "crypto" _) as [b0 | e] eqn:Hb; [| discriminate].
  destruct (count_rows "forex" _) as [c0 | e] eqn:Hf; [| discriminate].
  cbn [pbind] in Hc. injection Hc as -> -> ->.
  unfold bind at 1. unfold DataLoader.on_database.
  rewrite (load_returns Store R to_sql _ df (DataLoader.database s) st Hne Hw).
  rewrite get_record_counts_run.
  cbn [fst DataLoader.database DataLoader.store].
  rewrite (Happend _ _ _ _ "stocks" a Hw Ha).
  rewrite (Happend _ _ _ _ "crypto" b Hw Hb).
  rewrite (Happend _ _ _ _ "forex" c Hw Hf).
  cbn [pbind]. now destruct m.
Qed.

End Counting.

Lemma count_store_app (t table : string) (n : Z) (st : list (string * Z)) :
  count_store t (st ++ [(table, n)]) =
  res_map (fun k => k + if String.eqb t table then n else 0) (count_store t st).
Proof.
  unfold count_store. cbn [res_map]. f_equal.
  induction st as [| [a x] st IH]; cbn [app fold_right fst snd].
  - rewrite String.eqb_sym. destruct (String.eqb t table); lia.
  - rewrite IH. destruct (String.eqb a t); lia.
Qed.

(** The theorem at the sample frame and the store that takes every
    write. *)
Lemma load_then_count_witness :
  fst ((DataLoader.on_database (list (string * Z))
          (DataLoader.load (list (string * Z)) _ append_store
             (DatabaseSchema.tablename DatabaseSchema.Stock) aapl_frame)
        ;;; DataLoader.get_record_counts (list (string * Z)) count_store)
       %monad
         (DataLoader.mkLoader (DatabaseSchema.new_manager "markets.db")
            (DataLoader.mkDb [("stocks", 2); ("forex", 5)] []) [])) =
  Ret (VDict
         [("stocks", VInt (2 + len aapl_frame));
          ("crypto", VInt (0 + 0));
          ("forex", VInt (5 + 0))])
  /\
  DataLoader.load_stocks (list (string * Z)) _ append_store =
  DataLoader.load (list (string * Z)) (stamped StocksTransformer.row)
    append_store (DatabaseSchema.tablename DatabaseSchema.Stock) /\
  DataLoader.load_crypto (list (string * Z)) _ append_store =
  DataLoader.load (list (string * Z)) (stamped StocksTransformer.row)
    append_store (DatabaseSchema.tablename DatabaseSchema.Crypto) /\
  DataLoader.load_forex (list (string * Z)) _ append_store =
  DataLoader.load (list (string * Z)) (stamped StocksTransformer.row)
    append_store (DatabaseSchema.tablename DatabaseSchema.Forex).
Proof.
  apply (load_then_count (list (string * Z)) (stamped StocksTransformer.row)
           append_store count_store DatabaseSchema.Stock aapl_frame
           (DataLoader.mkLoader (DatabaseSchema.new_manager "markets.db")
              (DataLoader.mkDb [("stocks", 2); ("forex", 5)] []) [])
           ([("stocks", 2); ("forex", 5)] ++ [("stocks", len aapl_frame)])
           2 0 5).
  - intros table frame st0 st1 t n Hw Hn.
    unfold append_store in Hw. injection Hw as <-.
    rewrite count_store_app, Hn. reflexivity.
  - reflexivity.
  - reflexivity.
  - reflexivity.
Defined.

(** ** The demo's stocks lane *)

(** X24: the stocks lane of the demo hands the transformer one extracted
    record at a time, where it takes a list of them.  So whatever the
    provider answers and whatever is done on saving, the lane saves
    nothing: it returns when the extraction gave no quote, raises a
    [TypeError] as soon as the extraction gave one, and passes on what the
    extraction raised; it leaves the files as they were and does not read
    the clock. *)
Theorem run_stocks_pipeline_never_saves (World : Type)
    (http_get : request -> World -> pyval * World)
    (elapse : Z -> World -> World) (clock : nat -> datetime)
    (save : list (DataFrame (stamped StocksTransformer.row)) ->
            M (DemoPipeline.state World) unit)
    (api_key : string) (s : DemoPipeline.state World) :
  DemoPipeline.run_stocks_pipeline World http_get elapse clock save api_key s =
  (match
      fst (StocksExtractor.extract_multiple_stocks World http_get elapse
             api_key DemoPipeline.symbols 12 (DemoPipeline.env s))
    with
    | Ret [] => Ret tt
    | Ret (_ :: _) => Raise TypeError
    | Raise e => Raise e
    end,
   DemoPipeline.mkState
     (snd (StocksExtractor.extract_multiple_stocks World http_get elapse
             api_key DemoPipeline.symbols 12 (DemoPipeline.env s)))
     (DemoPipeline.reads s) (DemoPipeline.files s)).
Proof.
  unfold DemoPipeline.run_stocks_pipeline, bind at 1.
  unfold DemoPipeline.in_env.
  destruct (StocksExtractor.extract_multiple_stocks World http_get elapse
              api_key DemoPipeline.symbols 12 (DemoPipeline.env s))
    as [[raw | e] s1] eqn:Hrun; [| reflexivity].
  cbn [fst snd].
  destruct (extract_loop_subseq World http_get elapse api_key
              (List.length DemoPipeline.symbols) 12 DemoPipeline.symbols
              0%nat [] raw (DemoPipeline.env s) s1 Hrun)
    as (picked & -> & _).
  destruct picked as [| p picked]; [reflexivity |].
  reflexivity.
Qed.
